(** * Loophole CLI: token store and tunnel supervisor

    A shallow embedding of [internal/pkg/token] (the token store) and of
    [internal/app/loophole/loophole.go] (session build, accept loop and
    relay), with the properties of the tunnel specification stated and
    settled against it.

    Go strings are byte strings: they are modelled as [string], whose
    characters are the 256 values of [ascii]. *)

From Stdlib Require Import ZArith NArith String Ascii List Bool Lia.
From Stdlib Require Import Decimal DecimalString DecimalZ DecimalFacts DecimalPos.
From stdpp Require Import gmap strings.
Import ListNotations.

Set Warnings "-register-all".

Local Open Scope string_scope.
Local Open Scope Z_scope.

(** ** Bytes and UTF-8, as the Go runtime sees them *)

Module Utf8.

Definition code (c : ascii) : N := N_of_ascii c.

Definition inRange (lo hi : N) (c : ascii) : bool :=
  (lo <=? code c)%N && (code c <=? hi)%N.

Definition isAscii (c : ascii) : bool := (code c <? 128)%N.

(** Continuation byte, 10xxxxxx. *)
Definition cont (c : ascii) : bool := inRange 128 191 c.

(** First two bytes of a well-formed three-byte sequence (no overlong
    form, no surrogate). *)
Definition lead3 (b0 b1 : ascii) : bool :=
  (inRange 224 224 b0 && inRange 160 191 b1)
  || (inRange 225 236 b0 && cont b1)
  || (inRange 237 237 b0 && inRange 128 159 b1)
  || (inRange 238 239 b0 && cont b1).

(** First two bytes of a well-formed four-byte sequence (no overlong
    form, nothing above U+10FFFF). *)
Definition lead4 (b0 b1 : ascii) : bool :=
  (inRange 240 240 b0 && inRange 144 191 b1)
  || (inRange 241 243 b0 && cont b1)
  || (inRange 244 244 b0 && inRange 128 143 b1).

(** [utf8.DecodeRuneInString], reduced to what its callers below use:
    the width of the well-formed encoding at the head of [s], and [0]
    where Go answers [(RuneError, 1)] or the string is empty. *)
Definition runeLen (s : string) : nat :=
  match s with
  | EmptyString => 0
  | String b0 r0 =>
    if isAscii b0 then 1
    else match r0 with
    | EmptyString => 0
    | String b1 r1 =>
      if inRange 194 223 b0 && cont b1 then 2
      else match r1 with
      | EmptyString => 0
      | String b2 r2 =>
        if lead3 b0 b1 && cont b2 then 3
        else match r2 with
        | EmptyString => 0
        | String b3 _ =>
          if lead4 b0 b1 && cont b2 && cont b3 then 4 else 0
        end
      end
    end
  end%nat.

(** [utf8.ValidString]. *)
Fixpoint ValidString (s : string) : bool :=
  match s with
  | EmptyString => true
  | String b0 r0 =>
    if isAscii b0 then ValidString r0
    else match r0 with
    | EmptyString => false
    | String b1 r1 =>
      if inRange 194 223 b0 && cont b1 then ValidString r1
      else match r1 with
      | EmptyString => false
      | String b2 r2 =>
        if lead3 b0 b1 && cont b2 then ValidString r2
        else match r2 with
        | EmptyString => false
        | String b3 r3 =>
          if lead4 b0 b1 && cont b2 && cont b3 then ValidString r3
          else false
        end
      end
    end
  end.

Definition byte (n : N) : ascii := ascii_of_N n.

(** U+FFFD, the replacement character, as UTF-8. *)
Definition replacement : string :=
  String (byte 239) (String (byte 191) (String (byte 189) EmptyString)).

(** [utf8.EncodeRune] (as [utf8.AppendRune] would write it). *)
Definition EncodeRune (r : N) : string :=
  if (r <? 128)%N then String (byte r) EmptyString
  else if (r <? 2048)%N then
    String (byte (192 + r / 64)) (String (byte (128 + r mod 64)) EmptyString)
  else if ((55296 <=? r) && (r <? 57344))%N || (1114111 <? r)%N then
    replacement
  else if (r <? 65536)%N then
    String (byte (224 + r / 4096))
      (String (byte (128 + (r / 64) mod 64))
        (String (byte (128 + r mod 64)) EmptyString))
  else
    String (byte (240 + r / 262144))
      (String (byte (128 + (r / 4096) mod 64))
        (String (byte (128 + (r / 64) mod 64))
          (String (byte (128 + r mod 64)) EmptyString))).

End Utf8.

(** ** [strconv] and [net/url] helpers *)

Module Strconv.

(** [strconv.Itoa] / [strconv.FormatInt n 10]. *)
Definition Itoa (n : Z) : string := NilZero.string_of_int (Z.to_int n).

Definition minInt64 : Z := - 2 ^ 63.
Definition maxInt64 : Z := 2 ^ 63 - 1.

Definition inInt64 (n : Z) : bool := (minInt64 <=? n) && (n <=? maxInt64).

(** [strconv.ParseInt s 10 64] on a literal without a leading [+]:
    an optional [-] and one or more decimal digits, in range. *)
Definition ParseInt (s : string) : option Z :=
  match NilZero.int_of_string s with
  | Some d => let n := Z.of_int d in if inInt64 n then Some n else None
  | None => None
  end.

Inductive numError :=
| ErrSyntax     (* strconv.ErrSyntax *)
| ErrRange.     (* strconv.ErrRange *)

(** [strconv.ParseInt s 10 bitSize]: an optional sign and one or more
    decimal digits. The value is [0] on a syntax error and the nearest
    bound when the number does not fit [bitSize] bits. *)
Definition ParseIntBits (s : string) (bitSize : Z) : Z * option numError :=
  let parsed :=
    match s with
    | EmptyString => None
    | String c r =>
      if Ascii.eqb c "+" then option_map Z.of_uint (NilZero.uint_of_string r)
      else option_map Z.of_int (NilZero.int_of_string s)
    end in
  match parsed with
  | None => (0, Some ErrSyntax)
  | Some n =>
    let cutoff := 2 ^ (bitSize - 1) in
    if cutoff <=? n then (cutoff - 1, Some ErrRange)
    else if n <? - cutoff then (- cutoff, Some ErrRange)
    else (n, None)
  end.

Definition hexDigit (n : N) : ascii :=
  if (n <? 10)%N then ascii_of_N (48 + n) else ascii_of_N (87 + n).

Definition upperHexDigit (n : N) : ascii :=
  if (n <? 10)%N then ascii_of_N (48 + n) else ascii_of_N (55 + n).

(** Value of a hexadecimal digit of either case. *)
Definition unhex (c : ascii) : option N :=
  let n := Utf8.code c in
  if Utf8.inRange 48 57 c then Some (n - 48)%N
  else if Utf8.inRange 97 102 c then Some (n - 87)%N
  else if Utf8.inRange 65 70 c then Some (n - 55)%N
  else None.

End Strconv.

Module Url.

(** Bytes [url.QueryEscape] leaves alone: letters, digits, [-], [_],
    [.] and [~]. *)
Definition unreserved (c : ascii) : bool :=
  Utf8.inRange 97 122 c || Utf8.inRange 65 90 c || Utf8.inRange 48 57 c
  || Ascii.eqb c "-" || Ascii.eqb c "_" || Ascii.eqb c "." || Ascii.eqb c "~".

(** [url.QueryEscape]. *)
Fixpoint QueryEscape (s : string) : string :=
  match s with
  | EmptyString => EmptyString
  | String c r =>
    if unreserved c then String c (QueryEscape r)
    else if Ascii.eqb c " " then String "+" (QueryEscape r)
    else String "%" (String (Strconv.upperHexDigit (Utf8.code c / 16))
           (String (Strconv.upperHexDigit (Utf8.code c mod 16)) (QueryEscape r)))
  end.

End Url.

(** ** [encoding/json], for the documents the token store exchanges *)

Module Json.

Inductive value :=
| Null
| Bool (b : bool)
| Number (literal : string)
| Str (s : string)
| Array (elems : list value)
| Object (members : list (string * value)).

(** The quotation mark, the byte 0x22. *)
Abbreviation dquote := (Ascii false true false false false true false false).

(** *** Encoding a string ([encodeState.string] with HTML escaping on) *)

(** Members of [htmlSafeSet]: printable ASCII but the quote, the
    backslash and the three HTML characters. *)
Definition htmlSafe (c : ascii) : bool :=
  Utf8.inRange 32 127 c
  && negb (Ascii.eqb c dquote || Ascii.eqb c "\" || Ascii.eqb c "<"
           || Ascii.eqb c ">" || Ascii.eqb c "&").

Definition escapeAscii (c : ascii) : string :=
  if htmlSafe c then String c EmptyString
  else if Ascii.eqb c "\" || Ascii.eqb c dquote then String "\" (String c EmptyString)
  else if Ascii.eqb c (Utf8.byte 10) then "\n"
  else if Ascii.eqb c (Utf8.byte 13) then "\r"
  else if Ascii.eqb c (Utf8.byte 9) then "\t"
  else "\u00" ++ String (Strconv.hexDigit (Utf8.code c / 16))
                   (String (Strconv.hexDigit (Utf8.code c mod 16)) EmptyString).

(** U+2028 and U+2029 are E2 80 A8 and E2 80 A9. *)
Definition lineSep (b0 b1 b2 : ascii) : option string :=
  if Ascii.eqb b0 (Utf8.byte 226) && Ascii.eqb b1 (Utf8.byte 128) then
    if Ascii.eqb b2 (Utf8.byte 168) then Some ("\" ++ "u2028")
    else if Ascii.eqb b2 (Utf8.byte 169) then Some ("\" ++ "u2029")
    else None
  else None.

(** The characters between the quotes. A byte that starts no
    well-formed UTF-8 sequence is written as the escape of U+FFFD. *)
Fixpoint quoteBody (s : string) : string :=
  match s with
  | EmptyString => EmptyString
  | String b0 r0 =>
    if Utf8.isAscii b0 then escapeAscii b0 ++ quoteBody r0
    else
      match Utf8.runeLen s, r0 with
      | 2%nat, String b1 r1 => String b0 (String b1 (quoteBody r1))
      | 3%nat, String b1 (String b2 r2) =>
        match lineSep b0 b1 b2 with
        | Some esc => esc ++ quoteBody r2
        | None => String b0 (String b1 (String b2 (quoteBody r2)))
        end
      | 4%nat, String b1 (String b2 (String b3 r3)) =>
        String b0 (String b1 (String b2 (String b3 (quoteBody r3))))
      | _, _ => ("\" ++ "ufffd") ++ quoteBody r0
      end
  end.

(** What the coercion above amounts to: [s] with every byte that
    starts no well-formed UTF-8 sequence replaced by U+FFFD. *)
Fixpoint coerceUTF8 (s : string) : string :=
  match s with
  | EmptyString => EmptyString
  | String b0 r0 =>
    if Utf8.isAscii b0 then String b0 (coerceUTF8 r0)
    else
      match Utf8.runeLen s, r0 with
      | 2%nat, String b1 r1 => String b0 (String b1 (coerceUTF8 r1))
      | 3%nat, String b1 (String b2 r2) =>
        String b0 (String b1 (String b2 (coerceUTF8 r2)))
      | 4%nat, String b1 (String b2 (String b3 r3)) =>
        String b0 (String b1 (String b2 (String b3 (coerceUTF8 r3))))
      | _, _ => Utf8.replacement ++ coerceUTF8 r0
      end
  end.

Definition quote (s : string) : string :=
  String dquote (quoteBody s ++ String dquote EmptyString).

(** A member name as the encoder writes it ([nameEscHTML] of a struct
    field): the name between quotation marks and a colon. The field
    names of this program are letters and underscores, which the
    encoder copies. *)
Definition memberName (name : string) : string :=
  String dquote (name ++ String dquote (String ":" EmptyString)).

(** *** Decoding a string (the scanner's string states, then [unquote]) *)

Definition getu4 (h1 h2 h3 h4 : ascii) : option N :=
  match Strconv.unhex h1, Strconv.unhex h2, Strconv.unhex h3, Strconv.unhex h4 with
  | Some a, Some b, Some c, Some d => Some (((a * 16 + b) * 16 + c) * 16 + d)%N
  | _, _, _, _ => None
  end.

Definition isSurrogate (r : N) : bool := ((55296 <=? r) && (r <? 57344))%N.

(** [utf16.DecodeRune]: [None] where Go answers U+FFFD. *)
Definition decodeSurrogates (r1 r2 : N) : option N :=
  if ((55296 <=? r1) && (r1 <? 56320) && (56320 <=? r2) && (r2 <? 57344))%N
  then Some ((r1 - 55296) * 1024 + (r2 - 56320) + 65536)%N
  else None.

Definition simpleEscape (e : ascii) : option ascii :=
  if Ascii.eqb e dquote || Ascii.eqb e "\" || Ascii.eqb e "/" then Some e
  else if Ascii.eqb e "b" then Some (Utf8.byte 8)
  else if Ascii.eqb e "f" then Some (Utf8.byte 12)
  else if Ascii.eqb e "n" then Some (Utf8.byte 10)
  else if Ascii.eqb e "r" then Some (Utf8.byte 13)
  else if Ascii.eqb e "t" then Some (Utf8.byte 9)
  else None.

Definition prepend (p : string) (r : option (string * string))
  : option (string * string) :=
  match r with
  | Some (s, rest) => Some (p ++ s, rest)
  | None => None
  end.

(** The second half of a surrogate pair, when [s] starts with one. *)
Definition lowSurrogate (hi : N) (s : string) : option N :=
  match s with
  | String b (String u (String k1 (String k2 (String k3 (String k4 _))))) =>
    if Ascii.eqb b "\" && Ascii.eqb u "u" then
      match getu4 k1 k2 k3 k4 with
      | Some lo => decodeSurrogates hi lo
      | None => None
      end
    else None
  | _ => None
  end.

(** Reads a string literal after its opening quote: the decoded text
    and the input after the closing quote; [None] for a syntax error
    (control character, bad escape, no closing quote). *)
Fixpoint unquoteBody (s : string) : option (string * string) :=
  match s with
  | EmptyString => None
  | String c r =>
    if Ascii.eqb c dquote then Some (EmptyString, r)
    else if Ascii.eqb c "\" then
      match r with
      | EmptyString => None
      | String e r' =>
        if Ascii.eqb e "u" then
          match r' with
          | String h1 (String h2 (String h3 (String h4 r4))) =>
            match getu4 h1 h2 h3 h4 with
            | None => None
            | Some rr =>
              if isSurrogate rr then
                match lowSurrogate rr r4, r4 with
                | Some dec, String _ (String _ (String _ (String _ (String _ (String _ r10))))) =>
                  prepend (Utf8.EncodeRune dec) (unquoteBody r10)
                | _, _ => prepend Utf8.replacement (unquoteBody r4)
                end
              else prepend (Utf8.EncodeRune rr) (unquoteBody r4)
            end
          | _ => None
          end
        else
          match simpleEscape e with
          | Some ch => prepend (String ch EmptyString) (unquoteBody r')
          | None => None
          end
      end
    else if (Utf8.code c <? 32)%N then None
    else if Utf8.isAscii c then prepend (String c EmptyString) (unquoteBody r)
    else
      match Utf8.runeLen s, r with
      | 2%nat, String b1 r1 =>
        prepend (String c (String b1 EmptyString)) (unquoteBody r1)
      | 3%nat, String b1 (String b2 r2) =>
        prepend (String c (String b1 (String b2 EmptyString))) (unquoteBody r2)
      | 4%nat, String b1 (String b2 (String b3 r3)) =>
        prepend (String c (String b1 (String b2 (String b3 EmptyString)))) (unquoteBody r3)
      | _, _ => prepend Utf8.replacement (unquoteBody r)
      end
  end.

(** *** Reading a document (the scanner's grammar) *)

Definition isWs (c : ascii) : bool :=
  Ascii.eqb c " " || Ascii.eqb c (Utf8.byte 9)
  || Ascii.eqb c (Utf8.byte 10) || Ascii.eqb c (Utf8.byte 13).

Fixpoint skipWs (s : string) : string :=
  match s with
  | String c r => if isWs c then skipWs r else s
  | EmptyString => s
  end.

Definition isDigit (c : ascii) : bool := Utf8.inRange 48 57 c.

Fixpoint spanDigits (s : string) : string * string :=
  match s with
  | String c r =>
    if isDigit c then let (ds, rest) := spanDigits r in (String c ds, rest)
    else (EmptyString, s)
  | EmptyString => (EmptyString, s)
  end.

(** [0], or a digit from 1 to 9 followed by any digits. *)
Definition scanInt (s : string) : option (string * string) :=
  match s with
  | String c r =>
    if Ascii.eqb c "0" then Some (String c EmptyString, r)
    else if Utf8.inRange 49 57 c then
      let (ds, rest) := spanDigits r in Some (String c ds, rest)
    else None
  | EmptyString => None
  end.

(** At least one digit. *)
Definition scanDigits1 (s : string) : option (string * string) :=
  match spanDigits s with
  | (EmptyString, _) => None
  | (ds, rest) => Some (ds, rest)
  end.

Definition scanFrac (s : string) : option (string * string) :=
  match s with
  | String c r =>
    if Ascii.eqb c "." then
      match scanDigits1 r with
      | Some (ds, rest) => Some (String c ds, rest)
      | None => None
      end
    else Some (EmptyString, s)
  | EmptyString => Some (EmptyString, s)
  end.

Definition scanExp (s : string) : option (string * string) :=
  match s with
  | String c r =>
    if Ascii.eqb c "e" || Ascii.eqb c "E" then
      match r with
      | String sg r' =>
        if Ascii.eqb sg "+" || Ascii.eqb sg "-" then
          match scanDigits1 r' with
          | Some (ds, rest) => Some (String c (String sg ds), rest)
          | None => None
          end
        else
          match scanDigits1 r with
          | Some (ds, rest) => Some (String c ds, rest)
          | None => None
          end
      | EmptyString => None
      end
    else Some (EmptyString, s)
  | EmptyString => Some (EmptyString, s)
  end.

(** A number literal and the input after it. *)
Definition scanNumber (s : string) : option (string * string) :=
  let (sign, s1) :=
    match s with
    | String c r => if Ascii.eqb c "-" then ("-", r) else (EmptyString, s)
    | EmptyString => (EmptyString, s)
    end in
  match scanInt s1 with
  | None => None
  | Some (ip, s2) =>
    match scanFrac s2 with
    | None => None
    | Some (fp, s3) =>
      match scanExp s3 with
      | None => None
      | Some (ep, s4) => Some (sign ++ ip ++ fp ++ ep, s4)
      end
    end
  end.

Fixpoint stripPrefix (p s : string) : option string :=
  match p with
  | EmptyString => Some s
  | String a p' =>
    match s with
    | String b s' => if Ascii.eqb a b then stripPrefix p' s' else None
    | EmptyString => None
    end
  end.

(** [maxNestingDepth] of the scanner. *)
Definition maxNestingDepth : N := 10000.

(** Recursive descent over the input; every call spends one unit of
    [fuel] and consumes at least one byte. [depth] is the number of
    objects and arrays that are open, the length of the scanner's
    [parseState]: [pushParseState] refuses to open one more than
    [maxNestingDepth]. *)
Fixpoint parseValue (fuel : nat) (depth : N) (s : string)
  : option (value * string) :=
  match fuel with
  | O => None
  | S fuel =>
    match skipWs s with
    | EmptyString => None
    | String c r =>
      if Ascii.eqb c "{" then
        if (maxNestingDepth <=? depth)%N then None    (* exceeded max depth *)
        else
          match skipWs r with
          | String c' r' =>
            if Ascii.eqb c' "}" then Some (Object [], r')
            else
              match parseMembers fuel (depth + 1)%N (String c' r') with
              | Some (ms, rest) => Some (Object ms, rest)
              | None => None
              end
          | EmptyString => None
          end
      else if Ascii.eqb c "[" then
        if (maxNestingDepth <=? depth)%N then None    (* exceeded max depth *)
        else
          match skipWs r with
          | String c' r' =>
            if Ascii.eqb c' "]" then Some (Array [], r')
            else
              match parseElems fuel (depth + 1)%N (String c' r') with
              | Some (vs, rest) => Some (Array vs, rest)
              | None => None
              end
          | EmptyString => None
          end
      else if Ascii.eqb c dquote then
        match unquoteBody r with
        | Some (str, rest) => Some (Str str, rest)
        | None => None
        end
      else if Ascii.eqb c "t" then option_map (pair (Bool true)) (stripPrefix "rue" r)
      else if Ascii.eqb c "f" then option_map (pair (Bool false)) (stripPrefix "alse" r)
      else if Ascii.eqb c "n" then option_map (pair Null) (stripPrefix "ull" r)
      else
        match scanNumber (String c r) with
        | Some (lit, rest) => Some (Number lit, rest)
        | None => None
        end
    end
  end

(** The members of an object after its brace (or after a comma), up to
    and including the closing brace. *)
with parseMembers (fuel : nat) (depth : N) (s : string)
  : option (list (string * value) * string) :=
  match fuel with
  | O => None
  | S fuel =>
    match skipWs s with
    | String q r =>
      if Ascii.eqb q dquote then
        match unquoteBody r with
        | None => None
        | Some (key, r1) =>
          match skipWs r1 with
          | String colon r2 =>
            if Ascii.eqb colon ":" then
              match parseValue fuel depth r2 with
              | None => None
              | Some (v, r3) =>
                match skipWs r3 with
                | String d r4 =>
                  if Ascii.eqb d "}" then Some ([(key, v)], r4)
                  else if Ascii.eqb d "," then
                    match parseMembers fuel depth r4 with
                    | Some (ms, rest) => Some ((key, v) :: ms, rest)
                    | None => None
                    end
                  else None
                | EmptyString => None
                end
              end
            else None
          | EmptyString => None
          end
        end
      else None
    | EmptyString => None
    end
  end

(** The elements of an array after its bracket (or after a comma), up
    to and including the closing bracket. *)
with parseElems (fuel : nat) (depth : N) (s : string)
  : option (list value * string) :=
  match fuel with
  | O => None
  | S fuel =>
    match parseValue fuel depth s with
    | None => None
    | Some (v, r1) =>
      match skipWs r1 with
      | String d r2 =>
        if Ascii.eqb d "]" then Some ([v], r2)
        else if Ascii.eqb d "," then
          match parseElems fuel depth r2 with
          | Some (vs, rest) => Some (v :: vs, rest)
          | None => None
          end
        else None
      | EmptyString => None
      end
    end
  end.

(** [checkValid] and the value it accepts: exactly one value, with
    white space around it and nothing else, nested no deeper than
    [maxNestingDepth]. *)
Definition parse (data : string) : option value :=
  match parseValue (2 * String.length data + 2) 0 data with
  | Some (v, rest) =>
    match skipWs rest with
    | EmptyString => Some v
    | String _ _ => None
    end
  | None => None
  end.

(** *** Filling a struct from an object *)

Definition isLetter (c : ascii) : bool :=
  Utf8.inRange 97 122 c || Utf8.inRange 65 90 c.

Definition upper (c : ascii) : ascii :=
  if Utf8.inRange 97 122 c then Utf8.byte (Utf8.code c - 32) else c.

(** The case-folding comparison of a field name (ASCII) with a key
    ([equalFoldRight]): letters match in either case, and in the key
    the long s (C5 BF) stands for s and the Kelvin sign (E2 84 AA)
    for k. *)
Fixpoint equalFold (name key : string) : bool :=
  match name with
  | EmptyString =>
    match key with EmptyString => true | String _ _ => false end
  | String sb name' =>
    match key with
    | EmptyString => false
    | String tb key1 =>
      if Utf8.isAscii tb then
        (Ascii.eqb sb tb || (isLetter sb && Ascii.eqb (upper sb) (upper tb)))
        && equalFold name' key1
      else
        match key1 with
        | EmptyString => false
        | String tb1 key2 =>
          if Ascii.eqb (upper sb) "S" && Ascii.eqb tb (Utf8.byte 197)
             && Ascii.eqb tb1 (Utf8.byte 191)
          then equalFold name' key2
          else
            match key2 with
            | EmptyString => false
            | String tb2 key3 =>
              Ascii.eqb (upper sb) "K" && Ascii.eqb tb (Utf8.byte 226)
              && Ascii.eqb tb1 (Utf8.byte 132) && Ascii.eqb tb2 (Utf8.byte 170)
              && equalFold name' key3
            end
        end
    end
  end.

(** The field a key addresses: the one with that exact name, and
    failing that the first whose name folds to it. *)
Definition fieldOf (names : list string) (key : string) : option string :=
  match find (String.eqb key) names with
  | Some n => Some n
  | None => find (fun n => equalFold n key) names
  end.

(** [Unmarshal] into a zero struct with the fields [names], [set n v]
    storing a value in field [n] ([None] when its type does not fit).
    Members are stored in order, so a later duplicate wins; unknown
    keys are skipped; [null] leaves the struct as it is. *)
Definition decodeStruct {T : Type} (names : list string)
    (set : T -> string -> value -> option T) (zero : T) (v : value)
  : option T :=
  match v with
  | Null => Some zero
  | Object ms =>
    fold_left
      (fun acc kv =>
         match acc with
         | None => None
         | Some t =>
           match fieldOf names (fst kv) with
           | Some n => set t n (snd kv)
           | None => Some t
           end
         end)
      ms (Some zero)
  | _ => None
  end.

Definition setString {T : Type} (upd : string -> T) (t : T) (v : value)
  : option T :=
  match v with
  | Null => Some t
  | Str s => Some (upd s)
  | _ => None
  end.

Definition setInt {T : Type} (upd : Z -> T) (t : T) (v : value) : option T :=
  match v with
  | Null => Some t
  | Number lit => option_map upd (Strconv.ParseInt lit)
  | _ => None
  end.

End Json.

(** ** The token store ([package token]) *)

Module Token.

Definition deviceCodeURL : string := "https://owlsome.eu.auth0.com/oauth/device/code".
Definition tokenURL : string := "https://owlsome.eu.auth0.com/oauth/token".
Definition clientID : string := "R569dcCOUErjw1xVZOzqc7OUCiGTYNqN".
Definition scope : string := "openid offline_access".
Definition audience : string := "https://api.loophole.cloud".

Record AuthError := {
  Error : string;             (* json:"error" *)
  ErrorDescription : string   (* json:"error_description" *)
}.

Record TokenSpec := {
  AccessToken : string;       (* json:"access_token" *)
  RefreshToken_ : string;     (* json:"refresh_token" *)
  IDToken : string;           (* json:"id_token" *)
  TokenType : string;         (* json:"token_type" *)
  ExpiresIn : Z               (* json:"expires_in", a Go int *)
}.

Definition zeroAuthError : AuthError :=
  {| Error := ""; ErrorDescription := "" |}.

Definition zeroTokenSpec : TokenSpec :=
  {| AccessToken := ""; RefreshToken_ := ""; IDToken := ""; TokenType := "";
     ExpiresIn := 0 |}.

Definition withRefreshToken (t : TokenSpec) (s : string) : TokenSpec :=
  {| AccessToken := AccessToken t; RefreshToken_ := s; IDToken := IDToken t;
     TokenType := TokenType t; ExpiresIn := ExpiresIn t |}.

(** *** The two documents *)

Definition authErrorFields : list string := ["error"; "error_description"].

Definition setAuthErrorField (t : AuthError) (name : string) (v : Json.value)
  : option AuthError :=
  if String.eqb name "error" then
    Json.setString (fun s => {| Error := s; ErrorDescription := ErrorDescription t |}) t v
  else
    Json.setString (fun s => {| Error := Error t; ErrorDescription := s |}) t v.

(** [json.Unmarshal(body, &jsonResponseBody)] for an [AuthError]. *)
Definition unmarshalAuthError (data : string) : option AuthError :=
  match Json.parse data with
  | Some v => Json.decodeStruct authErrorFields setAuthErrorField zeroAuthError v
  | None => None
  end.

Definition tokenSpecFields : list string :=
  ["access_token"; "refresh_token"; "id_token"; "token_type"; "expires_in"].

Definition setTokenSpecField (t : TokenSpec) (name : string) (v : Json.value)
  : option TokenSpec :=
  if String.eqb name "access_token" then
    Json.setString
      (fun s => {| AccessToken := s; RefreshToken_ := RefreshToken_ t;
                   IDToken := IDToken t; TokenType := TokenType t;
                   ExpiresIn := ExpiresIn t |}) t v
  else if String.eqb name "refresh_token" then
    Json.setString (withRefreshToken t) t v
  else if String.eqb name "id_token" then
    Json.setString
      (fun s => {| AccessToken := AccessToken t; RefreshToken_ := RefreshToken_ t;
                   IDToken := s; TokenType := TokenType t;
                   ExpiresIn := ExpiresIn t |}) t v
  else if String.eqb name "token_type" then
    Json.setString
      (fun s => {| AccessToken := AccessToken t; RefreshToken_ := RefreshToken_ t;
                   IDToken := IDToken t; TokenType := s;
                   ExpiresIn := ExpiresIn t |}) t v
  else
    Json.setInt
      (fun n => {| AccessToken := AccessToken t; RefreshToken_ := RefreshToken_ t;
                   IDToken := IDToken t; TokenType := TokenType t;
                   ExpiresIn := n |}) t v.

(** [json.Unmarshal(data, &token)] for a [TokenSpec]. *)
Definition unmarshalTokenSpec (data : string) : option TokenSpec :=
  match Json.parse data with
  | Some v => Json.decodeStruct tokenSpecFields setTokenSpecField zeroTokenSpec v
  | None => None
  end.

(** [json.Marshal(token)]: the fields in declaration order, no white
    space. It has no failing case for a struct of strings and an int. *)
Definition marshalTokenSpec (t : TokenSpec) : string :=
  "{" ++ Json.memberName "access_token" ++ Json.quote (AccessToken t)
  ++ "," ++ Json.memberName "refresh_token" ++ Json.quote (RefreshToken_ t)
  ++ "," ++ Json.memberName "id_token" ++ Json.quote (IDToken t)
  ++ "," ++ Json.memberName "token_type" ++ Json.quote (TokenType t)
  ++ "," ++ Json.memberName "expires_in" ++ Strconv.Itoa (ExpiresIn t) ++ "}".

(** What a stored [TokenSpec] reads back as: its strings coerced to
    well-formed UTF-8 by the encoder. *)
Definition coerceTokenSpec (t : TokenSpec) : TokenSpec :=
  {| AccessToken := Json.coerceUTF8 (AccessToken t);
     RefreshToken_ := Json.coerceUTF8 (RefreshToken_ t);
     IDToken := Json.coerceUTF8 (IDToken t);
     TokenType := Json.coerceUTF8 (TokenType t);
     ExpiresIn := ExpiresIn t |}.

(** *** Errors and the environment *)

Inductive error :=
| ErrReadingTokens        (* "There was a problem reading tokens: %v" *)
| ErrDecodingTokens       (* "There was a problem decoding tokens: %v" *)
| ErrWritingTokens        (* "There was a problem writing tokens file: %v" *)
| ErrTransport            (* the error of http.DefaultClient.Do *)
| ErrReadingBody          (* the error of ioutil.ReadAll *)
| ErrJson                 (* the error of json.Unmarshal *)
| ErrTokenExpired         (* "The device token expired, please reinitialize the login" *)
| ErrTokenDenied          (* "The device token got denied, please reinitialize the login" *)
| ErrUnexpectedResponse (body : string).
                          (* "Unexpected response from authorization server: %s" *)

Inductive result (A : Type) :=
| Ok (a : A)
| Err (e : error).
Arguments Ok {A} a.
Arguments Err {A} e.

(** The errors that ask the user to log in again. *)
Definition reinitializeLogin (e : error) : bool :=
  match e with
  | ErrTokenExpired | ErrTokenDenied => true
  | _ => false
  end.

Definition unexpectedResponse (e : error) : bool :=
  match e with
  | ErrUnexpectedResponse _ => true
  | _ => false
  end.

(** The files of the machine, and what the operating system refuses:
    the paths it does not write; among them, the paths where the
    refusal comes only after the file was opened and truncated (a
    full disk, an I/O error), with the number of bytes that get
    written before it; the paths it does not remove (that depends on
    the directory, not on the file); and the paths whose [os.Stat]
    fails otherwise than with does-not-exist. *)
Record FS := {
  files : gmap string string;
  readOnly : gset string;
  truncated : gmap string nat;
  noRemove : gset string;
  noStat : gset string
}.

Definition withFiles (fs : FS) (m : gmap string string) : FS :=
  {| files := m; readOnly := readOnly fs; truncated := truncated fs;
     noRemove := noRemove fs; noStat := noStat fs |}.

Definition ReadFile (fs : FS) (path : string) : option string :=
  files fs !! path.

(** The first [n] bytes of [data]. *)
Definition written (n : nat) (data : string) : string :=
  String.substring 0 n data.

(** [ioutil.WriteFile]: [os.OpenFile] with [O_WRONLY|O_CREATE|O_TRUNC],
    then [Write], then [Close]. The result is [err != nil] and the
    files afterwards: when the open fails the file is as it was; when
    the write or the close fails the file holds the bytes that got
    written. *)
Definition WriteFile (fs : FS) (path data : string) : bool * FS :=
  if decide (path ∈ readOnly fs) then
    match truncated fs !! path with
    | None => (true, fs)
    | Some n => (true, withFiles fs (<[path := written n data]> (files fs)))
    end
  else (false, withFiles fs (<[path := data]> (files fs))).

(** [os.Remove]: it fails on a path that is not there, and on one the
    operating system refuses to remove. *)
Definition RemoveFile (fs : FS) (path : string) : option FS :=
  if decide (path ∈ noRemove fs) then None
  else match files fs !! path with
       | Some _ => Some (withFiles fs (delete path (files fs)))
       | None => None
       end.

(** [os.Stat], as far as the package looks at it: whether the path is
    there, or [None] for an error other than does-not-exist. *)
Definition Stat (fs : FS) (path : string) : option bool :=
  if decide (path ∈ noStat fs) then None
  else match files fs !! path with
       | Some _ => Some true
       | None => Some false
       end.

Record Request := {
  Method : string;
  URL : string;
  ContentType : string;
  Payload : string
}.

(** What [http.DefaultClient.Do] and then [ioutil.ReadAll] give. *)
Inductive HttpResult :=
| DoFailed
| ReadAllFailed (status : Z)
| Response (status : Z) (body : string).

Section Store.

(** [cache.GetLocalStorageFile], of a package that is not part of
    this development: the path of a file of the per-user storage
    directory. *)
Variable GetLocalStorageFile : string -> string.

(** [IsTokenSaved]: [None] where [logger.Fatal] ends the process
    ("There was a problem reading tokens file"). *)
Definition IsTokenSaved (fs : FS) : option bool :=
  let tokensLocation := GetLocalStorageFile "tokens.json" in
  match Stat fs tokensLocation with
  | Some false => Some false      (* os.IsNotExist(err) *)
  | None => None                  (* err != nil *)
  | Some true => Some true
  end.

Definition SaveToken (fs : FS) (token : TokenSpec) : option error * FS :=
  let tokensLocation := GetLocalStorageFile "tokens.json" in
  let tokenBytes := marshalTokenSpec token in
  match WriteFile fs tokensLocation tokenBytes with
  | (true, fs') => (Some ErrWritingTokens, fs')
  | (false, fs') => (None, fs')
  end.

Definition GetAccessToken (fs : FS) : result string :=
  let tokensLocation := GetLocalStorageFile "tokens.json" in
  match ReadFile fs tokensLocation with
  | None => Err ErrReadingTokens
  | Some tokens =>
    match unmarshalTokenSpec tokens with
    | None => Err ErrDecodingTokens
    | Some token => Ok (AccessToken token)
    end
  end.

Definition GetRefreshToken (fs : FS) : result string :=
  let tokensLocation := GetLocalStorageFile "tokens.json" in
  match ReadFile fs tokensLocation with
  | None => Err ErrReadingTokens
  | Some tokens =>
    match unmarshalTokenSpec tokens with
    | None => Err ErrDecodingTokens
    | Some token => Ok (RefreshToken_ token)
    end
  end.

Definition refreshRequest (token : string) : Request :=
  let grantType := "refresh_token" in
  {| Method := "POST";
     URL := tokenURL;
     ContentType := "application/x-www-form-urlencoded";
     Payload := "grant_type=" ++ Url.QueryEscape grantType
                ++ "&client_id=" ++ Url.QueryEscape clientID
                ++ "&refresh_token=" ++ Url.QueryEscape token |}.

(** [RefreshToken], with [do] the token endpoint. The result is the
    returned error ([None] for [nil]) and the files afterwards. What
    the package's logger writes, the debug line "Error response" of
    a 4xx answer that decodes, is no part of the result. *)
Definition RefreshToken (do : Request -> HttpResult) (fs : FS)
  : option error * FS :=
  match GetRefreshToken fs with
  | Err err => (Some err, fs)
  | Ok token =>
    match do (refreshRequest token) with
    | DoFailed => (Some ErrTransport, fs)
    | ReadAllFailed _ => (Some ErrReadingBody, fs)
    | Response StatusCode body =>
      if (400 <? StatusCode) && (StatusCode <? 500) then
        match unmarshalAuthError body with
        | None => (Some ErrJson, fs)
        | Some jsonResponseBody =>
          if String.eqb (Error jsonResponseBody) "expired_token"
             || String.eqb (Error jsonResponseBody) "invalid_grand"
          then (Some ErrTokenExpired, fs)
          else if String.eqb (Error jsonResponseBody) "access_denied"
          then (Some ErrTokenDenied, fs)
          else (None, fs)
        end
      else if (200 <=? StatusCode) && (StatusCode <=? 300) then
        match unmarshalTokenSpec body with
        | None => (Some ErrJson, fs)
        | Some jsonResponseBody =>
          let jsonResponseBody := withRefreshToken jsonResponseBody token in
          match SaveToken fs jsonResponseBody with
          | (Some err, fs') => (Some err, fs')
          | (None, fs') => (None, fs')
          end
        end
      else (Some (ErrUnexpectedResponse body), fs)
    end
  end.

(** [DeleteTokens]: the files afterwards, and [None] where
    [logger.Fatal] ends the process ("There was a problem removing
    tokens file"). *)
Definition DeleteTokens (fs : FS) : option FS :=
  let tokensLocation := GetLocalStorageFile "tokens.json" in
  RemoveFile fs tokensLocation.

End Store.

(** *** The device flow *)

Record DeviceCodeSpec := {
  DeviceCode : string;               (* json:"device_code" *)
  UserCode : string;                 (* json:"user_code" *)
  DeviceExpiresIn : Z;               (* ExpiresIn, json:"expires_in" *)
  Interval : Z;                      (* json:"interval" *)
  VeritificationURI : string;        (* json:"verification_uri" *)
  VerificationURIComplete : string   (* json:"verification_uri_complete" *)
}.

Definition zeroDeviceCodeSpec : DeviceCodeSpec :=
  {| DeviceCode := ""; UserCode := ""; DeviceExpiresIn := 0; Interval := 0;
     VeritificationURI := ""; VerificationURIComplete := "" |}.

Definition deviceCodeSpecFields : list string :=
  ["device_code"; "user_code"; "expires_in"; "interval"; "verification_uri";
   "verification_uri_complete"].

Definition setDeviceCodeSpecField (t : DeviceCodeSpec) (name : string)
    (v : Json.value) : option DeviceCodeSpec :=
  if String.eqb name "device_code" then
    Json.setString
      (fun s => {| DeviceCode := s; UserCode := UserCode t;
                   DeviceExpiresIn := DeviceExpiresIn t; Interval := Interval t;
                   VeritificationURI := VeritificationURI t;
                   VerificationURIComplete := VerificationURIComplete t |}) t v
  else if String.eqb name "user_code" then
    Json.setString
      (fun s => {| DeviceCode := DeviceCode t; UserCode := s;
                   DeviceExpiresIn := DeviceExpiresIn t; Interval := Interval t;
                   VeritificationURI := VeritificationURI t;
                   VerificationURIComplete := VerificationURIComplete t |}) t v
  else if String.eqb name "expires_in" then
    Json.setInt
      (fun n => {| DeviceCode := DeviceCode t; UserCode := UserCode t;
                   DeviceExpiresIn := n; Interval := Interval t;
                   VeritificationURI := VeritificationURI t;
                   VerificationURIComplete := VerificationURIComplete t |}) t v
  else if String.eqb name "interval" then
    Json.setInt
      (fun n => {| DeviceCode := DeviceCode t; UserCode := UserCode t;
                   DeviceExpiresIn := DeviceExpiresIn t; Interval := n;
                   VeritificationURI := VeritificationURI t;
                   VerificationURIComplete := VerificationURIComplete t |}) t v
  else if String.eqb name "verification_uri" then
    Json.setString
      (fun s => {| DeviceCode := DeviceCode t; UserCode := UserCode t;
                   DeviceExpiresIn := DeviceExpiresIn t; Interval := Interval t;
                   VeritificationURI := s;
                   VerificationURIComplete := VerificationURIComplete t |}) t v
  else
    Json.setString
      (fun s => {| DeviceCode := DeviceCode t; UserCode := UserCode t;
                   DeviceExpiresIn := DeviceExpiresIn t; Interval := Interval t;
                   VeritificationURI := VeritificationURI t;
                   VerificationURIComplete := s |}) t v.

(** [json.Unmarshal(body, &jsonResponseBody)] for a [DeviceCodeSpec]. *)
Definition unmarshalDeviceCodeSpec (data : string) : option DeviceCodeSpec :=
  match Json.parse data with
  | Some v =>
    Json.decodeStruct deviceCodeSpecFields setDeviceCodeSpecField
      zeroDeviceCodeSpec v
  | None => None
  end.

Inductive deviceError :=
| ErrExecutingDeviceRequest
    (* "There was a problem executing request for device code" *)
| ErrReadingDeviceBody
    (* "There was a problem reading device token response body" *)
| ErrDecodingDeviceBody.
    (* "There was a problem decoding device token response body" *)

Definition deviceCodeRequest : Request :=
  {| Method := "POST";
     URL := deviceCodeURL;
     ContentType := "application/x-www-form-urlencoded";
     Payload := "client_id=" ++ Url.QueryEscape clientID
                ++ "&scope=" ++ Url.QueryEscape scope
                ++ "&audience=" ++ Url.QueryEscape audience |}.

(** [RegisterDevice], with [do] the device code endpoint: the device
    code or the error, and what it prints (colours left out).
    [http.NewRequest] has no failing case for this method and URL. *)
Definition RegisterDevice (do : Request -> HttpResult)
  : (DeviceCodeSpec + deviceError) * string :=
  match do deviceCodeRequest with
  | DoFailed => (inr ErrExecutingDeviceRequest, "")
  | ReadAllFailed _ => (inr ErrReadingDeviceBody, "")
  | Response _ body =>
    match unmarshalDeviceCodeSpec body with
    | None => (inr ErrDecodingDeviceBody, "")
    | Some jsonResponseBody =>
      (inl jsonResponseBody,
       "Please open " ++ VeritificationURI jsonResponseBody
       ++ " and use " ++ UserCode jsonResponseBody ++ " code to log in"
       ++ String (Utf8.byte 10) EmptyString)
    end
  end.

Definition pollRequest (deviceCode : string) : Request :=
  let grantType := "urn:ietf:params:oauth:grant-type:device_code" in
  {| Method := "POST";
     URL := tokenURL;
     ContentType := "application/x-www-form-urlencoded";
     Payload := "grant_type=" ++ Url.QueryEscape grantType
                ++ "&device_code=" ++ Url.QueryEscape deviceCode
                ++ "&client_id=" ++ Url.QueryEscape clientID |}.

(** [time.Duration(interval) * time.Second], in nanoseconds: a
    multiplication of 64-bit integers. *)
Definition pollingInterval (interval : Z) : Z :=
  (interval * 1000000000 + 2 ^ 63) mod 2 ^ 64 - 2 ^ 63.

(** What one round of the polling loop does to the outside. *)
Inductive pollEvent :=
| PollSleep (nanoseconds : Z)   (* time.Sleep(pollingInterval) *)
| PollDo (request : Request).   (* http.DefaultClient.Do(req) *)

(** The loop of [PollForToken] from its round [i], followed for
    [rounds] rounds; [do i] answers the request of round [i]. The
    result is [None] while the loop goes on. What the package's
    logger writes is no part of the result. *)
Fixpoint pollFrom (do : nat -> Request -> HttpResult) (deviceCode : string)
    (interval : Z) (i rounds : nat)
  : option (result TokenSpec) * list pollEvent :=
  match rounds with
  | O => (None, [])
  | S rounds' =>
    let req := pollRequest deviceCode in
    let round := [PollSleep (pollingInterval interval); PollDo req] in
    let continue :=
      let next := pollFrom do deviceCode interval (S i) rounds' in
      (fst next, (round ++ snd next)%list) in
    match do i req with
    | DoFailed => continue
    | ReadAllFailed _ => continue
    | Response StatusCode body =>
      if (400 <? StatusCode) && (StatusCode <? 500) then
        match unmarshalAuthError body with
        | None => continue
        | Some jsonResponseBody =>
          if String.eqb (Error jsonResponseBody) "authorization_pending"
             || String.eqb (Error jsonResponseBody) "slow_down"
          then continue
          else if String.eqb (Error jsonResponseBody) "expired_token"
                  || String.eqb (Error jsonResponseBody) "invalid_grand"
          then (Some (Err ErrTokenExpired), round)
          else if String.eqb (Error jsonResponseBody) "access_denied"
          then (Some (Err ErrTokenDenied), round)
          else continue
        end
      else if (200 <=? StatusCode) && (StatusCode <=? 300) then
        match unmarshalTokenSpec body with
        | None => continue
        | Some jsonResponseBody => (Some (Ok jsonResponseBody), round)
        end
      else (Some (Err (ErrUnexpectedResponse body)), round)
    end
  end.

(** [PollForToken], followed for [rounds] rounds of its loop. *)
Definition PollForToken (do : nat -> Request -> HttpResult)
    (deviceCode : string) (interval : Z) (rounds : nat)
  : option (result TokenSpec) * list pollEvent :=
  pollFrom do deviceCode interval 0 rounds.

End Token.

(** ** The tunnel supervisor ([package loophole]) *)

Module Endpoint.

Record t := {
  Host : string;
  Port : Z          (* int32 *)
}.

(** Modelled from the spec: [lm.Endpoint.String], of the models
    package, which is not part of this development; the specification
    gives the string form as host:port. *)
Definition String_ (e : t) : string :=
  Host e ++ ":" ++ Strconv.Itoa (Port e).

End Endpoint.

Module Config.

(** [lm.Config], with the fields [loophole.go] reads. *)
Record t := {
  Host : string;
  Port : Z;         (* int32 *)
  GatewayEndpoint : Endpoint.t;
  IdentityFile : string;
  SiteID : string;
  QR : bool
}.

End Config.

Module SiteSpecification.

(** [client.SiteSpecification], with the fields [loophole.go] reads. *)
Record t := {
  SiteID : string;
  ResultCode : Z
}.

Definition zero : t := {| SiteID := ""; ResultCode := 0 |}.

End SiteSpecification.

Module Autocert.

(** [autocert.Manager] as [generateListener] fills it in. [HostPolicy]
    holds the names given to [autocert.HostWhitelist]. *)
Record Manager := {
  Prompt_AcceptTOS : bool;
  HostPolicy : list string;
  Cache : string;       (* the directory of autocert.DirCache *)
  Email : string
}.

Section Whitelist.

(** [idna.Lookup.ToASCII], of golang.org/x/net. *)
Variable ToASCII : string -> option string.

(** [autocert.HostWhitelist]: the set of the names that convert,
    converted. *)
Definition HostWhitelist (hosts : list string) : gset string :=
  fold_right
    (fun h whitelist =>
       match ToASCII h with
       | Some h' => {[ h' ]} ∪ whitelist
       | None => whitelist
       end)
    ∅ hosts.

(** The policy lets through exactly the names of the set. *)
Definition allows (m : Manager) (host : string) : bool :=
  bool_decide (host ∈ HostWhitelist (HostPolicy m)).

End Whitelist.

End Autocert.

Module Loophole.

Definition apiURL : string := "https://api.loophole.cloud".

(** remote forwarding port (on remote SSH server network) *)
Definition remoteEndpoint : Endpoint.t :=
  {| Endpoint.Host := "127.0.0.1"; Endpoint.Port := 80 |}.

Definition newline : string := String (Utf8.byte 10) EmptyString.

(** *** What the process does to the outside *)

(** The events of the goroutine that runs [Start], in order: its
    lines and prints, the spinner, and its calls. A goroutine it
    starts is one event; what that goroutine does and logs later is
    no part of the trace, and neither is what a package it calls
    writes with a logger of its own. *)

Inductive level := DebugLevel | InfoLevel | ErrorLevel | FatalLevel.

Inductive event :=
| Log (l : level) (msg : string)
| Print (text : string)                    (* fmt.Print*, colours left out *)
| LoaderStart (prefix : string)
| LoaderStop (finalMsg : string)
| QRCode (content : string)                (* qrterminal.GenerateWithConfig *)
| ParsePublicKey (file : string)
| RegisterSite (api key siteID : string)
| RefreshToken
| SshDial (addr : string) (siteID : string) (* the user is Sprintf(siteID) *)
| Sleep (seconds : Z)
| NewCertManager (m : Autocert.Manager)
| NewReverseProxy (scheme host : string)
| NewServer
| NetListen (network addr : string)
| GoServeTLS (listener : nat)              (* go server.ServeTLS(...) *)
| SshListen (conn : nat) (addr : string)
| CloseListener (listener : nat)
| Accept (listener : nat)
| GoRelay (client : nat) (target : string) (* go: net.Dial, handleClient *)
| GoSignalHandler.

Inductive accepted :=
| AcceptEOF
| AcceptError
| AcceptConn (client : nat).

(** The answers of the outside world. An answer may depend on how many
    calls of its kind came before. *)
Record World := {
  debugEnabled : bool;                            (* log.Debug().Enabled() *)
  GetLocalStorageDir : string -> string;          (* package cache *)
  GetLocalStorageFile : string -> string;         (* package cache *)
  parsePublicKey : string -> option string;       (* None: an error *)
  registerSite : nat -> string -> string -> SiteSpecification.t * bool;
                                                  (* the pair (siteSpecs, err != nil) *)
  tokenEndpoint : nat -> Token.Request -> Token.HttpResult;
  sshDial : nat -> bool;                          (* err == nil *)
  netListen : nat -> option Z;                    (* the port the kernel gave *)
  sshListen : nat -> bool;                        (* err == nil *)
  accept : nat -> accepted
}.

(** The variables of the process, and how many times each outside
    service has been called. *)
Record State := {
  publicKey : option string;                      (* *publicKey, nil at first *)
  successfulConnectionOccured : bool;
  fs : Token.FS;
  nRegister : nat;
  nRefresh : nat;
  nDial : nat;
  nListen : nat;
  nSshListen : nat;
  nAccept : nat
}.

Definition initial (files : Token.FS) : State :=
  {| publicKey := None; successfulConnectionOccured := false; fs := files;
     nRegister := 0; nRefresh := 0; nDial := 0; nListen := 0;
     nSshListen := 0; nAccept := 0 |}.

(** *** Computations: state, the events they cause, and [os.Exit] *)

Inductive outcome (A : Type) :=
| Done (a : A)
| Exit (code : Z).
Arguments Done {A} a.
Arguments Exit {A} code.

Definition M (A : Type) : Type := State -> outcome A * State * list event.

Definition ret {A} (a : A) : M A := fun s => (Done a, s, []).

Definition bind {A B} (m : M A) (k : A -> M B) : M B :=
  fun s =>
    match m s with
    | (Done a, s1, e1) =>
      match k a s1 with
      | (r, s2, e2) => (r, s2, (e1 ++ e2)%list)
      end
    | (Exit c, s1, e1) => (Exit c, s1, e1)
    end.

Declare Scope go_scope.
Delimit Scope go_scope with go.
Bind Scope go_scope with M.

Notation "x <- m ;; k" := (bind m (fun x => k))
  (at level 100, m at next level, right associativity) : go_scope.
Notation "m ;; k" := (bind m (fun _ => k))
  (at level 100, right associativity) : go_scope.

Definition emit (e : event) : M unit := fun s => (Done tt, s, [e]).

Definition get : M State := fun s => (Done s, s, []).

Definition put (s : State) : M unit := fun _ => (Done tt, s, []).

Definition when (b : bool) (m : M unit) : M unit := if b then m else ret tt.

(** [log.Fatal()...Msg(msg)]: the line, then [os.Exit(1)]. *)
Definition fatal {A} (msg : string) : M A :=
  fun s => (Exit 1, s, [Log FatalLevel msg]).

Definition outcomeOf {A} (r : outcome A * State * list event) : outcome A :=
  fst (fst r).
Definition stateOf {A} (r : outcome A * State * list event) : State :=
  snd (fst r).
Definition eventsOf {A} (r : outcome A * State * list event) : list event :=
  snd r.

Local Open Scope go_scope.

Section Process.

Variable w : World.

(** [if el := log.Debug(); el.Enabled() { ... }] *)
Definition ifDebug (m : M unit) : M unit := when (debugEnabled w) m.

Definition debug (msg : string) : M unit := emit (Log DebugLevel msg).

Definition info (msg : string) : M unit := emit (Log InfoLevel msg).

Definition error (msg : string) : M unit := emit (Log ErrorLevel msg).

Definition println : M unit := emit (Print newline).

Definition startLoading (message : string) : M unit :=
  if negb (debugEnabled w) then emit (LoaderStart (message ++ " "))
  else emit (Print (message ++ newline)).

Definition loadingSuccess : M unit :=
  when (negb (debugEnabled w)) (emit (LoaderStop "Success!")).

Definition loadingFailure : M unit :=
  when (negb (debugEnabled w)) (emit (LoaderStop "Error!")).

(** **** Calls to the outside *)

Definition callParsePublicKey (file : string) : M (option string) :=
  fun s => (Done (parsePublicKey w file), s, [ParsePublicKey file]).

Definition setPublicKey (k : string) : M unit :=
  fun s =>
    (Done tt,
     {| publicKey := Some k;
        successfulConnectionOccured := successfulConnectionOccured s;
        fs := fs s; nRegister := nRegister s; nRefresh := nRefresh s;
        nDial := nDial s; nListen := nListen s; nSshListen := nSshListen s;
        nAccept := nAccept s |}, []).

Definition setSuccessfulConnectionOccured : M unit :=
  fun s =>
    (Done tt,
     {| publicKey := publicKey s;
        successfulConnectionOccured := true;
        fs := fs s; nRegister := nRegister s; nRefresh := nRefresh s;
        nDial := nDial s; nListen := nListen s; nSshListen := nSshListen s;
        nAccept := nAccept s |}, []).

(** [client.RegisterSite(apiURL, *publicKey, config.SiteID)] *)
Definition callRegisterSite (key siteID : string)
  : M (SiteSpecification.t * bool) :=
  fun s =>
    (Done (registerSite w (nRegister s) key siteID),
     {| publicKey := publicKey s;
        successfulConnectionOccured := successfulConnectionOccured s;
        fs := fs s; nRegister := S (nRegister s); nRefresh := nRefresh s;
        nDial := nDial s; nListen := nListen s; nSshListen := nSshListen s;
        nAccept := nAccept s |},
     [RegisterSite apiURL key siteID]).

(** [token.RefreshToken()], on the files of the machine. The call is
    the event; the line that the token package may write with its
    own logger is not one. *)
Definition callRefreshToken : M (option Token.error) :=
  fun s =>
    let r := Token.RefreshToken (GetLocalStorageFile w)
               (tokenEndpoint w (nRefresh s)) (fs s) in
    (Done (fst r),
     {| publicKey := publicKey s;
        successfulConnectionOccured := successfulConnectionOccured s;
        fs := snd r; nRegister := nRegister s; nRefresh := S (nRefresh s);
        nDial := nDial s; nListen := nListen s; nSshListen := nSshListen s;
        nAccept := nAccept s |},
     [RefreshToken]).

(** [ssh.Dial("tcp", addr, sshConfigHTTPS)]: the connection, named
    by the number of the call, or [None] for an error. *)
Definition callSshDial (addr siteID : string) : M (option nat) :=
  fun s =>
    (Done (if sshDial w (nDial s) then Some (nDial s) else None),
     {| publicKey := publicKey s;
        successfulConnectionOccured := successfulConnectionOccured s;
        fs := fs s; nRegister := nRegister s; nRefresh := nRefresh s;
        nDial := S (nDial s); nListen := nListen s; nSshListen := nSshListen s;
        nAccept := nAccept s |},
     [SshDial addr siteID]).

(** [net.Listen("tcp", ":0")]: the listener, named by the number of
    the call, and its port. *)
Definition callNetListen (network addr : string) : M (option (nat * Z)) :=
  fun s =>
    (Done (match netListen w (nListen s) with
           | Some port => Some (nListen s, port)
           | None => None
           end),
     {| publicKey := publicKey s;
        successfulConnectionOccured := successfulConnectionOccured s;
        fs := fs s; nRegister := nRegister s; nRefresh := nRefresh s;
        nDial := nDial s; nListen := S (nListen s); nSshListen := nSshListen s;
        nAccept := nAccept s |},
     [NetListen network addr]).

(** [serverSSHConnHTTPS.Listen("tcp", addr)]: the remote listener,
    named by the number of the call. *)
Definition callSshListen (conn : nat) (addr : string) : M (option nat) :=
  fun s =>
    (Done (if sshListen w (nSshListen s) then Some (nSshListen s) else None),
     {| publicKey := publicKey s;
        successfulConnectionOccured := successfulConnectionOccured s;
        fs := fs s; nRegister := nRegister s; nRefresh := nRefresh s;
        nDial := nDial s; nListen := nListen s; nSshListen := S (nSshListen s);
        nAccept := nAccept s |},
     [SshListen conn addr]).

Definition callAccept (listener : nat) : M accepted :=
  fun s =>
    (Done (accept w (nAccept s)),
     {| publicKey := publicKey s;
        successfulConnectionOccured := successfulConnectionOccured s;
        fs := fs s; nRegister := nRegister s; nRefresh := nRefresh s;
        nDial := nDial s; nListen := nListen s; nSshListen := nSshListen s;
        nAccept := S (nAccept s) |},
     [Accept listener]).

(** **** [generateListener] *)

Definition sshRetries : Z := 5.

(** The dial loop, [for i := 0; i < sshRetries && !sshSuccess; i++],
    with [remaining] the attempts left: the connection of the first
    attempt that succeeds, [None] when [sshSuccess] stays false. *)
Fixpoint dialAttempts (remaining : nat) (i : Z) (addr siteID : string)
  : M (option nat) :=
  match remaining with
  | O => ret None
  | S remaining' =>
    startLoading "Initializing secure tunnel... " ;;
    conn <- callSshDial addr siteID ;;
    match conn with
    | None =>
      loadingFailure ;;
      info ("SSH Connection failed, retrying in 10 seconds... (Attempt "
            ++ Strconv.Itoa (i + 1) ++ "/" ++ Strconv.Itoa sshRetries ++ ")") ;;
      emit (Sleep 10) ;;
      dialAttempts remaining' (i + 1) addr siteID
    | Some c => ret (Some c)
    end
  end.

(** Registration, with the reaction to each result code. *)
Definition register (config : Config.t) (key : string)
    (siteSpecs : SiteSpecification.t) : M SiteSpecification.t :=
  if negb (SiteSpecification.ResultCode siteSpecs =? 0) then
    (* checking whether siteSpecs has been used yet *)
    info "Trying to reuse old hostname..." ;;
    ret siteSpecs
  else
    startLoading "Registering your domain..." ;;
    r <- callRegisterSite key (Config.SiteID config) ;;
    let siteSpecs := fst r in
    if snd r then
      if SiteSpecification.ResultCode siteSpecs =? 400 then
        loadingFailure ;;
        error "The given hostname didn't match the requirements:" ;;
        error "- Starts with a letter" ;;
        error "- Contains only small letters and numbers" ;;
        error "- Minimum 6 characters (not applicable for premium users)" ;;
        fatal "Please fix the issue and try again"
      else if SiteSpecification.ResultCode siteSpecs =? 401 then
        ifDebug (println ;; debug "Failed to register site") ;;
        ifDebug (debug "Trying to refresh token") ;;
        err <- callRefreshToken ;;
        match err with
        | Some _ =>
          loadingFailure ;;
          fatal "Failed to refresh token, try logging in again"
        | None =>
          r <- callRegisterSite key (Config.SiteID config) ;;
          let siteSpecs := fst r in
          if snd r then
            loadingFailure ;;
            fatal "Failed to register site, try logging in again"
          else ret siteSpecs
        end
      else if SiteSpecification.ResultCode siteSpecs =? 403 then
        loadingFailure ;;
        fatal "You don't have required permissions to establish tunnel with given parameters"
      else if SiteSpecification.ResultCode siteSpecs =? 409 then
        loadingFailure ;;
        fatal "The given hostname is already taken by different used"
      else if (SiteSpecification.ResultCode siteSpecs =? 600)
              || (SiteSpecification.ResultCode siteSpecs =? 601) then
        loadingFailure ;;
        fatal "Looks like you're not logged in"
      else
        loadingFailure ;;
        fatal "Something unexpected happened, please let developers know"
    else ret siteSpecs.

(** [int32(n)] *)
Definition int32 (n : Z) : Z := (n + 2 ^ 31) mod 2 ^ 32 - 2 ^ 31.

Definition certManagerFor (siteID : string) : Autocert.Manager :=
  {| Autocert.Prompt_AcceptTOS := true;
     Autocert.HostPolicy := [siteID ++ ".loophole.site"; "abc.loophole.site"];
                                                          (* Your domain here *)
     Autocert.Cache := GetLocalStorageDir w "certs";       (* Folder for storing certificates *)
     Autocert.Email := siteID ++ "@loophole.main.dev" |}.

(** The public key, read once: [*publicKey] is nil only before the
    first call. *)
Definition loadIdentity (config : Config.t) : M string :=
  ifDebug (debug "Checking public key availability") ;;
  s <- get ;;
  match publicKey s with
  | None =>
    parsed <- callParsePublicKey (Config.IdentityFile config) ;;
    match parsed with
    | None => fatal "No public key available"
    | Some k => setPublicKey k ;; ret k
    end
  | Some k => ret k
  end.

(** The gateway session: the dial loop and its verdict. *)
Definition dialGateway (config : Config.t) (siteSpecs : SiteSpecification.t)
  : M nat :=
  ifDebug (println ;; debug "Dialing gateway to establish the tunnel..") ;;
  dialed <- dialAttempts (Z.to_nat sshRetries) 0
              (Endpoint.String_ (Config.GatewayEndpoint config))
              (SiteSpecification.SiteID siteSpecs) ;;
  match dialed with
  | None =>
    emit (Print ("An error occured while dialing into SSH. If your connection has been running for a while, this might be caused by the server shutting down your connection." ++ newline)) ;;
    fatal "Dialing SSH Gateway for HTTPS failed."
  | Some serverSSHConnHTTPS =>
    ifDebug (println ;; debug "Dialing SSH Gateway for HTTPS succeeded") ;;
    loadingSuccess ;;
    ret serverSSHConnHTTPS
  end.

(** The certificate manager, the reverse proxy and the TLS server on
    a fresh loopback listener: the listener and its port. *)
Definition serveLocally (config : Config.t) (siteSpecs : SiteSpecification.t)
  : M (nat * Z) :=
  let localEndpoint :=
    {| Endpoint.Host := Config.Host config;
       Endpoint.Port := Config.Port config |} in
  startLoading "Obtaining TLS certificate provider... " ;;
  emit (NewCertManager (certManagerFor (SiteSpecification.SiteID siteSpecs))) ;;
  ifDebug (println ;; debug "Cert Manager created") ;;
  emit (NewReverseProxy "http" (Endpoint.String_ localEndpoint)) ;;
  ifDebug (debug "Proxy via http created") ;;
  emit NewServer ;;
  loadingSuccess ;;
  startLoading "Starting the server... " ;;
  ifDebug (println ;; debug "Server for proxy created") ;;
  listening <- callNetListen "tcp" ":0" ;;
  match listening with
  | None =>
    loadingFailure ;;
    fatal "Failed to listen on TLS proxy for HTTPS"
  | Some (proxyListenerHTTPS, port) =>
    ifDebug (debug "Proxy listener for HTTPS started") ;;
    emit (GoServeTLS proxyListenerHTTPS) ;;
    ifDebug (debug "Started server TLS server") ;;
    ret (proxyListenerHTTPS, port)
  end.

(** The remote listener on the gateway. *)
Definition listenRemotely (serverSSHConnHTTPS : nat) : M nat :=
  remote <- callSshListen serverSSHConnHTTPS (Endpoint.String_ remoteEndpoint) ;;
  match remote with
  | None =>
    loadingFailure ;;
    fatal "Listening on remote endpoint for HTTPS failed"
  | Some listenerHTTPSOverSSH =>
    ifDebug (println ;; debug "Listening on remote endpoint for HTTPS succeeded") ;;
    loadingSuccess ;;
    ret listenerHTTPSOverSSH
  end.

(** The forwarding line, the QR code and the closing lines. *)
Definition announce (config : Config.t) (siteSpecs : SiteSpecification.t)
  : M unit :=
  println ;;
  emit (Print "Forwarding ") ;;
  emit (Print ("https://" ++ SiteSpecification.SiteID siteSpecs ++ ".loophole.site")) ;;
  emit (Print " -> ") ;;
  emit (Print (Config.Host config ++ ":" ++ Strconv.Itoa (Config.Port config))) ;;
  println ;;
  when (Config.QR config)
    (emit (QRCode ("http://" ++ SiteSpecification.SiteID siteSpecs ++ ".loophole.site"))) ;;
  emit (Print ("TLS Certificate will be obtained with first request to the above address, therefore first execution may be slower" ++ newline)) ;;
  println ;;
  emit (Print ("Press CTRL + C to stop the service" ++ newline)) ;;
  println ;;
  emit (Print ("Logs:" ++ newline)) ;;
  info "Awaiting connections...".

(** [generateListener], block by block in the order of the source.
    The result is the remote listener, the proxied endpoint and the
    site specification. *)
Definition generateListener (config : Config.t)
    (siteSpecs : SiteSpecification.t)
  : M (nat * Endpoint.t * SiteSpecification.t) :=
  key <- loadIdentity config ;;
  ifDebug (println ;; debug "Registering site") ;;
  siteSpecs <- register config key siteSpecs ;;
  loadingSuccess ;;
  serverSSHConnHTTPS <- dialGateway config siteSpecs ;;
  local <- serveLocally config siteSpecs ;;
  listenerHTTPSOverSSH <- listenRemotely serverSSHConnHTTPS ;;
  let proxiedEndpointHTTPS :=
    {| Endpoint.Host := "127.0.0.1"; Endpoint.Port := int32 (snd local) |} in
  announce config siteSpecs ;;
  ret (listenerHTTPSOverSSH, proxiedEndpointHTTPS, siteSpecs).

(** **** [Start] *)

Definition printWelcomeMessage : M unit :=
  emit (Print "Loophole") ;;
  emit (Print " - End to end TLS encrypted TCP communication between you and your clients") ;;
  println ;;
  println.

Definition printFeedbackMessage : M unit :=
  println ;;
  emit (Print ("Goodbye!" ++ newline)) ;;
  s <- get ;;
  when (successfulConnectionOccured s)
    (emit (Print ("Thank you for using Loophole. Please give us your feedback via https://forms.gle/K9ga7FZB3deaffnV7 and help us improve our services." ++ newline))).

(** The branch of the accept loop for [err == io.EOF]: the listener
    that replaces the closed one. The other two results of
    [generateListener] are assigned to the blank identifier. *)
Definition reconnect (config : Config.t) (listenerHTTPSOverSSH : nat)
    (siteSpecs : SiteSpecification.t) : M nat :=
  info "Connection dropped, reconnecting..." ;;
  emit (CloseListener listenerHTTPSOverSSH) ;;
  rebuilt <- generateListener config siteSpecs ;;
  ret (fst (fst rebuilt)).

(** The first [n] rounds of the accept loop of [Start]. The three
    variables of [Start] are its arguments; only the listener is
    ever assigned again. *)
Fixpoint acceptLoop (n : nat) (config : Config.t)
    (listenerHTTPSOverSSH : nat) (proxiedEndpointHTTPS : Endpoint.t)
    (siteSpecs : SiteSpecification.t) : M unit :=
  match n with
  | O => ret tt
  | S n' =>
    client <- callAccept listenerHTTPSOverSSH ;;
    match client with
    | AcceptEOF =>
      listenerHTTPSOverSSH <- reconnect config listenerHTTPSOverSSH siteSpecs ;;
      acceptLoop n' config listenerHTTPSOverSSH proxiedEndpointHTTPS siteSpecs
    | AcceptError =>
      info "Failed to accept connection over HTTPS" ;;
      acceptLoop n' config listenerHTTPSOverSSH proxiedEndpointHTTPS siteSpecs
    | AcceptConn c =>
      setSuccessfulConnectionOccured ;;
      emit (GoRelay c (Endpoint.String_ proxiedEndpointHTTPS)) ;;
      acceptLoop n' config listenerHTTPSOverSSH proxiedEndpointHTTPS siteSpecs
    end
  end.

(** [Start], followed for [n] rounds of its accept loop. *)
Definition Start (n : nat) (config : Config.t) : M unit :=
  emit GoSignalHandler ;;
  printWelcomeMessage ;;
  let siteSpecs := SiteSpecification.zero in
  built <- generateListener config siteSpecs ;;
  let listenerHTTPSOverSSH := fst (fst built) in
  let proxiedEndpointHTTPS := snd (fst built) in
  let siteSpecs := snd built in
  acceptLoop n config listenerHTTPSOverSSH proxiedEndpointHTTPS siteSpecs.

End Process.

End Loophole.

(** ** The command line ([package cmd]) *)

Module Cmd.

Inductive argError :=
| MissingPort    (* "Missing argument: port" *)
| InvalidPort.   (* "Invalid argument: port: %v" *)

(** [rootCmd.Args]: [None] for [nil]. *)
Definition Args (args : list string) : option argError :=
  match args with
  | [] => Some MissingPort
  | port :: _ =>
    match snd (Strconv.ParseIntBits port 32) with
    | Some _ => Some InvalidPort
    | None => None
    end
  end.

(** [rootCmd.Run], up to its call of [loophole.Start]: the
    configuration it passes, made from the one the flags filled.
    [None] where [args[0]] panics. *)
Definition Run (config : Config.t) (args : list string) : option Config.t :=
  let Host :=
    match args with
    | _ :: host :: _ => host
    | _ => "127.0.0.1"
    end in
  match args with
  | [] => None
  | arg0 :: _ =>
    let port := fst (Strconv.ParseIntBits arg0 32) in
    Some {| Config.Host := Host;
            Config.Port := Loophole.int32 port;
            Config.GatewayEndpoint := Config.GatewayEndpoint config;
            Config.IdentityFile := Config.IdentityFile config;
            Config.SiteID := Config.SiteID config;
            Config.QR := Config.QR config |}
  end.

End Cmd.

(** ** The relay ([handleClient]) *)

Module Relay.

(** The two copy goroutines, named by the connection they write to. *)
Inductive direction :=
| ToClient      (* io.Copy(client, local) *)
| ToLocal.      (* io.Copy(local, client) *)

(** Where a copy goroutine stands. *)
Inductive copier :=
| NotStarted
| Copying       (* inside io.Copy *)
| Sending       (* io.Copy returned; blocked in [chDone <- true] *)
| Finished.     (* its value was received *)

(** Where [handleClient] itself stands. *)
Inductive pc :=
| Entry         (* defer client.Close(); chDone := make(chan bool) *)
| Go1           (* about to start local -> client *)
| Go2           (* about to start client -> local *)
| Receiving     (* blocked in [<-chDone] *)
| Returning     (* a value was received; the deferred call is due *)
| Returned.

Inductive logged :=
| DebugError (msg : string).   (* el.Err(err).Msg(msg), at debug level *)

Record state := {
  main : pc;
  toClient : copier;
  toLocal : copier;
  clientClosed : bool;
  localClosed : bool;
  log : list logged
}.

Definition init : state :=
  {| main := Entry; toClient := NotStarted; toLocal := NotStarted;
     clientClosed := false; localClosed := false; log := [] |}.

(** What the scheduler and the two connections can make happen. *)
Inductive action :=
| StepMain                                  (* handleClient runs on *)
| CopyReturns (d : direction) (err : bool)  (* io.Copy returns, err != nil? *)
| Handoff (d : direction).                  (* the send of [d] meets the receive *)

Definition copierOf (d : direction) (s : state) : copier :=
  match d with
  | ToClient => toClient s
  | ToLocal => toLocal s
  end.

Definition setCopier (d : direction) (c : copier) (s : state) : state :=
  match d with
  | ToClient =>
    {| main := main s; toClient := c; toLocal := toLocal s;
       clientClosed := clientClosed s; localClosed := localClosed s;
       log := log s |}
  | ToLocal =>
    {| main := main s; toClient := toClient s; toLocal := c;
       clientClosed := clientClosed s; localClosed := localClosed s;
       log := log s |}
  end.

Definition setMain (p : pc) (s : state) : state :=
  {| main := p; toClient := toClient s; toLocal := toLocal s;
     clientClosed := clientClosed s; localClosed := localClosed s;
     log := log s |}.

Definition errorMessage (d : direction) : string :=
  match d with
  | ToClient => "Error copying local -> client:"
  | ToLocal => "Error copying client -> local:"
  end.

Section Steps.

(** [log.Debug().Enabled()] *)
Variable debugEnabled : bool.

(** One step; [None] when the action cannot happen in this state. *)
Definition step (a : action) (s : state) : option state :=
  match a with
  | StepMain =>
    match main s with
    | Entry => Some (setMain Go1 s)
    | Go1 => Some (setMain Go2 (setCopier ToClient Copying s))
    | Go2 => Some (setMain Receiving (setCopier ToLocal Copying s))
    | Receiving => None
    | Returning =>
      (* the deferred client.Close() *)
      Some {| main := Returned; toClient := toClient s; toLocal := toLocal s;
              clientClosed := true; localClosed := localClosed s;
              log := log s |}
    | Returned => None
    end
  | CopyReturns d err =>
    match copierOf d s with
    | Copying =>
      let s' := setCopier d Sending s in
      Some (if err && debugEnabled then
              {| main := main s'; toClient := toClient s'; toLocal := toLocal s';
                 clientClosed := clientClosed s'; localClosed := localClosed s';
                 log := (log s' ++ [DebugError (errorMessage d)])%list |}
            else s')
    | _ => None
    end
  | Handoff d =>
    match main s, copierOf d s with
    | Receiving, Sending => Some (setMain Returning (setCopier d Finished s))
    | _, _ => None
    end
  end.

(** A schedule, run from a state; [None] when one of its actions
    cannot happen. *)
Fixpoint run (sched : list action) (s : state) : option state :=
  match sched with
  | [] => Some s
  | a :: rest =>
    match step a s with
    | Some s' => run rest s'
    | None => None
    end
  end.

End Steps.

End Relay.

(** ** Sample inputs *)

Module Samples.

Import Token.

Definition storageFile (name : string) : string := "/home/user/.loophole/" ++ name.
Definition storageDir (name : string) : string := "/home/user/.loophole/" ++ name.

Definition noFiles : FS :=
  {| files := ∅; readOnly := ∅; truncated := ∅; noRemove := ∅; noStat := ∅ |}.

Definition token1 : TokenSpec :=
  {| AccessToken := "access-1"; RefreshToken_ := "refresh-1";
     IDToken := "id-1"; TokenType := "Bearer"; ExpiresIn := 86400 |}.

(** A token whose access token is the single byte FF. *)
Definition tokenFF : TokenSpec :=
  {| AccessToken := String (Utf8.byte 255) EmptyString;
     RefreshToken_ := "refresh-1";
     IDToken := "id-1"; TokenType := "Bearer"; ExpiresIn := 86400 |}.

(** The files after [token1] has been saved. *)
Definition savedFiles : FS := snd (SaveToken storageFile noFiles token1).

(** The same files on a full disk: a write of the token file breaks
    off after ten bytes. *)
Definition fullDisk : FS :=
  {| files := files savedFiles;
     readOnly := {[ storageFile "tokens.json" ]};
     truncated := {[ storageFile "tokens.json" := 10%nat ]};
     noRemove := ∅; noStat := ∅ |}.

(** The token an issuer grants on a refresh. *)
Definition token2 : TokenSpec :=
  {| AccessToken := "access-2"; RefreshToken_ := "refresh-2";
     IDToken := "id-2"; TokenType := "Bearer"; ExpiresIn := 86400 |}.

(** An issuer that rotates the refresh token: its answer has the five
    members of [token2]. *)
Definition rotatingIssuer (_ : Request) : HttpResult :=
  Response 200 (marshalTokenSpec token2).

(** An issuer that leaves the refresh token out. *)
Definition plainIssuer (_ : Request) : HttpResult :=
  Response 200
    ("{" ++ Json.memberName "access_token" ++ Json.quote "access-2"
     ++ "," ++ Json.memberName "id_token" ++ Json.quote "id-2"
     ++ "," ++ Json.memberName "token_type" ++ Json.quote "Bearer"
     ++ "," ++ Json.memberName "expires_in" ++ "86400}").

(** The error document of a rejected refresh token, in the spelling of
    RFC 6749. *)
Definition rejection : string :=
  "{" ++ Json.memberName "error" ++ Json.quote "invalid_grant"
  ++ "," ++ Json.memberName "error_description"
  ++ Json.quote "Unknown or invalid refresh token." ++ "}".

Definition rejectingIssuer (_ : Request) : HttpResult :=
  Response 403 rejection.

(** The error document of a device code that the user has not yet
    confirmed. *)
Definition pending : string :=
  "{" ++ Json.memberName "error" ++ Json.quote "authorization_pending" ++ "}".

(** A token endpoint that answers two polls with [pending] and then
    grants [token2]. *)
Definition grantingThird (i : nat) (_ : Request) : HttpResult :=
  if (i <? 2)%nat then Response 403 pending
  else Response 200 (marshalTokenSpec token2).

Definition config1 : Config.t :=
  {| Config.Host := "127.0.0.1"; Config.Port := 3000;
     Config.GatewayEndpoint :=
       {| Endpoint.Host := "gateway.loophole.host"; Endpoint.Port := 8022 |};
     Config.IdentityFile := "/home/user/.ssh/id_rsa";
     Config.SiteID := "";
     Config.QR := true |}.

Definition site1 : SiteSpecification.t :=
  {| SiteSpecification.SiteID := "abc123"; SiteSpecification.ResultCode := 200 |}.

Definition site401 : SiteSpecification.t :=
  {| SiteSpecification.SiteID := ""; SiteSpecification.ResultCode := 401 |}.

(** A world in which the identity file parses, the n-th local listener
    gets port 40000 + n and the remote listener always opens; the
    registration, the gateway and the accepted connections are given. *)
Definition worldOf
    (registerSite : nat -> string -> string -> SiteSpecification.t * bool)
    (sshDial : nat -> bool) (accepts : nat -> Loophole.accepted)
  : Loophole.World :=
  {| Loophole.debugEnabled := false;
     Loophole.GetLocalStorageDir := storageDir;
     Loophole.GetLocalStorageFile := storageFile;
     Loophole.parsePublicKey := fun _ => Some "ssh-rsa AAAA";
     Loophole.registerSite := registerSite;
     Loophole.tokenEndpoint := fun _ => plainIssuer;
     Loophole.sshDial := sshDial;
     Loophole.netListen := fun n => Some (40000 + Z.of_nat n);
     Loophole.sshListen := fun _ => true;
     Loophole.accept := accepts |}.

(** A connection, then the gateway drops the session, then a second
    connection. *)
Definition dropOnce (n : nat) : Loophole.accepted :=
  match n with
  | 0%nat => Loophole.AcceptConn 0
  | 1%nat => Loophole.AcceptEOF
  | _ => Loophole.AcceptConn n
  end.

(** Everything works: the site abc123 is assigned at once and the
    gateway answers the first dial. *)
Definition world : Loophole.World :=
  worldOf (fun _ _ _ => (site1, false)) (fun _ => true) dropOnce.

(** The gateway answers the third dial. *)
Definition flakyGateway : Loophole.World :=
  worldOf (fun _ _ _ => (site1, false)) (fun n => (2 <=? n)%nat) dropOnce.

(** The gateway never answers. *)
Definition deadGateway : Loophole.World :=
  worldOf (fun _ _ _ => (site1, false)) (fun _ => false) dropOnce.

(** The first registration is refused with 401, the second succeeds. *)
Definition staleToken : Loophole.World :=
  worldOf (fun n _ _ => match n with
                        | 0%nat => (site401, true)
                        | _ => (site1, false)
                        end)
          (fun _ => true) dropOnce.

(** The world of [world] with the debug level on. *)
Definition verbose : Loophole.World :=
  {| Loophole.debugEnabled := true;
     Loophole.GetLocalStorageDir := storageDir;
     Loophole.GetLocalStorageFile := storageFile;
     Loophole.parsePublicKey := fun _ => Some "ssh-rsa AAAA";
     Loophole.registerSite := fun _ _ _ => (site1, false);
     Loophole.tokenEndpoint := fun _ => plainIssuer;
     Loophole.sshDial := fun _ => true;
     Loophole.netListen := fun n => Some (40000 + Z.of_nat n);
     Loophole.sshListen := fun _ => true;
     Loophole.accept := dropOnce |}.

(** The local endpoint of the first session of [world]. *)
Definition firstEndpoint : Endpoint.t :=
  {| Endpoint.Host := "127.0.0.1"; Endpoint.Port := 40000 |}.

Definition site403 : SiteSpecification.t :=
  {| SiteSpecification.SiteID := ""; SiteSpecification.ResultCode := 403 |}.

(** The registration is refused with 403. *)
Definition forbidden : Loophole.World :=
  worldOf (fun _ _ _ => (site403, true)) (fun _ => true) dropOnce.

(** The process before [Start], with [token1] saved. *)
Definition atStart : Loophole.State := Loophole.initial savedFiles.

(** The process after the first session build of [world]. *)
Definition afterBuild : Loophole.State :=
  Loophole.stateOf
    (Loophole.generateListener world config1 SiteSpecification.zero atStart).

(** The process of [world] after the first round of the accept loop,
    in which a connection came. *)
Definition afterRound : Loophole.State :=
  Loophole.stateOf
    (Loophole.acceptLoop world 1 config1 0 firstEndpoint site1 afterBuild).

(** A site assigned with the result code 0. *)
Definition site0 (siteID : string) : SiteSpecification.t :=
  {| SiteSpecification.SiteID := siteID; SiteSpecification.ResultCode := 0 |}.

(** Every registration succeeds with the result code 0; the first one
    assigns the site abc123 and the later ones the site zzz999. *)
Definition renaming : Loophole.World :=
  worldOf (fun n _ _ => match n with
                        | 0%nat => (site0 "abc123", false)
                        | _ => (site0 "zzz999", false)
                        end)
          (fun _ => true) dropOnce.

(** The process of [renaming] after the first session build and after
    the first round of the accept loop. *)
Definition renamingBuilt : Loophole.State :=
  Loophole.stateOf
    (Loophole.generateListener renaming config1 SiteSpecification.zero atStart).

Definition renamingRound : Loophole.State :=
  Loophole.stateOf
    (Loophole.acceptLoop renaming 1 config1 0 firstEndpoint (site0 "abc123")
       renamingBuilt).

End Samples.

(** * Vocabulary of the statements *)

(** ** Strings and tokens *)

Module Shapes.

Import Token.

(** A string that is exactly one well-formed rune. *)
Definition wholeRune (p : string) : Prop :=
  p <> EmptyString /\ Utf8.runeLen p = String.length p.

(** A member of a JSON document: its quoted key, a colon, the encoded
    value and what follows. *)
Definition member (k v rest : string) : string :=
  Json.quote k ++ String ":" (v ++ rest).

(** String values are well-formed UTF-8. *)
Definition goodValue (v : Json.value) : Prop :=
  match v with
  | Json.Str x => Utf8.ValidString x = true
  | _ => True
  end.

(** A token whose strings are well-formed UTF-8 and whose expiry fits
    a Go int. *)
Definition wellFormed (t : TokenSpec) : Prop :=
  Utf8.ValidString (AccessToken t) = true
  /\ Utf8.ValidString (RefreshToken_ t) = true
  /\ Utf8.ValidString (IDToken t) = true
  /\ Utf8.ValidString (TokenType t) = true
  /\ Strconv.inInt64 (ExpiresIn t) = true.

(** Every byte of [s] is a decimal digit. *)
Fixpoint allDigits (s : string) : bool :=
  match s with
  | EmptyString => true
  | String c r => Json.isDigit c && allDigits r
  end.

(** [n] opening brackets before [r]. *)
Fixpoint opened (n : nat) (r : string) : string :=
  match n with
  | O => r
  | S n' => String "[" (opened n' r)
  end.

(** How many times the byte [c] occurs in [s]. *)
Fixpoint occurrences (c : ascii) (s : string) : nat :=
  match s with
  | EmptyString => 0
  | String b r => ((if Ascii.eqb b c then 1 else 0) + occurrences c r)%nat
  end.

(** The rounds of a polling loop that all go on: each one a sleep of
    [d] nanoseconds and then the request [req]. *)
Fixpoint pollRounds (n : nat) (d : Z) (req : Request) : list pollEvent :=
  match n with
  | O => []
  | S n' => PollSleep d :: PollDo req :: pollRounds n' d req
  end.

End Shapes.

(** ** Traces of the tunnel process *)

Module Trace.

Import Loophole.
Local Open Scope go_scope.

(** Every event of a computation satisfies [P], whatever the state it
    starts from. *)
Definition emits {A} (P : event -> bool) (m : M A) : Prop :=
  forall s, Forall (fun e => P e = true) (eventsOf (m s)).

(** A computation leaves the component [f] of the state as it found
    it. *)
Definition keeps {A X} (f : State -> X) (m : M A) : Prop :=
  forall s, f (stateOf (m s)) = f s.

(** At most [n] events of a computation satisfy [P]. *)
Definition atMost {A} (P : event -> bool) (n : nat) (m : M A) : Prop :=
  forall s, (length (List.filter P (eventsOf (m s))) <= n)%nat.

(** *** Kinds of events *)

(** What the user sees: log lines, printed text and the loader. *)
Definition isUI (e : event) : bool :=
  match e with
  | Log _ _ | Print _ | LoaderStart _ | LoaderStop _ => true
  | _ => false
  end.

Definition ofIdentity (e : event) : bool :=
  isUI e || match e with ParsePublicKey _ => true | _ => false end.

Definition ofRegister (e : event) : bool :=
  isUI e || match e with RegisterSite _ _ _ | RefreshToken => true | _ => false end.

Definition ofDial (e : event) : bool :=
  isUI e || match e with SshDial _ _ | Sleep _ => true | _ => false end.

Definition ofLocal (e : event) : bool :=
  isUI e
  || match e with
     | NewCertManager _ | NewReverseProxy _ _ | NewServer
     | NetListen _ _ | GoServeTLS _ => true
     | _ => false
     end.

Definition ofRemote (e : event) : bool :=
  isUI e || match e with SshListen _ _ => true | _ => false end.

Definition ofAnnounce (e : event) : bool :=
  isUI e || match e with QRCode _ => true | _ => false end.

Definition ofPrepare (e : event) : bool := ofIdentity e || ofRegister e.

Definition ofEstablish (e : event) : bool :=
  ofLocal e || ofRemote e || ofAnnounce e.

(** The events of one session build. *)
Definition ofBuild (e : event) : bool :=
  ofIdentity e || ofRegister e || ofDial e || ofLocal e || ofRemote e
  || ofAnnounce e.

(** Every relay dials [target]. *)
Definition relaysDial (target : string) (e : event) : bool :=
  match e with
  | GoRelay _ t => String.eqb t target
  | _ => true
  end.

Definition isDial (e : event) : bool :=
  match e with SshDial _ _ => true | _ => false end.

(** The dial attempts and the sleeps of a run, in order. *)
Definition isDialing (e : event) : bool :=
  match e with SshDial _ _ | Sleep _ => true | _ => false end.

(** [k] failed attempts, each followed by its sleep. *)
Fixpoint failedDials (k : nat) (addr site : string) : list event :=
  match k with
  | O => []
  | S k' => SshDial addr site :: Sleep 10 :: failedDials k' addr site
  end.

(** Every dial goes to [addr] for the site [siteID]. *)
Definition dialsAs (addr siteID : string) (e : event) : bool :=
  match e with
  | SshDial a u => String.eqb a addr && String.eqb u siteID
  | _ => true
  end.

Definition isRegister (e : event) : bool :=
  match e with RegisterSite _ _ _ => true | _ => false end.

Definition isRefresh (e : event) : bool :=
  match e with RefreshToken => true | _ => false end.

Definition isParseKey (e : event) : bool :=
  match e with ParsePublicKey _ => true | _ => false end.

(** The calls of identity and registration. *)
Definition isPrepareCall (e : event) : bool :=
  match e with
  | ParsePublicKey _ | RegisterSite _ _ _ | RefreshToken => true
  | _ => false
  end.

Definition isQR (e : event) : bool :=
  match e with QRCode _ => true | _ => false end.

Definition isCertManager (e : event) : bool :=
  match e with NewCertManager _ => true | _ => false end.

(** What makes up the Certificate Provider and the Local Reverse
    Proxy. *)
Definition isLocalBuild (e : event) : bool :=
  match e with
  | NewCertManager _ | NewReverseProxy _ _ | NewServer
  | NetListen _ _ | GoServeTLS _ => true
  | _ => false
  end.

Definition isRelay (e : event) : bool :=
  match e with GoRelay _ _ => true | _ => false end.

Definition isLoader (e : event) : bool :=
  match e with LoaderStart _ | LoaderStop _ => true | _ => false end.

(** The fatal line of a registration refused with [code]. *)
Definition refusal (code : Z) : string :=
  if code =? 400 then "Please fix the issue and try again"
  else if code =? 403 then
    "You don't have required permissions to establish tunnel with given parameters"
  else if code =? 409 then "The given hostname is already taken by different used"
  else if (code =? 600) || (code =? 601) then "Looks like you're not logged in"
  else "Something unexpected happened, please let developers know".

(** [x] comes before [y] in [evs]. *)
Definition before (x y : event) (evs : list event) : Prop :=
  exists a b c, evs = (a ++ x :: b ++ y :: c)%list.

(** The spinner over a run of events, from [spinning]: whether it
    spins in the end, and [None] when it is started while it spins,
    or spins at a fatal line or at an [Accept]. *)
Fixpoint spinnerRun (spinning : bool) (evs : list event) : option bool :=
  match evs with
  | [] => Some spinning
  | LoaderStart _ :: rest => if spinning then None else spinnerRun true rest
  | LoaderStop _ :: rest => spinnerRun false rest
  | (Log FatalLevel _ | Accept _) :: rest =>
    if spinning then None else spinnerRun false rest
  | _ :: rest => spinnerRun spinning rest
  end.

(** A computation that starts with the spinner at [b] starts it only
    when it is stopped and has it stopped at its fatal lines and at
    its [Accept]s; it leaves the spinner at [f a] when it returns
    [a], and stopped when it exits. *)
Definition tidyFrom {A} (b : bool) (m : M A) (f : A -> bool) : Prop :=
  forall s,
    spinnerRun b (eventsOf (m s))
    = Some match outcomeOf (m s) with
           | Done a => f a
           | Exit _ => false
           end.

(** The remote listeners over a run of events: [next] names the
    listener the next [Listen] makes and [open] says whether the last
    one made is open. The result is [None] when a listener other than
    the last one made, or one that was closed, is closed or accepted
    on. *)
Fixpoint listenerRun (next : nat) (open : bool) (evs : list event)
  : option (nat * bool) :=
  match evs with
  | [] => Some (next, open)
  | SshListen _ _ :: rest => listenerRun (S next) true rest
  | CloseListener l :: rest =>
    if open && (S l =? next)%nat then listenerRun next false rest else None
  | Accept l :: rest =>
    if open && (S l =? next)%nat then listenerRun next open rest else None
  | _ :: rest => listenerRun next open rest
  end.

(** The events that are neither a call for a remote listener, nor an
    accept, nor the closing of a listener. *)
Definition offListener (e : event) : bool :=
  match e with
  | SshListen _ _ | CloseListener _ | Accept _ => false
  | _ => true
  end.

Definition isInfoLine (e : event) : bool :=
  match e with Log InfoLevel _ => true | _ => false end.

(** The line logged after a dial attempt that failed. *)
Definition retryLine (attempt : Z) : event :=
  Log InfoLevel
    ("SSH Connection failed, retrying in 10 seconds... (Attempt "
     ++ Strconv.Itoa attempt ++ "/5)").

(** The lines of [k] failed attempts in a row, numbered from [first]. *)
Fixpoint retryLines (k : nat) (first : Z) : list event :=
  match k with
  | O => []
  | S k' => retryLine first :: retryLines k' (first + 1)
  end.

(** Every event but the start of the forwarding line. *)
Definition notForwarding (e : event) : bool :=
  match e with
  | Print text => negb (String.eqb text "Forwarding ")
  | _ => true
  end.

(** The line that asks for feedback. *)
Definition thanks : event :=
  Print ("Thank you for using Loophole. Please give us your feedback via https://forms.gle/K9ga7FZB3deaffnV7 and help us improve our services." ++ newline).

(** *** The three stretches of [generateListener] *)

Section Stretches.

Variable w : World.

(** Identity and registration: the body of [generateListener] up to
    the dial. *)
Definition prepare (config : Config.t) (siteSpecs : SiteSpecification.t)
  : M SiteSpecification.t :=
  key <- loadIdentity w config ;;
  ifDebug w (println ;; debug "Registering site") ;;
  siteSpecs <- register w config key siteSpecs ;;
  loadingSuccess w ;;
  ret siteSpecs.

(** What follows the dial. *)
Definition establish (config : Config.t) (siteSpecs : SiteSpecification.t)
    (serverSSHConnHTTPS : nat)
  : M (nat * Endpoint.t * SiteSpecification.t) :=
  local <- serveLocally w config siteSpecs ;;
  listenerHTTPSOverSSH <- listenRemotely w serverSSHConnHTTPS ;;
  announce config siteSpecs ;;
  ret (listenerHTTPSOverSSH,
       {| Endpoint.Host := "127.0.0.1"; Endpoint.Port := int32 (snd local) |},
       siteSpecs).

(** The calls that build the certificate manager, the reverse proxy
    and the local TLS server of the site [siteID], in order. *)
Definition localBuild (config : Config.t) (siteID : string) (listener : nat)
  : list event :=
  [NewCertManager (certManagerFor w siteID);
   NewReverseProxy "http"
     (Endpoint.String_ {| Endpoint.Host := Config.Host config;
                          Endpoint.Port := Config.Port config |});
   NewServer;
   NetListen "tcp" ":0";
   GoServeTLS listener].

End Stretches.

End Trace.

(** ** Interleavings of [handleClient] *)

Module Interleaving.

Import Relay.

(** A copier that has started and not finished. *)
Definition running (c : copier) : bool :=
  match c with Copying | Sending => true | _ => false end.

(** The shape of the states [handleClient] can be in. *)
Definition shape (s : state) : bool :=
  negb (localClosed s)
  && match main s with
     | Entry | Go1 =>
       match toClient s, toLocal s with
       | NotStarted, NotStarted => negb (clientClosed s)
       | _, _ => false
       end
     | Go2 =>
       running (toClient s)
       && match toLocal s with NotStarted => true | _ => false end
       && negb (clientClosed s)
     | Receiving =>
       running (toClient s) && running (toLocal s) && negb (clientClosed s)
     | Returning =>
       match toClient s, toLocal s with
       | Finished, c | c, Finished => running c && negb (clientClosed s)
       | _, _ => false
       end
     | Returned =>
       match toClient s, toLocal s with
       | Finished, c | c, Finished => running c && clientClosed s
       | _, _ => false
       end
     end.

Definition isCopyReturns (a : action) : bool :=
  match a with CopyReturns _ _ => true | _ => false end.

(** The log holds debug lines about copy errors, and nothing when
    the debug level is off. *)
Definition quietLog (debugEnabled : bool) (s : state) : Prop :=
  Forall (fun e => exists d, e = DebugError (errorMessage d)) (log s)
  /\ (debugEnabled = false -> log s = []).

End Interleaving.

(** * Properties *)

(** ** The JSON codec *)

Module JsonFacts.

Import Json.

#[local] Arguments String.append !s1 s2 : simpl nomatch.

Ltac each_byte c := destruct c as [[] [] [] [] [] [] [] []].

Lemma append_assoc (a b c : string) : (a ++ b) ++ c = a ++ (b ++ c).
Proof. induction a as [|x a IH]; cbn [append]; congruence. Qed.

Lemma prepend_some p s rest :
  prepend p (Some (s, rest)) = Some (p ++ s, rest).
Proof. reflexivity. Qed.

(** An escaped ASCII byte is read back as that byte. *)
Lemma unquote_ascii c rest :
  Utf8.isAscii c = true ->
  unquoteBody (escapeAscii c ++ rest)
  = prepend (String c EmptyString) (unquoteBody rest).
Proof. each_byte c; intros H; try discriminate H; reflexivity. Qed.

(** A byte above 127 is no quote, no backslash and no control
    character. *)
Lemma high_byte c :
  Utf8.isAscii c = false ->
  Ascii.eqb c Json.dquote = false /\ Ascii.eqb c "\" = false
  /\ (Utf8.code c <? 32)%N = false.
Proof. each_byte c; intros H; try discriminate H; repeat split. Qed.

Lemma unquote_high c r :
  Utf8.isAscii c = false ->
  unquoteBody (String c r)
  = match Utf8.runeLen (String c r), r with
    | 2%nat, String b1 r1 =>
      prepend (String c (String b1 EmptyString)) (unquoteBody r1)
    | 3%nat, String b1 (String b2 r2) =>
      prepend (String c (String b1 (String b2 EmptyString))) (unquoteBody r2)
    | 4%nat, String b1 (String b2 (String b3 r3)) =>
      prepend (String c (String b1 (String b2 (String b3 EmptyString))))
              (unquoteBody r3)
    | _, _ => prepend Utf8.replacement (unquoteBody r)
    end.
Proof.
  intros H. destruct (high_byte c H) as (Hq & Hb & Hc).
  cbn [unquoteBody]. rewrite Hq, Hb, Hc, H. reflexivity.
Qed.

(** The two line separators, escaped, are read back as themselves. *)
Lemma unquote_lineSep b0 b1 b2 esc rest :
  lineSep b0 b1 b2 = Some esc ->
  unquoteBody (esc ++ rest)
  = prepend (String b0 (String b1 (String b2 EmptyString))) (unquoteBody rest).
Proof.
  unfold lineSep.
  destruct (Ascii.eqb b0 (Utf8.byte 226)) eqn:E0; [|discriminate].
  destruct (Ascii.eqb b1 (Utf8.byte 128)) eqn:E1; [|discriminate].
  apply Ascii.eqb_eq in E0, E1. subst b0 b1. simpl andb. cbv iota.
  destruct (Ascii.eqb b2 (Utf8.byte 168)) eqn:E2.
  - apply Ascii.eqb_eq in E2. subst b2. intros [= <-]. reflexivity.
  - destruct (Ascii.eqb b2 (Utf8.byte 169)) eqn:E3; [|discriminate].
    apply Ascii.eqb_eq in E3. subst b2. intros [= <-]. reflexivity.
Qed.

Lemma unquote_replacement rest :
  unquoteBody (("\" ++ "ufffd") ++ rest)
  = prepend Utf8.replacement (unquoteBody rest).
Proof. reflexivity. Qed.

(** The width of a rune depends on its own bytes only. *)
Lemma runeLen_2 b0 b1 r r' :
  Utf8.runeLen (String b0 (String b1 r)) = 2%nat ->
  Utf8.runeLen (String b0 (String b1 r')) = 2%nat.
Proof.
  cbn [Utf8.runeLen].
  destruct (Utf8.isAscii b0); [discriminate|].
  destruct (Utf8.inRange 194 223 b0 && Utf8.cont b1); [reflexivity|].
  destruct r as [|b2 [|b3 r3]]; try discriminate;
    repeat match goal with |- context [if ?c then _ else _] => destruct c end;
    discriminate.
Qed.

Lemma runeLen_3 b0 b1 b2 r r' :
  Utf8.runeLen (String b0 (String b1 (String b2 r))) = 3%nat ->
  Utf8.runeLen (String b0 (String b1 (String b2 r'))) = 3%nat.
Proof.
  cbn [Utf8.runeLen].
  destruct (Utf8.isAscii b0); [discriminate|].
  destruct (Utf8.inRange 194 223 b0 && Utf8.cont b1); [discriminate|].
  destruct (Utf8.lead3 b0 b1 && Utf8.cont b2); [reflexivity|].
  destruct r as [|b3 r3]; try discriminate.
  destruct (Utf8.lead4 b0 b1 && Utf8.cont b2 && Utf8.cont b3); discriminate.
Qed.

Lemma runeLen_4 b0 b1 b2 b3 r r' :
  Utf8.runeLen (String b0 (String b1 (String b2 (String b3 r)))) = 4%nat ->
  Utf8.runeLen (String b0 (String b1 (String b2 (String b3 r')))) = 4%nat.
Proof.
  cbn [Utf8.runeLen].
  destruct (Utf8.isAscii b0); [discriminate|].
  destruct (Utf8.inRange 194 223 b0 && Utf8.cont b1); [discriminate|].
  destruct (Utf8.lead3 b0 b1 && Utf8.cont b2); [discriminate|].
  destruct (Utf8.lead4 b0 b1 && Utf8.cont b2 && Utf8.cont b3);
    [reflexivity | discriminate].
Qed.

(** What [quoteBody] writes, [unquoteBody] reads back as the coerced
    string, up to the closing quote. *)
Lemma unquote_quote_n (n : nat) : forall s rest,
  (String.length s <= n)%nat ->
  unquoteBody (quoteBody s ++ String Json.dquote rest) = Some (coerceUTF8 s, rest).
Proof.
  induction n as [|n IH]; intros s rest Hlen.
  - destruct s; [reflexivity | simpl in Hlen; lia].
  - destruct s as [|b0 r0]; [reflexivity|].
    simpl in Hlen.
    cbn [quoteBody coerceUTF8].
    destruct (Utf8.isAscii b0) eqn:Ha; cbv iota.
    { rewrite append_assoc, (unquote_ascii _ _ Ha), IH by lia. reflexivity. }
    assert (Hbad : forall r, (String.length r <= n)%nat ->
              unquoteBody ((("\" ++ "ufffd") ++ quoteBody r) ++ String Json.dquote rest)
              = Some (Utf8.replacement ++ coerceUTF8 r, rest)).
    { intros r Hr. rewrite append_assoc, unquote_replacement, IH by lia.
      reflexivity. }
    destruct (Utf8.runeLen (String b0 r0)) as [|[|[|[|[|k]]]]] eqn:HL;
      try (cbv iota; apply Hbad; lia).
    + destruct r0 as [|b1 r1]; [cbv iota; apply Hbad; simpl in *; lia|]. simpl in Hlen.
      cbn [append]. rewrite (unquote_high _ _ Ha).
      rewrite (runeLen_2 _ _ _ _ HL), IH by lia. reflexivity.
    + destruct r0 as [|b1 [|b2 r2]]; try (cbv iota; apply Hbad; simpl in *; lia).
      simpl in Hlen.
      destruct (lineSep b0 b1 b2) as [esc|] eqn:Hs.
      * rewrite append_assoc, (unquote_lineSep _ _ _ _ _ Hs), IH by lia.
        reflexivity.
      * cbn [append]. rewrite (unquote_high _ _ Ha).
        rewrite (runeLen_3 _ _ _ _ _ HL), IH by lia. reflexivity.
    + destruct r0 as [|b1 [|b2 [|b3 r3]]]; try (cbv iota; apply Hbad; simpl in *; lia).
      simpl in Hlen.
      cbn [append]. rewrite (unquote_high _ _ Ha).
      rewrite (runeLen_4 _ _ _ _ _ _ HL), IH by lia. reflexivity.
Qed.

Lemma unquote_quote s rest :
  unquoteBody (quoteBody s ++ String Json.dquote rest) = Some (coerceUTF8 s, rest).
Proof. apply (unquote_quote_n (String.length s)); lia. Qed.

(** Well-formed UTF-8 is left as it is. *)
Lemma coerce_valid_n (n : nat) : forall s,
  (String.length s <= n)%nat ->
  Utf8.ValidString s = true -> coerceUTF8 s = s.
Proof.
  induction n as [|n IH]; intros s Hlen Hv.
  - destruct s; [reflexivity | simpl in Hlen; lia].
  - destruct s as [|b0 r0]; [reflexivity|].
    simpl in Hlen. cbn [coerceUTF8 Utf8.runeLen]. cbn [Utf8.ValidString] in Hv.
    destruct (Utf8.isAscii b0) eqn:Ha; cbv iota.
    { rewrite IH by (auto; lia). reflexivity. }
    destruct r0 as [|b1 r1]; [discriminate|]. simpl in Hlen.
    destruct (Utf8.inRange 194 223 b0 && Utf8.cont b1) eqn:H2; cbv iota.
    { rewrite IH by (auto; lia). reflexivity. }
    destruct r1 as [|b2 r2]; [discriminate|]. simpl in Hlen.
    destruct (Utf8.lead3 b0 b1 && Utf8.cont b2) eqn:H3; cbv iota.
    { rewrite IH by (auto; lia). reflexivity. }
    destruct r2 as [|b3 r3]; [discriminate|]. simpl in Hlen.
    destruct (Utf8.lead4 b0 b1 && Utf8.cont b2 && Utf8.cont b3) eqn:H4;
      [|discriminate]. cbv iota.
    rewrite IH by (auto; lia). reflexivity.
Qed.

Lemma coerce_valid s : Utf8.ValidString s = true -> coerceUTF8 s = s.
Proof. apply (coerce_valid_n (String.length s)); lia. Qed.

(** *** Numbers *)

Lemma append_nil_r (a : string) : a ++ "" = a.
Proof. induction a as [|x a IH]; cbn [append]; congruence. Qed.

Lemma spanDigits_uint (d : Decimal.uint) r :
  spanDigits (NilEmpty.string_of_uint d ++ String "}" r)
  = (NilEmpty.string_of_uint d, String "}" r).
Proof.
  induction d as [|d IH|d IH|d IH|d IH|d IH|d IH|d IH|d IH|d IH|d IH];
    cbn [NilEmpty.string_of_uint append spanDigits];
    [reflexivity | change (isDigit _) with true; cbv iota; rewrite IH; reflexivity ..].
Qed.

(** The decimal form of a positive number starts with no zero. *)
Lemma to_uint_head (p : positive) :
  Pos.to_uint p <> Decimal.Nil /\ forall d, Pos.to_uint p <> Decimal.D0 d.
Proof.
  split; [apply DecimalPos.Unsigned.to_uint_nonnil|].
  intros d Hd.
  assert (Hn : Decimal.unorm (Pos.to_uint p) = Pos.to_uint p).
  { pose proof (DecimalZ.to_of (Z.to_int (Z.pos p))) as H.
    rewrite DecimalZ.of_to in H. cbn in H. now injection H. }
  unfold Decimal.unorm in Hn.
  destruct (Decimal.nzhead (Pos.to_uint p)) eqn:Hz;
    try (rewrite Hd in Hn; discriminate Hn).
  - rewrite Hd in Hn. injection Hn as Hn. subst d.
    now apply (DecimalPos.Unsigned.to_uint_nonzero p).
  - now apply DecimalFacts.nzhead_nonzero in Hz.
Qed.

Lemma scanNumber_uint (d : Decimal.uint) r :
  d <> Decimal.Nil -> (forall d', d <> Decimal.D0 d') ->
  scanNumber (NilEmpty.string_of_uint d ++ String "}" r)
  = Some (NilEmpty.string_of_uint d, String "}" r).
Proof.
  intros Hnil H0.
  destruct d; try congruence; try (now exfalso; eapply H0);
    unfold scanNumber; cbn [NilEmpty.string_of_uint append]; cbn;
    change (Utf8.inRange 49 57 _) with true; cbv iota;
    rewrite spanDigits_uint; cbn; rewrite !append_nil_r; reflexivity.
Qed.

Lemma Itoa_pos p :
  Strconv.Itoa (Z.pos p) = NilEmpty.string_of_uint (Pos.to_uint p).
Proof.
  unfold Strconv.Itoa. cbn [Z.to_int NilZero.string_of_int].
  destruct (to_uint_head p) as [Hnil _].
  unfold NilZero.string_of_uint. destruct (Pos.to_uint p); congruence.
Qed.

Lemma Itoa_neg p :
  Strconv.Itoa (Z.neg p)
  = String "-" (NilEmpty.string_of_uint (Pos.to_uint p)).
Proof.
  unfold Strconv.Itoa. cbn [Z.to_int NilZero.string_of_int].
  destruct (to_uint_head p) as [Hnil _].
  unfold NilZero.string_of_uint. destruct (Pos.to_uint p); congruence.
Qed.

(** A printed integer followed by a closing brace is scanned as that
    literal. *)
Lemma scanNumber_Itoa n r :
  scanNumber (Strconv.Itoa n ++ String "}" r)
  = Some (Strconv.Itoa n, String "}" r).
Proof.
  destruct n as [|p|p].
  - reflexivity.
  - rewrite Itoa_pos. destruct (to_uint_head p). now apply scanNumber_uint.
  - rewrite Itoa_neg. destruct (to_uint_head p) as [Hnil H0].
    pose proof (scanNumber_uint _ r Hnil H0) as H.
    unfold scanNumber in *. cbn [append].
    change (Ascii.eqb "-" "-") with true. cbv iota.
    destruct (Pos.to_uint p) eqn:E; try congruence;
      try (now exfalso; eapply H0);
      cbn [NilEmpty.string_of_uint append] in *;
      match type of H with
      | context [Ascii.eqb ?c "-"] =>
        change (Ascii.eqb c "-") with false in H; cbv iota in H
      end;
      destruct (scanInt _) as [[ip s2]|]; try discriminate H;
      destruct (scanFrac s2) as [[fp s3]|]; try discriminate H;
      destruct (scanExp s3) as [[ep s4]|]; try discriminate H;
      cbn [append] in H; injection H as H1 H2; cbn [append];
      now rewrite H1, H2.
Qed.

Lemma Itoa_head n :
  exists c ds, Strconv.Itoa n = String c ds
               /\ (c = "-"%char \/ isDigit c = true).
Proof.
  destruct n as [|p|p].
  - exists "0"%char, EmptyString. split; [reflexivity | now right].
  - rewrite Itoa_pos. destruct (to_uint_head p) as [Hnil _].
    destruct (Pos.to_uint p); try congruence;
      cbn [NilEmpty.string_of_uint]; eexists _, _; (split; [reflexivity | now right]).
  - rewrite Itoa_neg. eexists _, _. split; [reflexivity | now left].
Qed.

Lemma parseValue_number_head f d c r :
  c = "-"%char \/ isDigit c = true ->
  parseValue (S f) d (String c r)
  = match scanNumber (String c r) with
    | Some (lit, rest) => Some (Number lit, rest)
    | None => None
    end.
Proof.
  each_byte c; intros [H|H]; try discriminate H; reflexivity.
Qed.

Lemma parseValue_Itoa f d n r :
  parseValue (S f) d (Strconv.Itoa n ++ String "}" r)
  = Some (Number (Strconv.Itoa n), String "}" r).
Proof.
  destruct (Itoa_head n) as (c & ds & E & Hc).
  pose proof (scanNumber_Itoa n r) as H. rewrite E in *.
  cbn [append] in *. rewrite (parseValue_number_head f d c _ Hc), H.
  reflexivity.
Qed.

Lemma ParseInt_Itoa n :
  Strconv.inInt64 n = true -> Strconv.ParseInt (Strconv.Itoa n) = Some n.
Proof.
  intros Hn. unfold Strconv.ParseInt, Strconv.Itoa.
  rewrite NilZero.isi.
  - rewrite DecimalZ.of_to. cbv zeta. now rewrite Hn.
  - destruct n as [|p|p]; cbn; try discriminate.
    intros [= H]. now apply (DecimalPos.Unsigned.to_uint_nonnil p).
  - destruct n as [|p|p]; cbn; try discriminate.
    intros [= H]. now apply (DecimalPos.Unsigned.to_uint_nonnil p).
Qed.

(** *** Members of an object *)

(** A member with a string value, followed by a comma. *)
Lemma parseMembers_string f d k s more :
  parseMembers (S (S f)) d (quote k ++ String ":" (quote s ++ String "," more))
  = match parseMembers (S f) d more with
    | Some (ms, rest) => Some ((coerceUTF8 k, Str (coerceUTF8 s)) :: ms, rest)
    | None => None
    end.
Proof.
  unfold quote. cbn [append].
  rewrite !append_assoc. cbn [append].
  cbn [parseMembers]. cbn [skipWs].
  change (isWs Json.dquote) with false. cbv iota.
  change (Ascii.eqb Json.dquote Json.dquote) with true. cbv iota.
  rewrite unquote_quote. cbn [skipWs].
  change (isWs ":") with false. cbv iota.
  change (Ascii.eqb ":" ":") with true. cbv iota.
  cbn [parseValue skipWs].
  change (isWs Json.dquote) with false. cbv iota.
  change (Ascii.eqb Json.dquote "{") with false.
  change (Ascii.eqb Json.dquote "[") with false.
  change (Ascii.eqb Json.dquote Json.dquote) with true. cbv iota.
  rewrite unquote_quote. cbn [skipWs].
  change (isWs ",") with false. cbv iota.
  change (Ascii.eqb "," "}") with false.
  change (Ascii.eqb "," ",") with true. cbv iota.
  reflexivity.
Qed.

(** The last member, with an integer value, and the closing brace. *)
Lemma parseMembers_int f d k n rest :
  parseMembers (S (S f)) d (quote k ++ String ":" (Strconv.Itoa n ++ String "}" rest))
  = Some ([(coerceUTF8 k, Number (Strconv.Itoa n))], rest).
Proof.
  unfold quote. cbn [append].
  rewrite !append_assoc. cbn [append].
  cbn [parseMembers]. cbn [skipWs].
  change (isWs Json.dquote) with false. cbv iota.
  change (Ascii.eqb Json.dquote Json.dquote) with true. cbv iota.
  rewrite unquote_quote. cbn [skipWs].
  change (isWs ":") with false. cbv iota.
  change (Ascii.eqb ":" ":") with true. cbv iota.
  rewrite parseValue_Itoa. cbn [skipWs].
  change (isWs "}") with false. cbv iota.
  change (Ascii.eqb "}" "}") with true. cbv iota.
  reflexivity.
Qed.

(** An object that may still be opened is its members. *)
Lemma parseValue_object f d k rest :
  (d < maxNestingDepth)%N ->
  parseValue (S f) d (String "{" (quote k ++ rest))
  = match parseMembers f (d + 1) (quote k ++ rest) with
    | Some (ms, rest') => Some (Object ms, rest')
    | None => None
    end.
Proof.
  intros Hd. apply N.leb_gt in Hd. unfold quote. cbn [append].
  cbn [parseValue skipWs].
  change (isWs "{") with false. cbv iota.
  change (Ascii.eqb "{" "{") with true. cbv iota.
  rewrite Hd.
  change (isWs Json.dquote) with false. cbv iota.
  change (Ascii.eqb Json.dquote "}") with false. cbv iota.
  reflexivity.
Qed.

(** *** The nesting limit *)

(** Input that opens one array more than may be open is refused,
    whatever follows. *)
Lemma parseValue_too_deep n : forall f d r,
  (maxNestingDepth <= d + N.of_nat n)%N ->
  parseValue f d (Shapes.opened (S n) r) = None.
Proof.
  induction n as [|n IH]; intros f d r H; (destruct f as [|f]; [reflexivity|]);
    cbn [Shapes.opened parseValue skipWs];
    change (isWs "[") with false; cbv iota;
    change (Ascii.eqb "[" "{") with false;
    change (Ascii.eqb "[" "[") with true; cbv iota.
  - replace (maxNestingDepth <=? d)%N with true; [reflexivity|].
    symmetry. apply N.leb_le. lia.
  - destruct (maxNestingDepth <=? d)%N eqn:E; [reflexivity|].
    cbn [Shapes.opened skipWs].
    change (isWs "[") with false. cbv iota.
    change (Ascii.eqb "[" "]") with false. cbv iota.
    change (String "[" (Shapes.opened n r)) with (Shapes.opened (S n) r).
    destruct f as [|f]; [reflexivity|]. cbn [parseElems].
    rewrite IH by lia. reflexivity.
Qed.

(** A document nested deeper than [maxNestingDepth] does not parse. *)
Lemma parse_too_deep n r :
  (maxNestingDepth <= N.of_nat n)%N -> parse (Shapes.opened (S n) r) = None.
Proof.
  intros H. unfold parse. rewrite parseValue_too_deep; [reflexivity|].
  now rewrite N.add_0_l.
Qed.

End JsonFacts.

(** ** Decoded strings are well-formed UTF-8 *)

Module Utf8Facts.

Import Utf8 Shapes.

#[local] Arguments String.append !s1 s2 : simpl nomatch.

#[local] Ltac Zify.zify_post_hook ::= Z.to_euclidean_division_equations.

Lemma code_byte (n : N) : (n < 256)%N -> code (byte n) = n.
Proof. intros H. unfold code, byte. now apply N_ascii_embedding. Qed.

Lemma inRange_byte lo hi n :
  (n < 256)%N ->
  inRange lo hi (byte n) = ((lo <=? n)%N && (n <=? hi)%N).
Proof. intros H. unfold inRange. now rewrite (code_byte n H). Qed.

Lemma isAscii_byte n : (n < 256)%N -> isAscii (byte n) = (n <? 128)%N.
Proof. intros H. unfold isAscii. now rewrite (code_byte n H). Qed.

Lemma valid_rune_app p s :
  wholeRune p -> ValidString (p ++ s) = ValidString s.
Proof.
  intros [Hne Hlen].
  destruct p as [|b0 p]; [congruence|]. clear Hne.
  cbn [append ValidString]. cbn [runeLen String.length] in Hlen.
  destruct (isAscii b0).
  { destruct p; [reflexivity | discriminate Hlen]. }
  destruct p as [|b1 p]; [discriminate|].
  cbn [append]. cbn [String.length] in Hlen.
  destruct (inRange 194 223 b0 && cont b1).
  { destruct p; [reflexivity | discriminate Hlen]. }
  destruct p as [|b2 p]; [discriminate|].
  cbn [append]. cbn [String.length] in Hlen.
  destruct (lead3 b0 b1 && cont b2).
  { destruct p; [reflexivity | discriminate Hlen]. }
  destruct p as [|b3 p]; [discriminate|].
  cbn [append]. cbn [String.length] in Hlen.
  destruct (lead4 b0 b1 && cont b2 && cont b3); [|discriminate].
  destruct p; [reflexivity | discriminate Hlen].
Qed.

Lemma wholeRune_replacement : wholeRune replacement.
Proof. split; [discriminate | reflexivity]. Qed.

Lemma wholeRune_ascii c :
  isAscii c = true -> wholeRune (String c EmptyString).
Proof.
  intros H. split; [discriminate|]. cbn [runeLen String.length].
  now rewrite H.
Qed.

Ltac bools :=
  repeat first
    [ rewrite andb_true_iff | rewrite orb_true_iff
    | rewrite andb_false_iff | rewrite orb_false_iff
    | rewrite N.leb_le | rewrite N.ltb_lt
    | rewrite N.leb_gt | rewrite N.ltb_ge ].

(** [EncodeRune] writes one well-formed rune, whatever it is given. *)
Lemma wholeRune_EncodeRune (r : N) : wholeRune (EncodeRune r).
Proof.
  unfold EncodeRune.
  destruct (r <? 128)%N eqn:H1.
  { apply wholeRune_ascii. apply N.ltb_lt in H1.
    rewrite isAscii_byte by lia. now apply N.ltb_lt. }
  apply N.ltb_ge in H1.
  destruct (r <? 2048)%N eqn:H2.
  { apply N.ltb_lt in H2. split; [discriminate|].
    cbn [runeLen String.length].
    rewrite isAscii_byte by lia.
    replace (192 + r / 64 <? 128)%N with false by (symmetry; bools; lia).
    rewrite !inRange_byte by lia. unfold cont. rewrite inRange_byte by lia.
    replace ((194 <=? 192 + r / 64)%N && (192 + r / 64 <=? 223)%N
             && ((128 <=? 128 + r mod 64)%N && (128 + r mod 64 <=? 191)%N))
      with true by (symmetry; bools; lia).
    reflexivity. }
  apply N.ltb_ge in H2.
  destruct (((55296 <=? r)%N && (r <? 57344)%N) || (1114111 <? r)%N) eqn:H3.
  { apply wholeRune_replacement. }
  revert H3. bools. intros H3.
  destruct (r <? 65536)%N eqn:H4.
  { apply N.ltb_lt in H4. split; [discriminate|].
    cbn [runeLen String.length].
    rewrite isAscii_byte by lia.
    replace (224 + r / 4096 <? 128)%N with false by (symmetry; bools; lia).
    unfold lead3, cont. rewrite !inRange_byte by lia.
    replace ((194 <=? 224 + r / 4096)%N && (224 + r / 4096 <=? 223)%N
             && ((128 <=? 128 + (r / 64) mod 64)%N
                 && (128 + (r / 64) mod 64 <=? 191)%N))
      with false by (symmetry; bools; lia).
    match goal with
    | |- (if ?c then _ else _) = _ =>
      replace c with true by (symmetry; bools; lia)
    end.
    reflexivity. }
  apply N.ltb_ge in H4. split; [discriminate|].
  cbn [runeLen String.length].
  rewrite isAscii_byte by lia.
  replace (240 + r / 262144 <? 128)%N with false by (symmetry; bools; lia).
  unfold lead3, lead4, cont. rewrite !inRange_byte by lia.
  replace ((194 <=? 240 + r / 262144)%N && (240 + r / 262144 <=? 223)%N
           && ((128 <=? 128 + (r / 4096) mod 64)%N
               && (128 + (r / 4096) mod 64 <=? 191)%N))
    with false by (symmetry; bools; lia).
  match goal with
  | |- (if ?c then _ else _) = _ =>
    replace c with false by (symmetry; bools; lia)
  end.
  match goal with
  | |- (if ?c then _ else _) = _ =>
    replace c with true by (symmetry; bools; lia)
  end.
  reflexivity.
Qed.

Lemma wholeRune_2 b0 b1 r :
  isAscii b0 = false ->
  runeLen (String b0 (String b1 r)) = 2%nat ->
  wholeRune (String b0 (String b1 EmptyString)).
Proof.
  intros Ha H. split; [discriminate|].
  now rewrite (JsonFacts.runeLen_2 _ _ _ EmptyString H).
Qed.

Lemma wholeRune_3 b0 b1 b2 r :
  runeLen (String b0 (String b1 (String b2 r))) = 3%nat ->
  wholeRune (String b0 (String b1 (String b2 EmptyString))).
Proof.
  intros H. split; [discriminate|].
  now rewrite (JsonFacts.runeLen_3 _ _ _ _ EmptyString H).
Qed.

Lemma wholeRune_4 b0 b1 b2 b3 r :
  runeLen (String b0 (String b1 (String b2 (String b3 r)))) = 4%nat ->
  wholeRune (String b0 (String b1 (String b2 (String b3 EmptyString)))).
Proof.
  intros H. split; [discriminate|].
  now rewrite (JsonFacts.runeLen_4 _ _ _ _ _ EmptyString H).
Qed.

Lemma simpleEscape_ascii e ch :
  Json.simpleEscape e = Some ch -> isAscii ch = true.
Proof.
  unfold Json.simpleEscape.
  repeat match goal with
         | |- context [if ?c then _ else _] => destruct c eqn:?
         end; intros [= <-]; try reflexivity;
    repeat match goal with
           | H : (_ || _) = true |- _ => apply orb_true_iff in H; destruct H
           | H : Ascii.eqb _ _ = true |- _ => apply Ascii.eqb_eq in H; subst
           end; reflexivity.
Qed.

Lemma prepend_valid p r out rest :
  wholeRune p ->
  (forall out', r = Some (out', rest) -> ValidString out' = true) ->
  Json.prepend p r = Some (out, rest) -> ValidString out = true.
Proof.
  intros Hp IH. destruct r as [[out' rest']|]; [|discriminate].
  cbn [Json.prepend]. intros [= <- <-].
  rewrite (valid_rune_app _ _ Hp). now apply IH.
Qed.

(** Whatever [unquoteBody] reads is well-formed UTF-8. *)
Lemma unquoteBody_valid_n (n : nat) : forall s out rest,
  (String.length s <= n)%nat ->
  Json.unquoteBody s = Some (out, rest) -> ValidString out = true.
Proof.
  induction n as [|n IH]; intros s out rest Hlen.
  - destruct s; [discriminate | simpl in Hlen; lia].
  - destruct s as [|c r]; [discriminate|].
    cbn [String.length] in Hlen.
    cbn [Json.unquoteBody].
    destruct (Ascii.eqb c Json.dquote); [now intros [= <- <-]|].
    destruct (Ascii.eqb c "\").
    { destruct r as [|e r']; [discriminate|]. cbn [String.length] in Hlen.
      destruct (Ascii.eqb e "u").
      - destruct r' as [|h1 [|h2 [|h3 [|h4 r4]]]]; try discriminate.
        cbn [String.length] in Hlen.
        destruct (Json.getu4 h1 h2 h3 h4) as [rr|]; [|discriminate].
        destruct (Json.isSurrogate rr).
        + destruct (Json.lowSurrogate rr r4) as [dec|].
          * destruct r4 as [|k0 [|k1 [|k2 [|k3 [|k4 [|k5 r10]]]]]];
              cbn [String.length] in Hlen;
              (apply prepend_valid;
               [first [apply wholeRune_EncodeRune | apply wholeRune_replacement]
               | intros out'; apply IH; cbn [String.length]; lia]).
          * apply prepend_valid;
              [apply wholeRune_replacement | intros out'; apply IH; lia].
        + apply prepend_valid;
            [apply wholeRune_EncodeRune | intros out'; apply IH; lia].
      - destruct (Json.simpleEscape e) as [ch|] eqn:He; [|discriminate].
        apply prepend_valid;
          [apply wholeRune_ascii; eapply simpleEscape_ascii; eassumption
          | intros out'; apply IH; lia]. }
    destruct (Utf8.code c <? 32)%N; [discriminate|].
    destruct (isAscii c) eqn:Ha.
    { apply prepend_valid;
        [now apply wholeRune_ascii | intros out'; apply IH; lia]. }
    destruct (runeLen (String c r)) as [|[|[|[|[|k]]]]] eqn:HL;
      try (apply prepend_valid;
           [apply wholeRune_replacement | intros out'; apply IH; lia]).
    + destruct r as [|b1 r1];
        [apply prepend_valid;
         [apply wholeRune_replacement | intros out'; apply IH; lia]|].
      cbn [String.length] in Hlen.
      apply prepend_valid;
        [eapply wholeRune_2; eassumption | intros out'; apply IH; lia].
    + destruct r as [|b1 [|b2 r2]];
        try (apply prepend_valid;
             [apply wholeRune_replacement
             | intros out'; apply IH; cbn [String.length] in *; lia]).
      cbn [String.length] in Hlen.
      apply prepend_valid;
        [eapply wholeRune_3; eassumption | intros out'; apply IH; lia].
    + destruct r as [|b1 [|b2 [|b3 r3]]];
        try (apply prepend_valid;
             [apply wholeRune_replacement
             | intros out'; apply IH; cbn [String.length] in *; lia]).
      cbn [String.length] in Hlen.
      apply prepend_valid;
        [eapply wholeRune_4; eassumption | intros out'; apply IH; lia].
Qed.

Lemma unquoteBody_valid s out rest :
  Json.unquoteBody s = Some (out, rest) -> ValidString out = true.
Proof. apply (unquoteBody_valid_n (String.length s)); lia. Qed.

End Utf8Facts.

(** ** The token store *)

Module TokenFacts.

Import Token Shapes.

#[local] Arguments String.append !s1 s2 : simpl nomatch.

Lemma marshal_members (t : TokenSpec) :
  marshalTokenSpec t
  = String "{"
      (member "access_token" (Json.quote (AccessToken t)) (String ","
      (member "refresh_token" (Json.quote (RefreshToken_ t)) (String ","
      (member "id_token" (Json.quote (IDToken t)) (String ","
      (member "token_type" (Json.quote (TokenType t)) (String ","
      (member "expires_in" (Strconv.Itoa (ExpiresIn t)) (String "}" EmptyString)))))))))).
Proof.
  unfold marshalTokenSpec, member, Json.memberName.
  replace (Json.quote "access_token") with (String Json.dquote ("access_token" ++ String Json.dquote EmptyString))
    by (vm_compute; reflexivity).
  replace (Json.quote "refresh_token") with (String Json.dquote ("refresh_token" ++ String Json.dquote EmptyString))
    by (vm_compute; reflexivity).
  replace (Json.quote "id_token") with (String Json.dquote ("id_token" ++ String Json.dquote EmptyString))
    by (vm_compute; reflexivity).
  replace (Json.quote "token_type") with (String Json.dquote ("token_type" ++ String Json.dquote EmptyString))
    by (vm_compute; reflexivity).
  replace (Json.quote "expires_in") with (String Json.dquote ("expires_in" ++ String Json.dquote EmptyString))
    by (vm_compute; reflexivity).
  repeat first [rewrite JsonFacts.append_assoc | progress cbn [append]].
  reflexivity.
Qed.

(** The stored document parses into its five members. *)
Lemma parse_marshal (t : TokenSpec) :
  Json.parse (marshalTokenSpec t)
  = Some (Json.Object
            [("access_token", Json.Str (Json.coerceUTF8 (AccessToken t)));
             ("refresh_token", Json.Str (Json.coerceUTF8 (RefreshToken_ t)));
             ("id_token", Json.Str (Json.coerceUTF8 (IDToken t)));
             ("token_type", Json.Str (Json.coerceUTF8 (TokenType t)));
             ("expires_in", Json.Number (Strconv.Itoa (ExpiresIn t)))]).
Proof.
  unfold Json.parse.
  assert (Hfuel : exists f,
             (2 * String.length (marshalTokenSpec t) + 2 = 7 + f)%nat).
  { exists (2 * String.length (marshalTokenSpec t) - 5)%nat.
    unfold marshalTokenSpec, Json.memberName. cbn [append String.length]. lia. }
  destruct Hfuel as [f ->]. rewrite marshal_members.
  change (7 + f)%nat with (S (S (S (S (S (S (S f))))))).
  unfold member.
  rewrite JsonFacts.parseValue_object by reflexivity.
  rewrite !JsonFacts.parseMembers_string, JsonFacts.parseMembers_int.
  reflexivity.
Qed.

(** Reading a stored document gives back the token with its strings
    coerced to well-formed UTF-8. *)
Lemma unmarshal_marshal (t : TokenSpec) :
  Strconv.inInt64 (ExpiresIn t) = true ->
  unmarshalTokenSpec (marshalTokenSpec t) = Some (coerceTokenSpec t).
Proof.
  intros Hn. unfold unmarshalTokenSpec. rewrite parse_marshal.
  cbn. rewrite (JsonFacts.ParseInt_Itoa _ Hn). reflexivity.
Qed.

(** *** What a decoded token is made of *)

Lemma parseValue_good f : forall d s v rest,
  Json.parseValue f d s = Some (v, rest) -> goodValue v.
Proof.
  destruct f as [|f]; [discriminate|]. intros d s v rest.
  cbn [Json.parseValue].
  destruct (Json.skipWs s) as [|c r]; [discriminate|].
  repeat match goal with
         | |- context [if ?c then _ else _] => destruct c
         | |- context [match Json.skipWs ?x with _ => _ end] =>
           destruct (Json.skipWs x)
         | |- context [match Json.parseMembers ?a ?n ?b with _ => _ end] =>
           destruct (Json.parseMembers a n b) as [[? ?]|]
         | |- context [match Json.parseElems ?a ?n ?b with _ => _ end] =>
           destruct (Json.parseElems a n b) as [[? ?]|]
         | |- context [match Json.scanNumber ?a with _ => _ end] =>
           destruct (Json.scanNumber a) as [[? ?]|]
         | |- context [Json.stripPrefix ?a ?b] =>
           destruct (Json.stripPrefix a b)
         end;
    try discriminate; try (intros [= <- <-]; exact I).
  destruct (Json.unquoteBody r) as [[str rest']|] eqn:E; [|discriminate].
  intros [= <- <-]. exact (Utf8Facts.unquoteBody_valid _ _ _ E).
Qed.

Lemma parseMembers_good f : forall n s ms rest,
  Json.parseMembers f n s = Some (ms, rest) ->
  Forall (fun kv => goodValue (snd kv)) ms.
Proof.
  induction f as [|f IH]; [discriminate|]. intros n s ms rest.
  cbn [Json.parseMembers].
  destruct (Json.skipWs s) as [|q r]; [discriminate|].
  destruct (Ascii.eqb q Json.dquote); [|discriminate].
  destruct (Json.unquoteBody r) as [[key r1]|]; [|discriminate].
  destruct (Json.skipWs r1) as [|colon r2]; [discriminate|].
  destruct (Ascii.eqb colon ":"); [|discriminate].
  destruct (Json.parseValue f n r2) as [[v r3]|] eqn:Ev; [|discriminate].
  apply parseValue_good in Ev.
  destruct (Json.skipWs r3) as [|d r4]; [discriminate|].
  destruct (Ascii.eqb d "}").
  { intros [= <- <-]. repeat constructor. exact Ev. }
  destruct (Ascii.eqb d ","); [|discriminate].
  destruct (Json.parseMembers f n r4) as [[ms' rest']|] eqn:Em; [|discriminate].
  intros [= <- <-]. constructor; [exact Ev | exact (IH _ _ _ _ Em)].
Qed.

Lemma parse_good data ms :
  Json.parse data = Some (Json.Object ms) ->
  Forall (fun kv => goodValue (snd kv)) ms.
Proof.
  unfold Json.parse.
  destruct (Json.parseValue _ _ data) as [[v rest]|] eqn:E; [|discriminate].
  destruct (Json.skipWs rest); [|discriminate]. intros [= ->].
  destruct (2 * String.length data + 2)%nat as [|f]; [discriminate|].
  cbn [Json.parseValue] in E.
  destruct (Json.skipWs data) as [|c r]; [discriminate|].
  destruct (Ascii.eqb c "{").
  - destruct (Json.maxNestingDepth <=? 0)%N; [discriminate|].
    destruct (Json.skipWs r) as [|c' r']; [discriminate|].
    destruct (Ascii.eqb c' "}"); [injection E as <- _; constructor|].
    destruct (Json.parseMembers f _ _) as [[ms' rest']|] eqn:Em; [|discriminate].
    injection E as <- _. exact (parseMembers_good _ _ _ _ _ Em).
  - repeat match type of E with
           | context [if ?c then _ else _] => destruct c
           | context [match Json.skipWs ?x with _ => _ end] =>
             destruct (Json.skipWs x)
           | context [match Json.parseElems ?a ?n ?b with _ => _ end] =>
             destruct (Json.parseElems a n b) as [[? ?]|]
           | context [match Json.unquoteBody ?a with _ => _ end] =>
             destruct (Json.unquoteBody a) as [[? ?]|]
           | context [match Json.scanNumber ?a with _ => _ end] =>
             destruct (Json.scanNumber a) as [[? ?]|]
           | context [Json.stripPrefix ?a ?b] =>
             destruct (Json.stripPrefix a b)
           end; discriminate E.
Qed.

Lemma wellFormed_zero : wellFormed zeroTokenSpec.
Proof. repeat split. Qed.

Lemma ParseInt_inInt64 lit n :
  Strconv.ParseInt lit = Some n -> Strconv.inInt64 n = true.
Proof.
  unfold Strconv.ParseInt. destruct (NilZero.int_of_string lit); [|discriminate].
  cbv zeta. destruct (Strconv.inInt64 _) eqn:E; [|discriminate].
  now intros [= <-].
Qed.

Lemma setTokenSpecField_wf t name v t' :
  wellFormed t -> goodValue v ->
  setTokenSpecField t name v = Some t' -> wellFormed t'.
Proof.
  intros (Ha & Hr & Hi & Ht & Hn) Hv. unfold setTokenSpecField.
  repeat match goal with
         | |- context [if ?c then _ else _] => destruct c
         end;
    unfold Json.setString, Json.setInt; destruct v; try discriminate;
    try (intros [= <-]; repeat split; assumption).
  destruct (Strconv.ParseInt literal) eqn:E; [|discriminate].
  intros [= <-]. repeat split; try assumption.
  exact (ParseInt_inInt64 _ _ E).
Qed.

Lemma decode_wf (ms : list (string * Json.value)) : forall acc t',
  Forall (fun kv => goodValue (snd kv)) ms ->
  (forall t, acc = Some t -> wellFormed t) ->
  fold_left
    (fun acc kv =>
       match acc with
       | None => None
       | Some t =>
         match Json.fieldOf tokenSpecFields (fst kv) with
         | Some n => setTokenSpecField t n (snd kv)
         | None => Some t
         end
       end) ms acc = Some t' ->
  wellFormed t'.
Proof.
  induction ms as [|kv ms IH]; intros acc t' Hg Hacc; cbn [fold_left].
  - intros ->. now apply Hacc.
  - inversion Hg as [|? ? Hkv Hms]; subst. apply IH; [exact Hms|].
    intros t. destruct acc as [t0|]; [|discriminate].
    destruct (Json.fieldOf tokenSpecFields (fst kv)).
    + apply setTokenSpecField_wf; [now apply Hacc | exact Hkv].
    + intros [= <-]. now apply Hacc.
Qed.

(** Every token read from a document is well formed. *)
Lemma unmarshal_wf data t :
  unmarshalTokenSpec data = Some t -> wellFormed t.
Proof.
  unfold unmarshalTokenSpec.
  destruct (Json.parse data) as [v|] eqn:E; [|discriminate].
  destruct v; try discriminate; cbn [Json.decodeStruct].
  - intros [= <-]. apply wellFormed_zero.
  - apply decode_wf; [exact (parse_good _ _ E)|].
    intros t0 [= <-]. apply wellFormed_zero.
Qed.

Lemma coerce_wf t : wellFormed t -> coerceTokenSpec t = t.
Proof.
  intros (Ha & Hr & Hi & Ht & _). unfold coerceTokenSpec.
  rewrite !JsonFacts.coerce_valid by assumption. now destruct t.
Qed.

(** *** Saving, reading and refreshing *)

Section StoreFacts.

Variable GetLocalStorageFile : string -> string.

Abbreviation SaveToken := (Token.SaveToken GetLocalStorageFile).
Abbreviation GetAccessToken := (Token.GetAccessToken GetLocalStorageFile).
Abbreviation GetRefreshToken := (Token.GetRefreshToken GetLocalStorageFile).
Abbreviation RefreshToken := (Token.RefreshToken GetLocalStorageFile).

Lemma SaveToken_saved fs t fs' :
  SaveToken fs t = (None, fs') ->
  ReadFile fs' (GetLocalStorageFile "tokens.json") = Some (marshalTokenSpec t).
Proof.
  unfold Token.SaveToken, WriteFile, ReadFile.
  destruct (decide _); [destruct (truncated fs !! _); discriminate|].
  intros [= <-]. cbn [files withFiles]. apply lookup_insert_eq.
Qed.

(** What a successful save leaves to read. *)
Lemma read_after_save fs t fs' :
  Strconv.inInt64 (ExpiresIn t) = true ->
  SaveToken fs t = (None, fs') ->
  GetAccessToken fs' = Ok (Json.coerceUTF8 (AccessToken t))
  /\ GetRefreshToken fs' = Ok (Json.coerceUTF8 (RefreshToken_ t)).
Proof.
  intros Hn Hs. apply SaveToken_saved in Hs.
  unfold Token.GetAccessToken, Token.GetRefreshToken.
  rewrite Hs, (unmarshal_marshal t Hn). split; reflexivity.
Qed.

(** C9, amended. A successful save followed by a read returns the
    access token and the refresh token that were saved, with every
    byte that is not part of well-formed UTF-8 replaced by U+FFFD:
    a field that is well-formed UTF-8 is read back exactly. *)
Theorem save_then_read fs t fs' :
  Strconv.inInt64 (ExpiresIn t) = true ->
  SaveToken fs t = (None, fs') ->
  (GetAccessToken fs' = Ok (Json.coerceUTF8 (AccessToken t))
   /\ GetRefreshToken fs' = Ok (Json.coerceUTF8 (RefreshToken_ t)))
  /\ (Utf8.ValidString (AccessToken t) = true ->
      GetAccessToken fs' = Ok (AccessToken t))
  /\ (Utf8.ValidString (RefreshToken_ t) = true ->
      GetRefreshToken fs' = Ok (RefreshToken_ t)).
Proof.
  intros Hn Hs. destruct (read_after_save fs t fs' Hn Hs) as [Ha Hr].
  repeat split; try assumption.
  - intros Hv. now rewrite Ha, JsonFacts.coerce_valid.
  - intros Hv. now rewrite Hr, JsonFacts.coerce_valid.
Qed.

(** The stored refresh token is always well-formed UTF-8. *)
Lemma GetRefreshToken_valid fs old :
  GetRefreshToken fs = Ok old -> Utf8.ValidString old = true.
Proof.
  unfold Token.GetRefreshToken.
  destruct (ReadFile fs _); [|discriminate].
  destruct (unmarshalTokenSpec s) as [t|] eqn:E; [|discriminate].
  intros [= <-]. now destruct (unmarshal_wf _ _ E) as (_ & H & _).
Qed.

(** The ways [RefreshToken] returns [nil]. *)
Lemma RefreshToken_nil do fs fs' :
  RefreshToken do fs = (None, fs') ->
  exists old status body,
    GetRefreshToken fs = Ok old
    /\ do (refreshRequest old) = Response status body
    /\ ((400 < status < 500 /\ fs' = fs
         /\ exists e, unmarshalAuthError body = Some e
                      /\ Error e <> "expired_token"
                      /\ Error e <> "invalid_grand"
                      /\ Error e <> "access_denied")
        \/ (200 <= status <= 300
            /\ exists t, unmarshalTokenSpec body = Some t
                         /\ SaveToken fs (withRefreshToken t old) = (None, fs'))).
Proof.
  unfold Token.RefreshToken.
  destruct (GetRefreshToken fs) as [old|] eqn:Hold; [|discriminate].
  destruct (do (refreshRequest old)) as [| |status body] eqn:Hdo;
    try discriminate.
  intros H. exists old, status, body.
  split; [reflexivity|]. split; [exact Hdo|].
  destruct ((400 <? status) && (status <? 500)) eqn:H4.
  - left. apply andb_true_iff in H4 as [H4a H4b].
    apply Z.ltb_lt in H4a, H4b.
    destruct (unmarshalAuthError body) as [e|]; [|discriminate].
    destruct (String.eqb (Error e) "expired_token") eqn:E1; [discriminate|].
    destruct (String.eqb (Error e) "invalid_grand") eqn:E2; [discriminate|].
    destruct (String.eqb (Error e) "access_denied") eqn:E3; [discriminate|].
    cbn [orb] in H. injection H as <-.
    apply String.eqb_neq in E1, E2, E3.
    repeat split; try lia. now exists e.
  - right.
    destruct ((200 <=? status) && (status <=? 300)) eqn:H2; [|discriminate].
    apply andb_true_iff in H2 as [H2a H2b]. apply Z.leb_le in H2a, H2b.
    destruct (unmarshalTokenSpec body) as [t|]; [|discriminate].
    cbv zeta in H.
    destruct (SaveToken fs (withRefreshToken t old)) as [[err|] fs1] eqn:Hs;
      [discriminate|].
    injection H as <-. split; [lia|]. now exists t.
Qed.

(** C1, amended. After every call of [RefreshToken] that returns
    [nil] the stored refresh token is the one stored before,
    whatever the answer of the issuer held. *)
Theorem refresh_keeps_refresh_token do fs fs' old :
  GetRefreshToken fs = Ok old ->
  RefreshToken do fs = (None, fs') ->
  GetRefreshToken fs' = Ok old.
Proof.
  intros Hold H.
  destruct (RefreshToken_nil _ _ _ H)
    as (old' & status & body & Hold' & _ & [(_ & -> & _) | (_ & t & Ht & Hs)]);
    [exact Hold|].
  rewrite Hold in Hold'. injection Hold' as <-.
  pose proof (unmarshal_wf _ _ Ht) as (_ & _ & _ & _ & Hn).
  destruct (read_after_save fs (withRefreshToken t old) fs' Hn Hs) as [_ Hr].
  rewrite Hr. cbn [withRefreshToken RefreshToken_].
  now rewrite (JsonFacts.coerce_valid _ (GetRefreshToken_valid _ _ Hold)).
Qed.

(** C4. An answer between 401 and 499 whose error is none of the
    three recognized ones makes [RefreshToken] return [nil], with
    nothing saved. *)
Theorem refresh_unrecognized_error do fs old status body e :
  GetRefreshToken fs = Ok old ->
  do (refreshRequest old) = Response status body ->
  400 < status < 500 ->
  unmarshalAuthError body = Some e ->
  Error e <> "expired_token" ->
  Error e <> "invalid_grand" ->
  Error e <> "access_denied" ->
  RefreshToken do fs = (None, fs).
Proof.
  intros Hold Hdo Hst He H1 H2 H3. unfold Token.RefreshToken.
  rewrite Hold, Hdo.
  replace ((400 <? status) && (status <? 500)) with true
    by (symmetry; apply andb_true_iff; split; apply Z.ltb_lt; lia).
  rewrite He.
  apply String.eqb_neq in H1, H2, H3. now rewrite H1, H2, H3.
Qed.

End StoreFacts.

(** C9. Saved with an access token that is the byte FF, the token
    reads back with U+FFFD in its place. *)
Lemma save_then_read_invalid_utf8 :
  fst (SaveToken Samples.storageFile Samples.noFiles Samples.tokenFF) = None
  /\ GetAccessToken Samples.storageFile
       (snd (SaveToken Samples.storageFile Samples.noFiles Samples.tokenFF))
     = Ok Utf8.replacement
  /\ Utf8.replacement <> AccessToken Samples.tokenFF.
Proof.
  split; [vm_compute; reflexivity|].
  split; [vm_compute; reflexivity|].
  intros H. vm_compute in H. discriminate H.
Qed.

Lemma save_then_read_witness :
  Strconv.inInt64 (ExpiresIn Samples.token1) = true
  /\ SaveToken Samples.storageFile Samples.noFiles Samples.token1
     = (None, Samples.savedFiles)
  /\ GetAccessToken Samples.storageFile Samples.savedFiles = Ok "access-1"
  /\ GetRefreshToken Samples.storageFile Samples.savedFiles = Ok "refresh-1".
Proof.
  assert (Hn : Strconv.inInt64 (ExpiresIn Samples.token1) = true)
    by reflexivity.
  assert (Hs : SaveToken Samples.storageFile Samples.noFiles Samples.token1
               = (None, Samples.savedFiles)) by reflexivity.
  destruct (save_then_read Samples.storageFile _ _ _ Hn Hs) as (_ & Ha & Hr).
  split; [exact Hn|]. split; [exact Hs|].
  split; [apply Ha | apply Hr]; reflexivity.
Defined.

(** C1. The issuer answers 200 with the new refresh token refresh-2;
    [RefreshToken] returns [nil] and the stored refresh token is still
    refresh-1. *)
Lemma refresh_discards_new_refresh_token :
  GetRefreshToken Samples.storageFile Samples.savedFiles = Ok "refresh-1"
  /\ option_map RefreshToken_
       (unmarshalTokenSpec (marshalTokenSpec Samples.token2))
     = Some "refresh-2"
  /\ fst (RefreshToken Samples.storageFile Samples.rotatingIssuer Samples.savedFiles)
     = None
  /\ GetRefreshToken Samples.storageFile
       (snd (RefreshToken Samples.storageFile Samples.rotatingIssuer
               Samples.savedFiles))
     = Ok "refresh-1".
Proof. repeat split; vm_compute; reflexivity. Qed.

Lemma refresh_keeps_refresh_token_witness :
  GetRefreshToken Samples.storageFile Samples.savedFiles = Ok "refresh-1"
  /\ RefreshToken Samples.storageFile Samples.plainIssuer Samples.savedFiles
     = (None,
        snd (RefreshToken Samples.storageFile Samples.plainIssuer
               Samples.savedFiles))
  /\ GetRefreshToken Samples.storageFile
       (snd (RefreshToken Samples.storageFile Samples.plainIssuer
               Samples.savedFiles))
     = Ok "refresh-1".
Proof.
  assert (Hold : GetRefreshToken Samples.storageFile Samples.savedFiles
                 = Ok "refresh-1") by (vm_compute; reflexivity).
  assert (Hr : RefreshToken Samples.storageFile Samples.plainIssuer
                 Samples.savedFiles
               = (None,
                  snd (RefreshToken Samples.storageFile Samples.plainIssuer
                         Samples.savedFiles))) by (vm_compute; reflexivity).
  split; [exact Hold|]. split; [exact Hr|].
  exact (refresh_keeps_refresh_token Samples.storageFile _ _ _ _ Hold Hr).
Defined.

Lemma refresh_unrecognized_error_witness :
  RefreshToken Samples.storageFile Samples.rejectingIssuer Samples.savedFiles
  = (None, Samples.savedFiles).
Proof.
  apply (refresh_unrecognized_error Samples.storageFile
           Samples.rejectingIssuer Samples.savedFiles "refresh-1" 403
           Samples.rejection
           {| Error := "invalid_grant";
              ErrorDescription := "Unknown or invalid refresh token." |}).
  - vm_compute; reflexivity.
  - reflexivity.
  - lia.
  - vm_compute; reflexivity.
  - discriminate.
  - discriminate.
  - discriminate.
Defined.

End TokenFacts.

(** ** The token store: reading, refreshing, deleting and the device flow *)

Module TokenFlowFacts.

Import Token Shapes.

#[local] Arguments String.append !s1 s2 : simpl nomatch.

(** *** The form bodies *)

Lemma occurrences_app c (a b : string) :
  occurrences c (a ++ b) = (occurrences c a + occurrences c b)%nat.
Proof.
  induction a as [|x a IH]; [reflexivity|].
  cbn [append occurrences]. rewrite IH. lia.
Qed.

(** What [url.QueryEscape] writes has no byte that separates the
    parameters of a form. *)
Lemma QueryEscape_occurrences c s :
  c = "&"%char \/ c = "="%char ->
  occurrences c (Url.QueryEscape s) = 0%nat.
Proof.
  intros Hc. induction s as [|b s IH]; [reflexivity|].
  cbn [Url.QueryEscape].
  destruct (Url.unreserved b) eqn:Hu.
  - cbn [occurrences]. rewrite IH.
    replace (Ascii.eqb b c) with false; [reflexivity|].
    destruct Hc as [-> | ->]; revert Hu; JsonFacts.each_byte b;
      vm_compute; congruence.
  - destruct (Ascii.eqb b " ").
    + cbn [occurrences]. rewrite IH.
      destruct Hc as [-> | ->]; reflexivity.
    + cbn [occurrences]. rewrite IH.
      destruct Hc as [-> | ->]; clear; JsonFacts.each_byte b; reflexivity.
Qed.

(** X1. Whatever the refresh token and the device code hold, the form
    body of [RefreshToken] and the form body of [PollForToken] have
    three parameters: two separators and three equals signs. The
    refresh token follows the fixed text of the first two. *)
Theorem form_bodies_have_three_parameters token deviceCode :
  Payload (refreshRequest token)
  = "grant_type=refresh_token&client_id=R569dcCOUErjw1xVZOzqc7OUCiGTYNqN&refresh_token="
    ++ Url.QueryEscape token
  /\ occurrences "&" (Payload (refreshRequest token)) = 2%nat
  /\ occurrences "=" (Payload (refreshRequest token)) = 3%nat
  /\ occurrences "&" (Payload (pollRequest deviceCode)) = 2%nat
  /\ occurrences "=" (Payload (pollRequest deviceCode)) = 3%nat.
Proof.
  split; [reflexivity|].
  unfold refreshRequest, pollRequest. cbn [Payload].
  rewrite !occurrences_app, !QueryEscape_occurrences by (left + right; reflexivity).
  repeat split; reflexivity.
Qed.

(** *** Reading, refreshing and deleting *)

Section StoreFlow.

Variable GetLocalStorageFile : string -> string.

Abbreviation tokensLocation := (GetLocalStorageFile "tokens.json").
Abbreviation IsTokenSaved := (Token.IsTokenSaved GetLocalStorageFile).
Abbreviation SaveToken := (Token.SaveToken GetLocalStorageFile).
Abbreviation GetAccessToken := (Token.GetAccessToken GetLocalStorageFile).
Abbreviation GetRefreshToken := (Token.GetRefreshToken GetLocalStorageFile).
Abbreviation RefreshToken := (Token.RefreshToken GetLocalStorageFile).
Abbreviation DeleteTokens := (Token.DeleteTokens GetLocalStorageFile).

(** X2. Whatever the token file holds, a token that [GetAccessToken]
    or [GetRefreshToken] returns is well-formed UTF-8. *)
Theorem read_tokens_are_utf8 fs s :
  GetAccessToken fs = Ok s \/ GetRefreshToken fs = Ok s ->
  Utf8.ValidString s = true.
Proof.
  intros [H | H]; [|exact (TokenFacts.GetRefreshToken_valid _ _ _ H)].
  revert H. unfold Token.GetAccessToken.
  destruct (ReadFile fs _) as [tokens|]; [|discriminate].
  destruct (unmarshalTokenSpec tokens) as [t|] eqn:E; [|discriminate].
  intros [= <-]. now destruct (TokenFacts.unmarshal_wf _ _ E) as (H & _).
Qed.

Lemma SaveToken_writable fs t :
  tokensLocation ∉ readOnly fs ->
  exists fs', SaveToken fs t = (None, fs').
Proof.
  intros Hw. unfold Token.SaveToken, WriteFile.
  destruct (decide _) as [Hin|_]; [contradiction|]. eexists. reflexivity.
Qed.

(** X3. With a refresh token stored and the token file writable, an
    answer with a status from 200 to 300 whose body decodes to a token
    makes [RefreshToken] return [nil]; afterwards [GetAccessToken]
    returns the access token of the answer and [GetRefreshToken] the
    refresh token stored before. *)
Theorem refresh_installs_access_token do fs old status body t :
  GetRefreshToken fs = Ok old ->
  do (refreshRequest old) = Response status body ->
  200 <= status <= 300 ->
  unmarshalTokenSpec body = Some t ->
  tokensLocation ∉ readOnly fs ->
  exists fs',
    RefreshToken do fs = (None, fs')
    /\ GetAccessToken fs' = Ok (AccessToken t)
    /\ GetRefreshToken fs' = Ok old.
Proof.
  intros Hold Hdo Hst Hbody Hw.
  destruct (SaveToken_writable fs (withRefreshToken t old) Hw) as [fs' Hs].
  exists fs'. unfold Token.RefreshToken. rewrite Hold, Hdo.
  replace ((400 <? status) && (status <? 500)) with false
    by (symmetry; apply andb_false_iff; left; apply Z.ltb_ge; lia).
  replace ((200 <=? status) && (status <=? 300)) with true
    by (symmetry; apply andb_true_iff; split; apply Z.leb_le; lia).
  rewrite Hbody. cbv zeta. rewrite Hs. split; [reflexivity|].
  destruct (TokenFacts.unmarshal_wf _ _ Hbody) as (Ha & _ & _ & _ & Hn).
  pose proof (TokenFacts.GetRefreshToken_valid _ _ _ Hold) as Hv.
  destruct (TokenFacts.read_after_save GetLocalStorageFile fs
              (withRefreshToken t old) fs' Hn Hs) as [Hra Hrr].
  cbn [AccessToken RefreshToken_ withRefreshToken] in Hra, Hrr.
  rewrite JsonFacts.coerce_valid in Hra by exact Ha.
  rewrite JsonFacts.coerce_valid in Hrr by exact Hv.
  split; assumption.
Qed.

(** X4. Whatever [RefreshToken] returns, no file but the token file
    changes. When it returns an error other than that of writing the
    token file, the token file is as before too. When it returns the
    error of writing, the token file is as before, the open having
    been refused, or holds only the bytes of the new document that
    got written: the file is truncated before it is written. *)
Theorem refresh_changes_only_token_file do fs r fs' :
  RefreshToken do fs = (r, fs') ->
  (forall path, path <> tokensLocation -> ReadFile fs' path = ReadFile fs path)
  /\ (r <> None -> r <> Some ErrWritingTokens -> fs' = fs)
  /\ (r = Some ErrWritingTokens ->
      exists old status body t,
        GetRefreshToken fs = Ok old
        /\ do (refreshRequest old) = Response status body
        /\ unmarshalTokenSpec body = Some t
        /\ (fs' = fs
            \/ exists n,
                truncated fs !! tokensLocation = Some n
                /\ ReadFile fs' tokensLocation
                   = Some (written n (marshalTokenSpec (withRefreshToken t old))))).
Proof.
  unfold Token.RefreshToken.
  assert (Hsame : forall e : error, e <> ErrWritingTokens ->
            (forall path, path <> tokensLocation ->
               ReadFile fs path = ReadFile fs path)
            /\ (Some e <> None -> Some e <> Some ErrWritingTokens -> fs = fs)
            /\ (Some e = Some ErrWritingTokens ->
                exists old status body t,
                  GetRefreshToken fs = Ok old
                  /\ do (refreshRequest old) = Response status body
                  /\ unmarshalTokenSpec body = Some t
                  /\ (fs = fs
                      \/ exists n,
                          truncated fs !! tokensLocation = Some n
                          /\ ReadFile fs tokensLocation
                             = Some (written n
                                       (marshalTokenSpec (withRefreshToken t old)))))).
  { intros e He. split; [reflexivity|]. split; [reflexivity|]. congruence. }
  destruct (GetRefreshToken fs) as [old|e0] eqn:Hold.
  2:{ intros [= <- <-]. apply Hsame. revert Hold. unfold Token.GetRefreshToken.
      destruct (ReadFile fs _); [|now intros [= <-]].
      destruct (unmarshalTokenSpec _); [discriminate | now intros [= <-]]. }
  destruct (do (refreshRequest old)) as [| |status body] eqn:Hdo;
    try (intros [= <- <-]; apply Hsame; discriminate).
  destruct ((400 <? status) && (status <? 500)).
  { destruct (unmarshalAuthError body) as [e|];
      [|intros [= <- <-]; apply Hsame; discriminate].
    destruct (_ || _); [intros [= <- <-]; apply Hsame; discriminate|].
    destruct (String.eqb _ _); intros [= <- <-];
      [apply Hsame; discriminate|].
    split; [reflexivity|]. split; [congruence | discriminate]. }
  destruct ((200 <=? status) && (status <=? 300));
    [|intros [= <- <-]; apply Hsame; discriminate].
  destruct (unmarshalTokenSpec body) as [t|] eqn:Ht;
    [|intros [= <- <-]; apply Hsame; discriminate].
  clear Hsame. cbv zeta. unfold Token.SaveToken, WriteFile.
  destruct (decide _) as [Hin|Hout].
  - destruct (truncated fs !! tokensLocation) as [n|] eqn:Hn; intros [= <- <-].
    + split; [|split; [congruence|]].
      * intros path Hp. unfold ReadFile. cbn [files withFiles].
        apply lookup_insert_ne. congruence.
      * intros _. exists old, status, body, t.
        repeat (split; [first [reflexivity | assumption]|]). right. exists n.
        split; [reflexivity|]. unfold ReadFile. cbn [files withFiles].
        apply lookup_insert_eq.
    + split; [reflexivity|]. split; [congruence|].
      intros _. exists old, status, body, t.
      repeat (split; [first [reflexivity | assumption]|]). now left.
  - intros [= <- <-]. split; [|split; congruence].
    intros path Hp. unfold ReadFile. cbn [files withFiles].
    apply lookup_insert_ne. congruence.
Qed.

(** X5. After a save that succeeded, and where [os.Stat] of the token
    file does not fail, a token is saved. [DeleteTokens] ends the
    process where the operating system refuses the removal;
    otherwise it removes the file: then no token is saved, the two
    reads and [RefreshToken] return the error of a token file that
    cannot be read, and a second [DeleteTokens] ends the process. *)
Theorem delete_after_save do fs t fs1 :
  SaveToken fs t = (None, fs1) ->
  tokensLocation ∉ noStat fs ->
  IsTokenSaved fs1 = Some true
  /\ (tokensLocation ∈ noRemove fs -> DeleteTokens fs1 = None)
  /\ (tokensLocation ∉ noRemove fs ->
      exists fs2,
        DeleteTokens fs1 = Some fs2
        /\ IsTokenSaved fs2 = Some false
        /\ GetAccessToken fs2 = Err ErrReadingTokens
        /\ GetRefreshToken fs2 = Err ErrReadingTokens
        /\ RefreshToken do fs2 = (Some ErrReadingTokens, fs2)
        /\ DeleteTokens fs2 = None).
Proof.
  unfold Token.SaveToken, WriteFile.
  destruct (decide _) as [Hin|Hout];
    [destruct (truncated fs !! _); discriminate|].
  intros [= <-] Hstat.
  unfold Token.RefreshToken, Token.GetAccessToken, Token.GetRefreshToken,
    Token.IsTokenSaved, Token.DeleteTokens, RemoveFile, Stat, ReadFile.
  cbn [files noRemove noStat withFiles]. rewrite lookup_insert_eq.
  destruct (decide (tokensLocation ∈ noStat fs)) as [Hin|_]; [contradiction|].
  split; [reflexivity|].
  destruct (decide (tokensLocation ∈ noRemove fs)) as [Hin|Hrm].
  - split; [reflexivity | contradiction].
  - split; [contradiction|]. intros _.
    eexists. split; [reflexivity|]. cbn [files noRemove noStat withFiles].
    rewrite lookup_delete_eq.
    destruct (decide (tokensLocation ∈ noStat fs)) as [Hin|_]; [contradiction|].
    destruct (decide (tokensLocation ∈ noRemove fs)) as [Hin|_]; [contradiction|].
    repeat split; reflexivity.
Qed.

End StoreFlow.

(** *** The device flow *)

Lemma pollFrom_returns do deviceCode interval rounds : forall i r evs,
  pollFrom do deviceCode interval i rounds = (Some r, evs) ->
  exists k status body,
    (k < rounds)%nat
    /\ evs = pollRounds (S k) (pollingInterval interval) (pollRequest deviceCode)
    /\ do (i + k)%nat (pollRequest deviceCode) = Response status body
    /\ match r with
       | Ok t => 200 <= status <= 300 /\ unmarshalTokenSpec body = Some t
       | Err e =>
         (400 < status < 500
          /\ exists a, unmarshalAuthError body = Some a
               /\ ((e = ErrTokenExpired
                    /\ (Error a = "expired_token" \/ Error a = "invalid_grand"))
                   \/ (e = ErrTokenDenied /\ Error a = "access_denied")))
         \/ (e = ErrUnexpectedResponse body
             /\ (status < 200 \/ 300 < status <= 400 \/ 500 <= status))
       end.
Proof.
  induction rounds as [|rounds IH]; intros i r evs; [discriminate|].
  cbn [pollFrom]. cbv zeta.
  assert (Hnext : (fst (pollFrom do deviceCode interval (S i) rounds),
                   ([PollSleep (pollingInterval interval);
                     PollDo (pollRequest deviceCode)]
                    ++ snd (pollFrom do deviceCode interval (S i) rounds))%list)
                  = (Some r, evs) ->
                  exists k status body,
                    (k < S rounds)%nat
                    /\ evs = pollRounds (S k) (pollingInterval interval)
                               (pollRequest deviceCode)
                    /\ do (i + k)%nat (pollRequest deviceCode) = Response status body
                    /\ match r with
                       | Ok t => 200 <= status <= 300 /\ unmarshalTokenSpec body = Some t
                       | Err e =>
                         (400 < status < 500
                          /\ exists a, unmarshalAuthError body = Some a
                               /\ ((e = ErrTokenExpired
                                    /\ (Error a = "expired_token"
                                        \/ Error a = "invalid_grand"))
                                   \/ (e = ErrTokenDenied
                                       /\ Error a = "access_denied")))
                         \/ (e = ErrUnexpectedResponse body
                             /\ (status < 200 \/ 300 < status <= 400
                                 \/ 500 <= status))
                       end).
  { destruct (pollFrom do deviceCode interval (S i) rounds) as [o e1] eqn:E.
    cbn [fst snd]. intros [= -> <-].
    destruct (IH _ _ _ E) as (k & status & body & Hk & -> & Hdo & Hr).
    exists (S k), status, body. split; [lia|]. split; [reflexivity|].
    split; [|exact Hr]. now replace (i + S k)%nat with (S i + k)%nat by lia. }
  destruct (do i (pollRequest deviceCode)) as [| |status body] eqn:Hdo;
    try exact Hnext.
  destruct ((400 <? status) && (status <? 500)) eqn:H4.
  - apply andb_true_iff in H4 as [H4a H4b]. apply Z.ltb_lt in H4a, H4b.
    destruct (unmarshalAuthError body) as [a|] eqn:Ha; [|exact Hnext].
    destruct (String.eqb (Error a) "authorization_pending"
              || String.eqb (Error a) "slow_down"); [exact Hnext|].
    destruct (String.eqb (Error a) "expired_token"
              || String.eqb (Error a) "invalid_grand") eqn:E1.
    { intros [= <- <-]. exists 0%nat, status, body.
      split; [lia|]. split; [reflexivity|].
      split; [now rewrite Nat.add_0_r|]. left. split; [lia|].
      exists a. split; [exact Ha|]. left. split; [reflexivity|].
      apply orb_true_iff in E1 as [E1|E1]; apply String.eqb_eq in E1; auto. }
    destruct (String.eqb (Error a) "access_denied") eqn:E2; [|exact Hnext].
    intros [= <- <-]. exists 0%nat, status, body.
    split; [lia|]. split; [reflexivity|].
    split; [now rewrite Nat.add_0_r|]. left. split; [lia|].
    exists a. split; [exact Ha|]. right. split; [reflexivity|].
    now apply String.eqb_eq.
  - destruct ((200 <=? status) && (status <=? 300)) eqn:H2.
    + apply andb_true_iff in H2 as [H2a H2b]. apply Z.leb_le in H2a, H2b.
      destruct (unmarshalTokenSpec body) as [t|] eqn:Ht; [|exact Hnext].
      intros [= <- <-]. exists 0%nat, status, body.
      split; [lia|]. split; [reflexivity|].
      split; [now rewrite Nat.add_0_r|]. split; [lia | exact Ht].
    + intros [= <- <-]. exists 0%nat, status, body.
      split; [lia|]. split; [reflexivity|].
      split; [now rewrite Nat.add_0_r|]. right. split; [reflexivity|].
      apply andb_false_iff in H4, H2.
      rewrite !Z.ltb_ge in H4. rewrite !Z.leb_gt in H2. lia.
Qed.

(** X6. When [PollForToken] returns, the answer to its last request
    decided it, after a sleep before every request: a token is the
    decoded body of an answer with a status from 200 to 300; an error
    is one of the two that ask for a new login, on an answer between
    401 and 499 with error expired_token, invalid_grand or
    access_denied, or the unexpected response with the body of an
    answer of any other status outside 200 to 300. A failed request,
    a body that cannot be read or a body that does not decode never
    shows in what it returns. *)
Theorem poll_returns_on_deciding_answer do deviceCode interval rounds r evs :
  PollForToken do deviceCode interval rounds = (Some r, evs) ->
  exists k status body,
    (k < rounds)%nat
    /\ evs = pollRounds (S k) (pollingInterval interval) (pollRequest deviceCode)
    /\ do k (pollRequest deviceCode) = Response status body
    /\ match r with
       | Ok t => 200 <= status <= 300 /\ unmarshalTokenSpec body = Some t
       | Err e =>
         (400 < status < 500
          /\ exists a, unmarshalAuthError body = Some a
               /\ ((e = ErrTokenExpired
                    /\ (Error a = "expired_token" \/ Error a = "invalid_grand"))
                   \/ (e = ErrTokenDenied /\ Error a = "access_denied")))
         \/ (e = ErrUnexpectedResponse body
             /\ (status < 200 \/ 300 < status <= 400 \/ 500 <= status))
       end.
Proof. apply (pollFrom_returns do deviceCode interval rounds 0). Qed.

Lemma pollFrom_goes_on do deviceCode interval rounds : forall i,
  (forall k, (k < rounds)%nat ->
     match do (i + k)%nat (pollRequest deviceCode) with
     | DoFailed | ReadAllFailed _ => True
     | Response status body =>
       (400 < status < 500
        /\ forall a, unmarshalAuthError body = Some a ->
             Error a <> "expired_token" /\ Error a <> "invalid_grand"
             /\ Error a <> "access_denied")
       \/ (200 <= status <= 300 /\ unmarshalTokenSpec body = None)
     end) ->
  pollFrom do deviceCode interval i rounds
  = (None, pollRounds rounds (pollingInterval interval) (pollRequest deviceCode)).
Proof.
  induction rounds as [|rounds IH]; intros i H; [reflexivity|].
  cbn [pollFrom pollRounds]. cbv zeta.
  rewrite (IH (S i))
    by (intros k Hk; specialize (H (S k) ltac:(lia));
        now replace (S i + k)%nat with (i + S k)%nat by lia).
  cbn [fst snd app].
  specialize (H 0%nat ltac:(lia)). rewrite Nat.add_0_r in H.
  destruct (do i (pollRequest deviceCode)) as [| |status body];
    try reflexivity.
  destruct H as [[H4 Ha] | [H2 Ht]].
  - replace ((400 <? status) && (status <? 500)) with true
      by (symmetry; apply andb_true_iff; split; apply Z.ltb_lt; lia).
    destruct (unmarshalAuthError body) as [a|]; [|reflexivity].
    destruct (Ha a eq_refl) as (E1 & E2 & E3).
    apply String.eqb_neq in E1, E2, E3. rewrite E1, E2, E3.
    cbn [orb]. now destruct (_ || _).
  - replace ((400 <? status) && (status <? 500)) with false
      by (symmetry; apply andb_false_iff; left; apply Z.ltb_ge; lia).
    replace ((200 <=? status) && (status <=? 300)) with true
      by (symmetry; apply andb_true_iff; split; apply Z.leb_le; lia).
    now rewrite Ht.
Qed.

(** X7. [PollForToken] goes on polling, a sleep and then a request in
    every round, as long as each answer is a failed request, a body that
    cannot be read, an answer between 401 and 499 whose body does not
    decode or whose error is none of expired_token, invalid_grand and
    access_denied, or an answer from 200 to 300 whose body does not
    decode to a token. *)
Theorem poll_goes_on do deviceCode interval rounds :
  (forall k, (k < rounds)%nat ->
     match do k (pollRequest deviceCode) with
     | DoFailed | ReadAllFailed _ => True
     | Response status body =>
       (400 < status < 500
        /\ forall a, unmarshalAuthError body = Some a ->
             Error a <> "expired_token" /\ Error a <> "invalid_grand"
             /\ Error a <> "access_denied")
       \/ (200 <= status <= 300 /\ unmarshalTokenSpec body = None)
     end) ->
  PollForToken do deviceCode interval rounds
  = (None, pollRounds rounds (pollingInterval interval) (pollRequest deviceCode)).
Proof. intros H. now apply (pollFrom_goes_on do deviceCode interval rounds 0). Qed.

Lemma decodeStruct_unknown {T : Type} names
    (set : T -> string -> Json.value -> option T) (zero : T) ms :
  Forall (fun kv => Json.fieldOf names (fst kv) = None) ms ->
  Json.decodeStruct names set zero (Json.Object ms) = Some zero.
Proof.
  cbn [Json.decodeStruct]. generalize zero.
  induction ms as [|kv ms IH]; intros z H; [reflexivity|].
  cbn [fold_left]. inversion H as [|? ? Hkv Hms]; subst.
  rewrite Hkv. now apply IH.
Qed.

(** X8. [RegisterDevice] does not look at the status of the answer:
    a body that is a JSON object with none of the six members of a
    device code, such as an error document, is returned as a device
    code with every field empty and no error, and the line it prints
    names no address and no code. *)
Theorem register_device_accepts_any_object do status body ms :
  do deviceCodeRequest = Response status body ->
  Json.parse body = Some (Json.Object ms) ->
  Forall (fun kv => Json.fieldOf deviceCodeSpecFields (fst kv) = None) ms ->
  RegisterDevice do
  = (inl zeroDeviceCodeSpec,
     "Please open  and use  code to log in" ++ String (Utf8.byte 10) EmptyString).
Proof.
  intros Hdo Hparse Hms. unfold RegisterDevice, unmarshalDeviceCodeSpec.
  rewrite Hdo, Hparse, (decodeStruct_unknown _ _ _ _ Hms). reflexivity.
Qed.

(** *** Runs on the sample files *)

Lemma read_tokens_are_utf8_witness :
  Token.GetAccessToken Samples.storageFile Samples.savedFiles = Ok "access-1"
  /\ Utf8.ValidString "access-1" = true.
Proof.
  assert (H : Token.GetAccessToken Samples.storageFile Samples.savedFiles
              = Ok "access-1") by (vm_compute; reflexivity).
  split; [exact H|].
  exact (read_tokens_are_utf8 Samples.storageFile _ _ (or_introl H)).
Defined.

Lemma savedFiles_writable :
  Samples.storageFile "tokens.json" ∉ readOnly Samples.savedFiles.
Proof.
  replace (readOnly Samples.savedFiles) with (∅ : gset string)
    by (vm_compute; reflexivity).
  apply not_elem_of_empty.
Qed.

Lemma refresh_installs_access_token_witness :
  exists fs',
    Token.RefreshToken Samples.storageFile Samples.rotatingIssuer Samples.savedFiles
    = (None, fs')
    /\ Token.GetAccessToken Samples.storageFile fs' = Ok "access-2"
    /\ Token.GetRefreshToken Samples.storageFile fs' = Ok "refresh-1".
Proof.
  apply (refresh_installs_access_token Samples.storageFile
           Samples.rotatingIssuer Samples.savedFiles "refresh-1" 200
           (marshalTokenSpec Samples.token2) Samples.token2).
  - vm_compute; reflexivity.
  - reflexivity.
  - lia.
  - vm_compute; reflexivity.
  - exact savedFiles_writable.
Defined.

(** The disk is full: the token endpoint grants a token, the write of
    the token file breaks off after ten bytes, and the ten bytes are
    all that is left of the stored tokens. *)
Lemma refresh_changes_only_token_file_witness :
  let r := Token.RefreshToken Samples.storageFile Samples.rotatingIssuer
             Samples.fullDisk in
  fst r = Some ErrWritingTokens
  /\ (forall path, path <> Samples.storageFile "tokens.json" ->
        ReadFile (snd r) path = ReadFile Samples.fullDisk path)
  /\ exists old status body t,
      Token.GetRefreshToken Samples.storageFile Samples.fullDisk = Ok old
      /\ Samples.rotatingIssuer (Token.refreshRequest old) = Response status body
      /\ unmarshalTokenSpec body = Some t
      /\ (snd r = Samples.fullDisk
          \/ exists n,
              truncated Samples.fullDisk !! Samples.storageFile "tokens.json"
              = Some n
              /\ ReadFile (snd r) (Samples.storageFile "tokens.json")
                 = Some (written n (marshalTokenSpec (withRefreshToken t old)))).
Proof.
  cbv zeta.
  assert (He : fst (Token.RefreshToken Samples.storageFile
                      Samples.rotatingIssuer Samples.fullDisk)
               = Some ErrWritingTokens) by (vm_compute; reflexivity).
  destruct (refresh_changes_only_token_file Samples.storageFile
              Samples.rotatingIssuer Samples.fullDisk _ _
              (surjective_pairing _)) as (Hframe & _ & Hcut).
  split; [exact He|]. split; [exact Hframe | exact (Hcut He)].
Defined.

Lemma delete_after_save_witness :
  Token.SaveToken Samples.storageFile Samples.noFiles Samples.token1
  = (None, Samples.savedFiles)
  /\ Token.IsTokenSaved Samples.storageFile Samples.savedFiles = Some true
  /\ exists fs2,
      Token.DeleteTokens Samples.storageFile Samples.savedFiles = Some fs2
      /\ Token.IsTokenSaved Samples.storageFile fs2 = Some false
      /\ Token.DeleteTokens Samples.storageFile fs2 = None.
Proof.
  assert (Hs : Token.SaveToken Samples.storageFile Samples.noFiles Samples.token1
               = (None, Samples.savedFiles)) by reflexivity.
  split; [exact Hs|].
  destruct (delete_after_save Samples.storageFile Samples.rotatingIssuer
              _ _ _ Hs (not_elem_of_empty _)) as (Hsaved & _ & Hdel).
  destruct (Hdel (not_elem_of_empty _)) as (fs2 & Hd & Hn & _ & _ & _ & Hd2).
  split; [exact Hsaved|]. exists fs2.
  split; [exact Hd|]. split; [exact Hn | exact Hd2].
Defined.

(** Two polls answered with authorization_pending, the third with a
    token: three rounds, and the token of the third answer. *)
Lemma poll_returns_on_deciding_answer_witness :
  PollForToken Samples.grantingThird "device-1" 5 10
  = (Some (Ok Samples.token2),
     pollRounds 3 5000000000 (pollRequest "device-1"))
  /\ exists k status body,
      (k < 10)%nat
      /\ Samples.grantingThird k (pollRequest "device-1") = Response status body
      /\ 200 <= status <= 300
      /\ unmarshalTokenSpec body = Some Samples.token2.
Proof.
  assert (H : PollForToken Samples.grantingThird "device-1" 5 10
              = (Some (Ok Samples.token2),
                 pollRounds 3 5000000000 (pollRequest "device-1")))
    by (vm_compute; reflexivity).
  split; [exact H|].
  destruct (poll_returns_on_deciding_answer _ _ _ _ _ _ H)
    as (k & status & body & Hk & _ & Hdo & Hst & Hbody).
  exists k, status, body. split; [exact Hk|]. split; [exact Hdo|].
  split; [exact Hst | exact Hbody].
Defined.

(** An endpoint that answers 403 with invalid_grant every time: the
    polling goes on. *)
Lemma poll_goes_on_witness :
  PollForToken (fun _ => Samples.rejectingIssuer) "device-1" 5 4
  = (None, pollRounds 4 5000000000 (pollRequest "device-1")).
Proof.
  apply (poll_goes_on (fun _ => Samples.rejectingIssuer) "device-1" 5 4).
  intros k _. cbn [Samples.rejectingIssuer]. left. split; [lia|].
  intros a Ha. vm_compute in Ha. injection Ha as <-.
  repeat split; discriminate.
Defined.

(** The device code endpoint answers 403 with an error document. *)
Lemma register_device_accepts_any_object_witness :
  RegisterDevice Samples.rejectingIssuer
  = (inl zeroDeviceCodeSpec,
     "Please open  and use  code to log in" ++ String (Utf8.byte 10) EmptyString).
Proof.
  apply (register_device_accepts_any_object Samples.rejectingIssuer 403
           Samples.rejection
           [("error", Json.Str "invalid_grant");
            ("error_description", Json.Str "Unknown or invalid refresh token.")]).
  - reflexivity.
  - vm_compute; reflexivity.
  - repeat constructor.
Defined.

End TokenFlowFacts.

(** ** The supervisor *)

Module LoopholeFacts.

Import Loophole Trace.
Local Open Scope go_scope.

#[local] Arguments String.append !s1 s2 : simpl nomatch.

(** *** Runs of composed computations *)

Lemma run_bind {A B} (m : M A) (k : A -> M B) (s : State) :
  bind m k s
  = match m s with
    | (Done a, s1, e1) =>
      (outcomeOf (k a s1), stateOf (k a s1), (e1 ++ eventsOf (k a s1))%list)
    | (Exit c, s1, e1) => (Exit c, s1, e1)
    end.
Proof.
  unfold bind. destruct (m s) as [[[a|c] s1] e1]; [|reflexivity].
  now destruct (k a s1) as [[r s2] e2].
Qed.

Lemma events_bind {A B} (m : M A) (k : A -> M B) (s : State) :
  eventsOf (bind m k s)
  = (eventsOf (m s)
     ++ match outcomeOf (m s) with
        | Done a => eventsOf (k a (stateOf (m s)))
        | Exit _ => []
        end)%list.
Proof.
  rewrite run_bind. destruct (m s) as [[[a|c] s1] e1]; cbn;
    [reflexivity | now rewrite app_nil_r].
Qed.

Lemma outcome_bind {A B} (m : M A) (k : A -> M B) (s : State) :
  outcomeOf (bind m k s)
  = match outcomeOf (m s) with
    | Done a => outcomeOf (k a (stateOf (m s)))
    | Exit c => Exit c
    end.
Proof. rewrite run_bind. now destruct (m s) as [[[a|c] s1] e1]. Qed.

Lemma state_bind {A B} (m : M A) (k : A -> M B) (s : State) :
  stateOf (bind m k s)
  = match outcomeOf (m s) with
    | Done a => stateOf (k a (stateOf (m s)))
    | Exit c => stateOf (m s)
    end.
Proof. rewrite run_bind. now destruct (m s) as [[[a|c] s1] e1]. Qed.

(** *** Every event of a computation is of a given kind *)

Lemma emits_ret {A} P (a : A) : emits P (ret a).
Proof. intros s. constructor. Qed.

Lemma emits_get P : emits P get.
Proof. intros s. constructor. Qed.

Lemma emits_emit P e : P e = true -> emits P (emit e).
Proof. intros H s. now repeat constructor. Qed.

Lemma emits_fatal {A} P msg :
  P (Log FatalLevel msg) = true -> emits P (@fatal A msg).
Proof. intros H s. now repeat constructor. Qed.

Lemma emits_bind {A B} P (m : M A) (k : A -> M B) :
  emits P m -> (forall a, emits P (k a)) -> emits P (bind m k).
Proof.
  intros Hm Hk s. rewrite events_bind. apply Forall_app. split; [apply Hm|].
  destruct (outcomeOf (m s)); [apply Hk | constructor].
Qed.

Lemma emits_when P b (m : M unit) : emits P m -> emits P (when b m).
Proof. intros H. destruct b; [exact H | apply emits_ret]. Qed.

Lemma emits_state {A} P (f : State -> A * State) :
  emits P (fun s => (Done (fst (f s)), snd (f s), [])).
Proof. intros s. constructor. Qed.

Lemma emits_call {A} P (f : State -> A) (g : State -> State) e :
  P e = true -> emits P (fun s => (Done (f s), g s, [e])).
Proof. intros H s. now repeat constructor. Qed.

(** Decides [emits P m] for the blocks of [generateListener]: walks
    the binds and the branches, and checks [P] on each event. *)
Ltac emits_step :=
  match goal with
  | |- emits _ (bind _ _) => apply emits_bind; [|intros ?]
  | |- emits _ (ret _) => apply emits_ret
  | |- emits _ get => apply emits_get
  | |- emits _ (emit _) => apply emits_emit; reflexivity
  | |- emits _ (fatal _) => apply emits_fatal; reflexivity
  | |- emits _ (when _ _) => apply emits_when
  | |- emits _ (ifDebug _ _) => unfold ifDebug
  | |- emits _ (debug _) => unfold debug
  | |- emits _ (info _) => unfold info
  | |- emits _ (error _) => unfold error
  | |- emits _ println => unfold println
  | |- emits _ (startLoading _ _) => unfold startLoading
  | |- emits _ (loadingSuccess _) => unfold loadingSuccess
  | |- emits _ (loadingFailure _) => unfold loadingFailure
  | |- emits _ (setPublicKey _) => intros ?; constructor
  | |- emits _ setSuccessfulConnectionOccured => intros ?; constructor
  | |- emits _ (callParsePublicKey _ _) => apply emits_call; reflexivity
  | |- emits _ (callRegisterSite _ _ _) => apply emits_call; reflexivity
  | |- emits _ (callRefreshToken _) => apply emits_call; reflexivity
  | |- emits _ (callSshDial _ _ _) => apply emits_call; reflexivity
  | |- emits _ (callNetListen _ _ _) => apply emits_call; reflexivity
  | |- emits _ (callSshListen _ _ _) => apply emits_call; reflexivity
  | |- emits _ (callAccept _ _) => apply emits_call; reflexivity
  | |- emits _ (if ?b then _ else _) => destruct b
  | |- emits _ (match ?x with _ => _ end) => destruct x
  | |- emits _ (let _ := _ in _) => cbv zeta
  end.

Ltac emits_tac := repeat emits_step.

Section Blocks.

Variable w : World.

(** The kinds of event each block can cause. *)

Lemma loadIdentity_emits config : emits ofIdentity (loadIdentity w config).
Proof. unfold loadIdentity. emits_tac. Qed.

Lemma register_emits config key sp : emits ofRegister (register w config key sp).
Proof. unfold register. emits_tac. Qed.

Lemma dialAttempts_emits n : forall i addr site,
  emits ofDial (dialAttempts w n i addr site).
Proof. induction n as [|n IH]; intros; cbn [dialAttempts]; emits_tac; apply IH. Qed.

Lemma dialGateway_emits config sp : emits ofDial (dialGateway w config sp).
Proof. unfold dialGateway. emits_tac; apply dialAttempts_emits. Qed.

Lemma serveLocally_emits config sp : emits ofLocal (serveLocally w config sp).
Proof. unfold serveLocally. emits_tac. Qed.

Lemma listenRemotely_emits conn : emits ofRemote (listenRemotely w conn).
Proof. unfold listenRemotely. emits_tac. Qed.

Lemma announce_emits config sp : emits ofAnnounce (announce config sp).
Proof. unfold announce. emits_tac. Qed.

Lemma emits_weaken {A} (P Q : event -> bool) (m : M A) :
  (forall e, P e = true -> Q e = true) -> emits P m -> emits Q m.
Proof. intros H Hm s. eapply List.Forall_impl; [|apply Hm]. exact H. Qed.

Ltac kinds :=
  let e := fresh "e" in
  intros e; destruct e; cbn; intros; try reflexivity; try discriminate.

Lemma generateListener_emits config sp :
  emits ofBuild (generateListener w config sp).
Proof.
  unfold generateListener.
  apply emits_bind;
    [eapply emits_weaken; [|apply loadIdentity_emits]; kinds|intros key].
  apply emits_bind; [emits_tac|intros _].
  apply emits_bind;
    [eapply emits_weaken; [|apply register_emits]; kinds|intros sp'].
  apply emits_bind; [emits_tac|intros _].
  apply emits_bind;
    [eapply emits_weaken; [|apply dialGateway_emits]; kinds|intros conn].
  apply emits_bind;
    [eapply emits_weaken; [|apply serveLocally_emits]; kinds|intros lst].
  apply emits_bind;
    [eapply emits_weaken; [|apply listenRemotely_emits]; kinds|intros l].
  cbv zeta.
  apply emits_bind;
    [eapply emits_weaken; [|apply announce_emits]; kinds|intros _].
  apply emits_ret.
Qed.

(** *** The loopback endpoint the relays dial *)

Lemma reconnect_emits config l sp :
  emits (fun e => ofBuild e || match e with CloseListener _ => true | _ => false end)
        (reconnect w config l sp).
Proof.
  unfold reconnect. emits_tac.
  eapply emits_weaken; [|apply generateListener_emits].
  intros e H. now rewrite H.
Qed.

Lemma acceptLoop_relays n config p : forall l sp,
  emits (relaysDial (Endpoint.String_ p)) (acceptLoop w n config l p sp).
Proof.
  induction n as [|n IH]; intros l sp; cbn [acceptLoop]; emits_tac;
    try apply IH.
  - eapply emits_weaken; [|apply reconnect_emits]. kinds.
  - apply emits_emit. cbn. apply String.eqb_refl.
Qed.

Lemma Start_events n config s l p sp s1 e1 :
  generateListener w config SiteSpecification.zero s = (Done (l, p, sp), s1, e1) ->
  eventsOf (Start w n config s)
  = ([GoSignalHandler; Print "Loophole";
      Print " - End to end TLS encrypted TCP communication between you and your clients";
      Print newline; Print newline]
     ++ e1 ++ eventsOf (acceptLoop w n config l p sp s1))%list.
Proof.
  intros Hb. unfold Start, printWelcomeMessage, println. cbv [bind emit].
  rewrite Hb. cbn [fst snd].
  now destruct (acceptLoop w n config l p sp s1) as [[r s2] e2].
Qed.

(** C10. Within one run of [Start], whatever the number of
    reconnects, every relay dials the loopback endpoint that the
    first session build returned. *)
Theorem relays_dial_first_endpoint n config s l p sp s1 e1 c target :
  generateListener w config SiteSpecification.zero s = (Done (l, p, sp), s1, e1) ->
  In (GoRelay c target) (eventsOf (Start w n config s)) ->
  target = Endpoint.String_ p.
Proof.
  intros Hb Hin. rewrite (Start_events _ _ _ _ _ _ _ _ Hb) in Hin.
  assert (H : relaysDial (Endpoint.String_ p) (GoRelay c target) = true).
  { apply in_app_or in Hin as [Hin|Hin].
    { cbn in Hin. repeat (destruct Hin as [Hin|Hin]; [discriminate Hin|]).
      destruct Hin. }
    apply in_app_or in Hin as [Hin|Hin].
    - pose proof (generateListener_emits config SiteSpecification.zero s) as Hg.
      rewrite Hb in Hg. cbn [eventsOf snd] in Hg.
      rewrite List.Forall_forall in Hg. specialize (Hg _ Hin). discriminate Hg.
    - pose proof (acceptLoop_relays n config p l sp s1) as Ha.
      rewrite List.Forall_forall in Ha. exact (Ha _ Hin). }
  cbn in H. now apply String.eqb_eq in H.
Qed.

(** *** Projections of a run *)

Lemma filter_bind {A B} P (m : M A) (k : A -> M B) s :
  List.filter P (eventsOf (bind m k s))
  = (List.filter P (eventsOf (m s))
     ++ match outcomeOf (m s) with
        | Done a => List.filter P (eventsOf (k a (stateOf (m s))))
        | Exit _ => []
        end)%list.
Proof.
  rewrite events_bind, List.filter_app. now destruct (outcomeOf (m s)).
Qed.

Lemma silent {A} (P K : event -> bool) (m : M A) s :
  emits K m -> (forall e, K e = true -> P e = false) ->
  List.filter P (eventsOf (m s)) = [].
Proof.
  intros Hm HK. specialize (Hm s).
  induction (eventsOf (m s)) as [|e l IH]; [reflexivity|].
  inversion Hm as [|? ? He Hl]; subst. cbn [List.filter].
  now rewrite (HK _ He), IH.
Qed.

(** *** A state component no event of a computation touches *)

Lemma keeps_ret {A X} (f : State -> X) (a : A) : keeps f (ret a).
Proof. now intros s. Qed.

Lemma keeps_fixed {A X} (f : State -> X) (g : State -> outcome A) e :
  keeps f (fun s => (g s, s, e s)).
Proof. now intros s. Qed.

Lemma keeps_bind {A B X} (f : State -> X) (m : M A) (k : A -> M B) :
  keeps f m -> (forall a, keeps f (k a)) -> keeps f (bind m k).
Proof.
  intros Hm Hk s. rewrite state_bind.
  destruct (outcomeOf (m s)); [now rewrite Hk, Hm | apply Hm].
Qed.

Lemma keeps_when {X} (f : State -> X) b (m : M unit) :
  keeps f m -> keeps f (when b m).
Proof. intros H. destruct b; [exact H | apply keeps_ret]. Qed.

Ltac keeps_step :=
  match goal with
  | |- keeps _ (bind _ _) => apply keeps_bind; [|intros ?]
  | |- keeps _ (ret _) => apply keeps_ret
  | |- keeps _ (when _ _) => apply keeps_when
  | |- keeps _ (ifDebug _ _) => unfold ifDebug
  | |- keeps _ (startLoading _ _) => unfold startLoading
  | |- keeps _ (loadingSuccess _) => unfold loadingSuccess
  | |- keeps _ (loadingFailure _) => unfold loadingFailure
  | |- keeps _ (if ?b then _ else _) => destruct b
  | |- keeps _ (match ?x with _ => _ end) => destruct x
  | |- keeps _ _ => intros ?; reflexivity
  end.

Ltac keeps_tac := repeat keeps_step.

Lemma loadIdentity_keeps_nDial config : keeps nDial (loadIdentity w config).
Proof. unfold loadIdentity. keeps_tac. Qed.

Lemma register_keeps_nDial config key sp : keeps nDial (register w config key sp).
Proof. unfold register. keeps_tac. Qed.

(** *** The dial loop *)

Lemma dialAttempts_failure n : forall i addr site s,
  sshDial w (nDial s) = false ->
  let r := dialAttempts w n (i + 1) addr site (stateOf (callSshDial w addr site s)) in
  outcomeOf (dialAttempts w (S n) i addr site s) = outcomeOf r
  /\ stateOf (dialAttempts w (S n) i addr site s) = stateOf r
  /\ List.filter isDialing (eventsOf (dialAttempts w (S n) i addr site s))
     = SshDial addr site :: Sleep 10 :: List.filter isDialing (eventsOf r).
Proof.
  intros i addr site s Hf. cbn [dialAttempts].
  unfold startLoading, loadingFailure, info, when.
  destruct (debugEnabled w);
    cbv [negb bind emit ret callSshDial stateOf outcomeOf eventsOf fst snd];
    rewrite Hf;
    destruct (dialAttempts w n (i + 1) addr site _) as [[o s'] e'];
    cbn; repeat split; reflexivity.
Qed.

Lemma dialAttempts_success n i addr site s :
  sshDial w (nDial s) = true ->
  outcomeOf (dialAttempts w (S n) i addr site s) = Done (Some (nDial s))
  /\ List.filter isDialing (eventsOf (dialAttempts w (S n) i addr site s))
     = [SshDial addr site].
Proof.
  intros Hs. cbn [dialAttempts]. unfold startLoading.
  destruct (debugEnabled w);
    cbv [negb bind emit callSshDial ret stateOf outcomeOf eventsOf fst snd];
    rewrite Hs; cbn; split; reflexivity.
Qed.

Lemma nDial_callSshDial addr site s :
  nDial (stateOf (callSshDial w addr site s)) = S (nDial s).
Proof. reflexivity. Qed.

(** [k] failures and then a success: [k + 1] attempts, a sleep after
    each failure, and the connection of the last attempt. *)
Lemma dialAttempts_first_success n : forall k i addr site s,
  (k < n)%nat ->
  (forall j, (j < k)%nat -> sshDial w (nDial s + j) = false) ->
  sshDial w (nDial s + k) = true ->
  outcomeOf (dialAttempts w n i addr site s) = Done (Some (nDial s + k)%nat)
  /\ List.filter isDialing (eventsOf (dialAttempts w n i addr site s))
     = (failedDials k addr site ++ [SshDial addr site])%list.
Proof.
  induction n as [|n IH]; intros k i addr site s Hk Hf Hs; [lia|].
  destruct k as [|k].
  - rewrite Nat.add_0_r in *. now apply dialAttempts_success.
  - assert (H0 : sshDial w (nDial s) = false).
    { specialize (Hf 0%nat). rewrite Nat.add_0_r in Hf. apply Hf. lia. }
    destruct (dialAttempts_failure n i addr site s H0) as (Ho & _ & He).
    cbv zeta in *. rewrite Ho, He.
    destruct (IH k (i + 1) addr site (stateOf (callSshDial w addr site s)))
      as [Ho' He'].
    + lia.
    + intros j Hj. rewrite nDial_callSshDial.
      replace (S (nDial s) + j)%nat with (nDial s + S j)%nat by lia.
      apply Hf. lia.
    + rewrite nDial_callSshDial.
      now replace (S (nDial s) + k)%nat with (nDial s + S k)%nat by lia.
    + rewrite Ho', He', nDial_callSshDial. split; [|reflexivity].
      do 2 f_equal. lia.
Qed.

(** Failure at every attempt: [n] attempts, a sleep after each, and
    no connection. *)
Lemma dialAttempts_all_fail n : forall i addr site s,
  (forall j, (j < n)%nat -> sshDial w (nDial s + j) = false) ->
  outcomeOf (dialAttempts w n i addr site s) = Done None
  /\ List.filter isDialing (eventsOf (dialAttempts w n i addr site s))
     = failedDials n addr site.
Proof.
  induction n as [|n IH]; intros i addr site s Hf; [split; reflexivity|].
  assert (H0 : sshDial w (nDial s) = false).
  { specialize (Hf 0%nat). rewrite Nat.add_0_r in Hf. apply Hf. lia. }
  destruct (dialAttempts_failure n i addr site s H0) as (Ho & _ & He).
  cbv zeta in *. rewrite Ho, He.
  destruct (IH (i + 1) addr site (stateOf (callSshDial w addr site s)))
    as [Ho' He'].
  - intros j Hj. rewrite nDial_callSshDial.
    replace (S (nDial s) + j)%nat with (nDial s + S j)%nat by lia.
    apply Hf. lia.
  - rewrite Ho', He'. split; reflexivity.
Qed.

(** Never more than [n] attempts. *)
Lemma dialAttempts_at_most n : forall i addr site s,
  (length (List.filter isDial (eventsOf (dialAttempts w n i addr site s))) <= n)%nat.
Proof.
  induction n as [|n IH]; intros i addr site s; [cbn; lia|].
  cbn [dialAttempts].
  rewrite filter_bind, (silent isDial isUI) by (try (unfold startLoading; emits_tac); kinds).
  cbn [app].
  replace (outcomeOf (startLoading w "Initializing secure tunnel... " s))
    with (@Done unit tt) by (unfold startLoading; now destruct (debugEnabled w)).
  replace (stateOf (startLoading w "Initializing secure tunnel... " s))
    with s by (unfold startLoading; now destruct (debugEnabled w)).
  rewrite filter_bind. cbn [callSshDial eventsOf outcomeOf stateOf fst snd List.filter isDial app].
  destruct (sshDial w (nDial s)); [cbn; lia|].
  rewrite filter_bind, (silent isDial isUI) by (try (unfold loadingFailure; emits_tac); kinds).
  cbn [app length].
  match goal with
  | |- context [outcomeOf (loadingFailure w ?st)] =>
    replace (outcomeOf (loadingFailure w st)) with (@Done unit tt)
      by (unfold loadingFailure; now destruct (debugEnabled w));
    replace (stateOf (loadingFailure w st)) with st
      by (unfold loadingFailure; now destruct (debugEnabled w))
  end.
  rewrite !filter_bind. cbn [info emit eventsOf outcomeOf stateOf fst snd List.filter isDial app].
  apply le_n_S, IH.
Qed.

(** *** [generateListener], in three parts *)

Lemma bind_assoc {A B C} (m : M A) (k : A -> M B) (h : B -> M C) s :
  bind (bind m k) h s = bind m (fun a => bind (k a) h) s.
Proof.
  unfold bind. destruct (m s) as [[[a|c] s1] e1]; [|reflexivity].
  destruct (k a s1) as [[[b|c] s2] e2]; [|reflexivity].
  destruct (h b s2) as [[r s3] e3]. now rewrite app_assoc.
Qed.

Lemma bind_ext {A B} (m : M A) (k k' : A -> M B) s :
  (forall a s', k a s' = k' a s') -> bind m k s = bind m k' s.
Proof.
  intros H. unfold bind. destruct (m s) as [[[a|c] s1] e1]; [|reflexivity].
  now rewrite H.
Qed.

Lemma bind_ret {A B} (a : A) (k : A -> M B) s : bind (ret a) k s = k a s.
Proof. unfold bind, ret. now destruct (k a s) as [[r s2] e2]. Qed.

Lemma generateListener_parts config sp0 s :
  generateListener w config sp0 s
  = bind (prepare w config sp0)
      (fun sp => bind (dialGateway w config sp) (establish w config sp)) s.
Proof.
  unfold generateListener, prepare, establish.
  rewrite bind_assoc. apply bind_ext. intros key s1.
  rewrite bind_assoc. apply bind_ext. intros [] s2.
  rewrite bind_assoc. apply bind_ext. intros sp s3.
  rewrite bind_assoc. apply bind_ext. intros [] s4.
  now rewrite bind_ret.
Qed.

Lemma prepare_emits config sp0 : emits ofPrepare (prepare w config sp0).
Proof.
  unfold prepare.
  apply emits_bind;
    [eapply emits_weaken; [|apply loadIdentity_emits]; kinds|intros key].
  apply emits_bind; [emits_tac|intros _].
  apply emits_bind;
    [eapply emits_weaken; [|apply register_emits]; kinds|intros sp'].
  emits_tac.
Qed.

Lemma establish_emits config sp conn :
  emits ofEstablish (establish w config sp conn).
Proof.
  unfold establish.
  apply emits_bind;
    [eapply emits_weaken; [|apply serveLocally_emits]; kinds|intros lst].
  apply emits_bind;
    [eapply emits_weaken; [|apply listenRemotely_emits]; kinds|intros l].
  apply emits_bind;
    [eapply emits_weaken; [|apply announce_emits]; kinds|intros _].
  apply emits_ret.
Qed.

Lemma prepare_keeps_nDial config sp0 : keeps nDial (prepare w config sp0).
Proof.
  unfold prepare.
  apply keeps_bind; [apply loadIdentity_keeps_nDial|intros key].
  apply keeps_bind; [keeps_tac|intros _].
  apply keeps_bind; [apply register_keeps_nDial|intros sp].
  keeps_tac.
Qed.

Lemma ends_with_app {T} (u l : list T) x y :
  exists pre, (u ++ l ++ [x; y])%list = (pre ++ [y])%list.
Proof. exists (u ++ l ++ [x])%list. now rewrite <- !app_assoc. Qed.

(** The dial block, from the loop it runs. *)
Lemma dialGateway_run config sp s :
  let addr := Endpoint.String_ (Config.GatewayEndpoint config) in
  let site := SiteSpecification.SiteID sp in
  let d := dialAttempts w (Z.to_nat sshRetries) 0 addr site s in
  List.filter isDialing (eventsOf (dialGateway w config sp s))
  = List.filter isDialing (eventsOf d)
  /\ List.filter isDial (eventsOf (dialGateway w config sp s))
     = List.filter isDial (eventsOf d)
  /\ match outcomeOf d with
     | Done (Some c) => outcomeOf (dialGateway w config sp s) = Done c
     | Done None =>
       outcomeOf (dialGateway w config sp s) = Exit 1
       /\ exists pre,
           eventsOf (dialGateway w config sp s)
           = (pre ++ [Log FatalLevel "Dialing SSH Gateway for HTTPS failed."])%list
     | Exit c => outcomeOf (dialGateway w config sp s) = Exit c
     end.
Proof.
  cbv zeta. unfold dialGateway, ifDebug, loadingSuccess, println, debug, when.
  destruct (debugEnabled w); cbv [negb bind emit ret fatal];
    destruct (dialAttempts w _ 0 _ _ s) as [[[[c|]|c] s1] e1];
    cbn [outcomeOf stateOf eventsOf fst snd];
    rewrite ?List.filter_app; cbn [List.filter isDialing isDial app];
    rewrite ?app_nil_r; repeat split; try reflexivity;
    first [apply (ends_with_app [_; _] e1) | apply (ends_with_app [] e1)].
Qed.

Lemma establish_builds config sp conn s :
  In (NewCertManager (certManagerFor w (SiteSpecification.SiteID sp)))
     (eventsOf (establish w config sp conn s)).
Proof.
  unfold establish, serveLocally. rewrite !events_bind.
  apply in_or_app. left. apply in_or_app. right.
  replace (outcomeOf (startLoading w "Obtaining TLS certificate provider... " s))
    with (@Done unit tt) by (unfold startLoading; now destruct (debugEnabled w)).
  apply in_or_app. left. now left.
Qed.

Lemma dialAttempts_dialsAs n : forall i addr site,
  emits (dialsAs addr site) (dialAttempts w n i addr site).
Proof.
  induction n as [|n IH]; intros; cbn [dialAttempts]; emits_tac;
    try apply IH.
  apply emits_call. cbn. now rewrite !String.eqb_refl.
Qed.

Lemma dialGateway_dialsAs config sp :
  emits (dialsAs (Endpoint.String_ (Config.GatewayEndpoint config))
                 (SiteSpecification.SiteID sp))
        (dialGateway w config sp).
Proof. unfold dialGateway. emits_tac. apply dialAttempts_dialsAs. Qed.

(** A dial of a session build is a dial of its dial block. *)
Lemma dial_of_build config sp0 s a site :
  In (SshDial a site) (eventsOf (generateListener w config sp0 s)) ->
  exists sp,
    outcomeOf (prepare w config sp0 s) = Done sp
    /\ a = Endpoint.String_ (Config.GatewayEndpoint config)
    /\ site = SiteSpecification.SiteID sp.
Proof.
  rewrite generateListener_parts, events_bind. intros Hin.
  apply in_app_or in Hin as [Hin|Hin].
  { pose proof (prepare_emits config sp0 s) as H.
    rewrite List.Forall_forall in H. specialize (H _ Hin). discriminate H. }
  destruct (outcomeOf (prepare w config sp0 s)) as [sp|c]; [|destruct Hin].
  exists sp. split; [reflexivity|].
  rewrite events_bind in Hin. apply in_app_or in Hin as [Hin|Hin].
  - pose proof (dialGateway_dialsAs config sp (stateOf (prepare w config sp0 s))) as H.
    rewrite List.Forall_forall in H. specialize (H _ Hin). cbn in H.
    apply andb_true_iff in H as [H1 H2].
    apply String.eqb_eq in H1, H2. now split.
  - destruct (outcomeOf (dialGateway w config sp _)) as [conn|c]; [|destruct Hin].
    pose proof (establish_emits config sp conn
                  (stateOf (dialGateway w config sp
                              (stateOf (prepare w config sp0 s))))) as H.
    rewrite List.Forall_forall in H. specialize (H _ Hin). discriminate H.
Qed.

(** The dial block of a session build whose identity and registration
    gave the site [sp]. *)
Lemma dialing_of_build config sp0 s sp :
  outcomeOf (prepare w config sp0 s) = Done sp ->
  let r := generateListener w config sp0 s in
  let addr := Endpoint.String_ (Config.GatewayEndpoint config) in
  let site := SiteSpecification.SiteID sp in
  (forall k, (k < 5)%nat ->
     (forall j, (j < k)%nat -> sshDial w (nDial s + j) = false) ->
     sshDial w (nDial s + k) = true ->
     List.filter isDialing (eventsOf r)
     = (failedDials k addr site ++ [SshDial addr site])%list
     /\ In (NewCertManager (certManagerFor w site)) (eventsOf r))
  /\ ((forall j, (j < 5)%nat -> sshDial w (nDial s + j) = false) ->
      List.filter isDialing (eventsOf r) = failedDials 5 addr site
      /\ outcomeOf r = Exit 1
      /\ exists pre,
          eventsOf r
          = (pre ++ [Log FatalLevel "Dialing SSH Gateway for HTTPS failed."])%list).
Proof.
  intros Hsp. cbv zeta.
  rewrite generateListener_parts.
  rewrite !filter_bind, outcome_bind, events_bind.
  rewrite (silent isDialing ofPrepare _ _ (prepare_emits config sp0)) by kinds.
  pose proof (prepare_keeps_nDial config sp0 s) as Hn.
  rewrite Hsp.
  set (s2 := stateOf (prepare w config sp0 s)) in *.
  rewrite !filter_bind, outcome_bind, events_bind.
  destruct (dialGateway_run config sp s2) as (Hd & Hd' & Ho).
  cbv zeta in *. rewrite Hd.
  assert (H5 : Z.to_nat sshRetries = 5%nat) by reflexivity.
  rewrite H5 in *.
  assert (Hquiet :
             match outcomeOf (dialGateway w config sp s2) with
             | Done a =>
               List.filter isDialing
                 (eventsOf (establish w config sp a
                              (stateOf (dialGateway w config sp s2))))
             | Exit _ => []
             end = []).
  { destruct (outcomeOf (dialGateway w config sp s2)) as [conn|c];
      [|reflexivity].
    apply (silent isDialing ofEstablish _ _ (establish_emits config sp conn)).
    kinds. }
  rewrite Hquiet.
  rewrite !app_nil_r. cbn [app].
  split.
  - intros k Hk Hf Hs.
    rewrite <- Hn in Hf, Hs.
    destruct (dialAttempts_first_success 5 k 0
                (Endpoint.String_ (Config.GatewayEndpoint config))
                (SiteSpecification.SiteID sp) s2 Hk Hf Hs) as [Ho' He'].
    rewrite Ho' in Ho. rewrite Ho, He'. split; [reflexivity|].
    apply in_or_app. right. apply in_or_app. right. apply establish_builds.
  - intros Hf.
    rewrite <- Hn in Hf.
    destruct (dialAttempts_all_fail 5 0
                (Endpoint.String_ (Config.GatewayEndpoint config))
                (SiteSpecification.SiteID sp) s2 Hf) as [Ho' He'].
    rewrite Ho' in Ho. destruct Ho as [Ho (pre & Hpre)].
    rewrite Ho, He', Hpre. split; [reflexivity|]. split; [reflexivity|].
    exists (eventsOf (prepare w config sp0 s) ++ pre)%list.
    now rewrite !app_nil_r, app_assoc.
Qed.

(** A session build dials at most five times. *)
Lemma generateListener_dials_at_most config sp0 :
  atMost isDial 5 (generateListener w config sp0).
Proof.
  intros s.
  rewrite generateListener_parts.
  rewrite !filter_bind.
  rewrite (silent isDial ofPrepare _ _ (prepare_emits config sp0)) by kinds.
  destruct (outcomeOf (prepare w config sp0 s)) as [sp|c]; [|cbn; lia].
  set (s2 := stateOf (prepare w config sp0 s)) in *.
  rewrite !filter_bind.
  destruct (dialGateway_run config sp s2) as (_ & Hd & _).
  cbv zeta in *. rewrite Hd.
  assert (Hquiet :
             match outcomeOf (dialGateway w config sp s2) with
             | Done a =>
               List.filter isDial
                 (eventsOf (establish w config sp a
                              (stateOf (dialGateway w config sp s2))))
             | Exit _ => []
             end = []).
  { destruct (outcomeOf (dialGateway w config sp s2)) as [conn|c];
      [|reflexivity].
    apply (silent isDial ofEstablish _ _ (establish_emits config sp conn)).
    kinds. }
  rewrite Hquiet, !app_nil_r. cbn [app].
  apply dialAttempts_at_most.
Qed.

(** C6. One session build dials the gateway at most five times.
    In a build that dials: when the first [k < 5] attempts fail and
    the next succeeds, there are [k + 1] attempts, a sleep of ten
    seconds after each failure, and the build goes on to the
    certificate manager; when five attempts in a row fail, there
    are five attempts, a sleep after each, and the process exits
    with status 1 on the fatal line "Dialing SSH Gateway for HTTPS
    failed.". *)
Theorem gateway_dial_retries config sp0 s :
  let r := generateListener w config sp0 s in
  let addr := Endpoint.String_ (Config.GatewayEndpoint config) in
  (length (List.filter isDial (eventsOf r)) <= 5)%nat
  /\ (forall k a site,
         (k < 5)%nat ->
         (forall j, (j < k)%nat -> sshDial w (nDial s + j) = false) ->
         sshDial w (nDial s + k) = true ->
         In (SshDial a site) (eventsOf r) ->
         a = addr
         /\ List.filter isDialing (eventsOf r)
            = (failedDials k addr site ++ [SshDial addr site])%list
         /\ In (NewCertManager (certManagerFor w site)) (eventsOf r))
  /\ (forall a site,
         (forall j, (j < 5)%nat -> sshDial w (nDial s + j) = false) ->
         In (SshDial a site) (eventsOf r) ->
         a = addr
         /\ List.filter isDialing (eventsOf r) = failedDials 5 addr site
         /\ outcomeOf r = Exit 1
         /\ exists pre,
             eventsOf r
             = (pre ++ [Log FatalLevel "Dialing SSH Gateway for HTTPS failed."])%list).
Proof.
  cbv zeta.
  pose proof (dial_of_build config sp0 s) as Hdial.
  split; [apply generateListener_dials_at_most|].
  split.
  - intros k a site Hk Hf Hs Hin.
    destruct (Hdial a site Hin) as (sp & Hsp & -> & ->).
    split; [reflexivity|].
    exact (proj1 (dialing_of_build config sp0 s sp Hsp) k Hk Hf Hs).
  - intros a site Hf Hin.
    destruct (Hdial a site Hin) as (sp & Hsp & -> & ->).
    split; [reflexivity|].
    exact (proj2 (dialing_of_build config sp0 s sp Hsp) Hf).
Qed.

Lemma generateListener_exits config sp0 s c :
  outcomeOf (prepare w config sp0 s) = Exit c ->
  outcomeOf (generateListener w config sp0 s) = Exit c
  /\ eventsOf (generateListener w config sp0 s) = eventsOf (prepare w config sp0 s).
Proof.
  intros H. rewrite generateListener_parts, outcome_bind, events_bind, H.
  now rewrite app_nil_r.
Qed.

Lemma ends_with {T} (l : list T) (x : T) :
  l <> [] -> List.last l x = x -> exists pre, l = (pre ++ [x])%list.
Proof.
  intros Hl Hx. exists (List.removelast l).
  pose proof (app_removelast_last x Hl) as H. now rewrite Hx in H.
Qed.

(** *** Registration and the refresh of the token *)

Lemma atMost_silent {A} P K n (m : M A) :
  emits K m -> (forall e, K e = true -> P e = false) -> atMost P n m.
Proof. intros Hm HK s. rewrite (silent P K m s Hm HK). cbn. lia. Qed.

Lemma atMost_bind {A B} P a b (m : M A) (k : A -> M B) :
  atMost P a m -> (forall x, atMost P b (k x)) -> atMost P (a + b) (bind m k).
Proof.
  intros Hm Hk s. rewrite filter_bind, length_app.
  specialize (Hm s). destruct (outcomeOf (m s)) as [x|c].
  - specialize (Hk x (stateOf (m s))). lia.
  - cbn. lia.
Qed.

Lemma atMost_le {A} P n n' (m : M A) :
  (n <= n')%nat -> atMost P n m -> atMost P n' m.
Proof. intros Hle Hm s. specialize (Hm s). lia. Qed.

Lemma atMost_call {A} P (f : State -> A) (g : State -> State) e :
  atMost P 1 (fun s => (Done (f s), g s, [e])).
Proof. intros s. cbn. destruct (P e); cbn; lia. Qed.

Lemma register_at_most_2 config key sp :
  atMost isRegister 2 (register w config key sp).
Proof.
  unfold register.
  destruct (negb _).
  { eapply (atMost_silent _ isUI); [emits_tac | kinds]. }
  apply (atMost_bind _ 0 2); [eapply (atMost_silent _ isUI); [emits_tac | kinds]|].
  intros _. apply (atMost_bind _ 1 1); [apply atMost_call|]. intros r.
  cbv zeta. destruct (snd r);
    [|eapply (atMost_silent _ isUI); [emits_tac | kinds]].
  destruct (_ =? 400);
    [apply (atMost_le _ 0); [lia|];
     eapply (atMost_silent _ isUI); [emits_tac | kinds]|].
  destruct (_ =? 401).
  2:{ apply (atMost_le _ 0); [lia|].
      eapply (atMost_silent _ isUI); [emits_tac | kinds]. }
  apply (atMost_bind _ 0 1); [eapply (atMost_silent _ isUI); [emits_tac | kinds]|].
  intros _.
  apply (atMost_bind _ 0 1); [eapply (atMost_silent _ isUI); [emits_tac | kinds]|].
  intros _.
  apply (atMost_bind _ 0 1).
  { eapply (atMost_silent _ (fun e => isUI e || isRefresh e));
      [emits_tac | kinds]. }
  intros [err|].
  { apply (atMost_le _ 0); [lia|].
    eapply (atMost_silent _ isUI); [emits_tac | kinds]. }
  apply (atMost_bind _ 1 0); [apply atMost_call|]. intros r2.
  eapply (atMost_silent _ isUI); [emits_tac | kinds].
Qed.

Lemma register_at_most_1_refresh config key sp :
  atMost isRefresh 1 (register w config key sp).
Proof.
  unfold register.
  destruct (negb _).
  { eapply (atMost_silent _ isUI); [emits_tac | kinds]. }
  apply (atMost_bind _ 0 1); [eapply (atMost_silent _ isUI); [emits_tac | kinds]|].
  intros _. apply (atMost_bind _ 0 1).
  { eapply (atMost_silent _ (fun e => isUI e || isRegister e));
      [emits_tac | kinds]. }
  intros r.
  cbv zeta. destruct (snd r);
    [|eapply (atMost_silent _ isUI); [emits_tac | kinds]].
  destruct (_ =? 400);
    [eapply (atMost_silent _ isUI); [emits_tac | kinds]|].
  destruct (_ =? 401).
  2:{ eapply (atMost_silent _ isUI); [emits_tac | kinds]. }
  apply (atMost_bind _ 0 1); [eapply (atMost_silent _ isUI); [emits_tac | kinds]|].
  intros _.
  apply (atMost_bind _ 0 1); [eapply (atMost_silent _ isUI); [emits_tac | kinds]|].
  intros _.
  apply (atMost_bind _ 1 0); [apply atMost_call|].
  intros [err|].
  { eapply (atMost_silent _ isUI); [emits_tac | kinds]. }
  eapply (atMost_silent _ (fun e => isUI e || isRegister e));
    [emits_tac | kinds].
Qed.

Lemma generateListener_at_most P a config sp0 :
  (forall e, ofIdentity e = true -> P e = false) ->
  (forall e, isUI e = true -> P e = false) ->
  (forall e, ofDial e = true -> P e = false) ->
  (forall e, ofEstablish e = true -> P e = false) ->
  (forall key, atMost P a (register w config key sp0)) ->
  atMost P a (generateListener w config sp0).
Proof.
  intros HI HU HD HE HR s. rewrite generateListener_parts. revert s.
  apply (atMost_le _ (a + 0)); [lia|]. apply atMost_bind.
  - unfold prepare.
    apply (atMost_bind _ 0 a);
      [exact (atMost_silent _ _ _ _ (loadIdentity_emits config) HI)|].
    intros key.
    apply (atMost_bind _ 0 a); [eapply (atMost_silent _ isUI); [emits_tac | exact HU]|].
    intros _. apply (atMost_le _ (a + 0)); [lia|].
    apply atMost_bind; [apply HR|]. intros sp.
    eapply (atMost_silent _ isUI); [emits_tac | exact HU].
  - intros sp. apply (atMost_bind _ 0 0).
    + exact (atMost_silent _ _ _ _ (dialGateway_emits config sp) HD).
    + intros conn. exact (atMost_silent _ _ _ _ (establish_emits config sp conn) HE).
Qed.

(** Identity and registration when the first registration is refused
    with 401. *)
Lemma prepare_401 config sp0 s key sp1 :
  outcomeOf (loadIdentity w config s) = Done key ->
  SiteSpecification.ResultCode sp0 = 0 ->
  registerSite w (nRegister s) key (Config.SiteID config) = (sp1, true) ->
  SiteSpecification.ResultCode sp1 = 401 ->
  let r := prepare w config sp0 s in
  let refreshed :=
    Token.RefreshToken (GetLocalStorageFile w)
      (tokenEndpoint w (nRefresh s)) (fs s) in
  let retried := registerSite w (S (nRegister s)) key (Config.SiteID config) in
  let call := RegisterSite apiURL key (Config.SiteID config) in
  List.filter isRefresh (eventsOf r) = [RefreshToken]
  /\ (fst refreshed <> None ->
      List.filter isRegister (eventsOf r) = [call]
      /\ outcomeOf r = Exit 1
      /\ exists pre,
          eventsOf r
          = (pre ++ [Log FatalLevel "Failed to refresh token, try logging in again"])%list)
  /\ (fst refreshed = None ->
      List.filter isRegister (eventsOf r) = [call; call]
      /\ (snd retried = true ->
          outcomeOf r = Exit 1
          /\ exists pre,
              eventsOf r
              = (pre ++ [Log FatalLevel "Failed to register site, try logging in again"])%list)
      /\ (snd retried = false -> outcomeOf r = Done (fst retried))).
Proof.
  intros Hkey H0 Hreg H401. cbv zeta. revert Hkey.
  unfold prepare, loadIdentity, register, ifDebug, startLoading,
    loadingFailure, loadingSuccess, println, debug, error, when.
  rewrite H0. cbn [Z.eqb negb].
  destruct (debugEnabled w);
    cbv [negb bind emit ret get fatal callParsePublicKey callRegisterSite
         callRefreshToken setPublicKey];
    (destruct (publicKey s) as [k|];
     [|destruct (parsePublicKey w (Config.IdentityFile config)) as [k|]]);
    cbn -[Token.RefreshToken]; intros Hkey; try discriminate Hkey;
    injection Hkey as ->;
    cbn -[Token.RefreshToken]; rewrite Hreg; cbn -[Token.RefreshToken];
    rewrite H401; cbn -[Token.RefreshToken];
    destruct (Token.RefreshToken _ _ _) as [[err|] fs'];
    cbn -[Token.RefreshToken];
    try destruct (registerSite w (S (nRegister s)) key (Config.SiteID config))
      as [sp2 [|]];
    cbn -[Token.RefreshToken];
    (split; [reflexivity|]);
    (split; [intros Hne | intros He]; try congruence; try discriminate);
    repeat split; try reflexivity; try discriminate;
    try (intros; discriminate);
    try (apply ends_with; [discriminate | reflexivity]).
Qed.

(** *** A session build that returns *)

Lemma bind_done {A B} (m : M A) (k : A -> M B) s b s' evs :
  bind m k s = (Done b, s', evs) ->
  exists a s1 e1 e2,
    m s = (Done a, s1, e1) /\ k a s1 = (Done b, s', e2)
    /\ evs = (e1 ++ e2)%list.
Proof.
  unfold bind. destruct (m s) as [[[a|c] s1] e1]; [|discriminate].
  destruct (k a s1) as [[r s2] e2] eqn:Hk. intros H.
  injection H as H1 H2 H3. subst. now exists a, s1, e1, e2.
Qed.

Lemma generateListener_done config sp0 s l p sp s' evs :
  generateListener w config sp0 s = (Done (l, p, sp), s', evs) ->
  exists s2 e2 conn s3 e3 lst port s4 e4 s5 e5 e6,
    prepare w config sp0 s = (Done sp, s2, e2)
    /\ dialGateway w config sp s2 = (Done conn, s3, e3)
    /\ serveLocally w config sp s3 = (Done (lst, port), s4, e4)
    /\ listenRemotely w conn s4 = (Done l, s5, e5)
    /\ announce config sp s5 = (Done tt, s', e6)
    /\ p = {| Endpoint.Host := "127.0.0.1"; Endpoint.Port := int32 port |}
    /\ evs = (e2 ++ e3 ++ e4 ++ e5 ++ e6)%list.
Proof.
  rewrite generateListener_parts. intros H.
  apply bind_done in H as (sp' & s2 & e2 & r2 & Hp & H & ->).
  apply bind_done in H as (conn & s3 & e3 & r3 & Hd & H & ->).
  unfold establish in H.
  apply bind_done in H as ([lst port] & s4 & e4 & r4 & Hl & H & ->).
  apply bind_done in H as (l' & s5 & e5 & r5 & Hr & H & ->).
  apply bind_done in H as ([] & s6 & e6 & r6 & Ha & H & ->).
  unfold ret in H. injection H as <- <- <- <- <-. cbn [snd].
  exists s2, e2, conn, s3, e3, lst, port, s4, e4, s5, e5, e6.
  rewrite app_nil_r. repeat split; assumption.
Qed.

(** *** The forwarding line and the QR code *)

Lemma announce_run config sp s :
  announce config sp s
  = (Done tt, s,
     ([Print newline; Print "Forwarding ";
       Print ("https://" ++ SiteSpecification.SiteID sp ++ ".loophole.site");
       Print " -> ";
       Print (Config.Host config ++ ":" ++ Strconv.Itoa (Config.Port config));
       Print newline]
      ++ (if Config.QR config
          then [QRCode ("http://" ++ SiteSpecification.SiteID sp ++ ".loophole.site")]
          else [])
      ++ [Print ("TLS Certificate will be obtained with first request to the above address, therefore first execution may be slower" ++ newline);
          Print newline;
          Print ("Press CTRL + C to stop the service" ++ newline);
          Print newline;
          Print ("Logs:" ++ newline);
          Log InfoLevel "Awaiting connections..."])%list).
Proof. unfold announce. now destruct (Config.QR config). Qed.

(** C8. In a session build that returns, with [config.QR] set, one QR
    code is rendered, after the forwarding line; it encodes the
    address with the scheme http, which is not the https address
    of the forwarding line. *)
Theorem qr_encodes_http config sp0 s l p sp s' evs :
  generateListener w config sp0 s = (Done (l, p, sp), s', evs) ->
  Config.QR config = true ->
  let site := SiteSpecification.SiteID sp in
  List.filter isQR evs = [QRCode ("http://" ++ site ++ ".loophole.site")]
  /\ (exists before after,
         evs = (before
                ++ [Print ("https://" ++ site ++ ".loophole.site");
                    Print " -> ";
                    Print (Config.Host config ++ ":" ++ Strconv.Itoa (Config.Port config));
                    Print newline;
                    QRCode ("http://" ++ site ++ ".loophole.site")]
                ++ after)%list)
  /\ "http://" ++ site ++ ".loophole.site" <> "https://" ++ site ++ ".loophole.site".
Proof.
  intros H Hqr. cbv zeta.
  apply generateListener_done in H
    as (s2 & e2 & conn & s3 & e3 & lst & port & s4 & e4 & s5 & e5 & e6
        & Hp & Hd & Hl & Hr & Ha & _ & ->).
  rewrite announce_run, Hqr in Ha. injection Ha as _ <-.
  split; [|split].
  - rewrite !List.filter_app.
    pose proof (prepare_emits config sp0 s) as H2. rewrite Hp in H2.
    pose proof (dialGateway_emits config sp s2) as H3. rewrite Hd in H3.
    pose proof (serveLocally_emits config sp s3) as H4. rewrite Hl in H4.
    pose proof (listenRemotely_emits conn s4) as H5. rewrite Hr in H5.
    cbn [eventsOf snd] in *.
    assert (Hs : forall K l0, (forall e, K e = true -> isQR e = false) ->
                   Forall (fun e => K e = true) l0 -> List.filter isQR l0 = []).
    { intros K l0 HK Hl0. induction Hl0 as [|e l0 He _ IH]; [reflexivity|].
      cbn [List.filter]. now rewrite (HK _ He). }
    rewrite (Hs ofPrepare _ ltac:(kinds) H2), (Hs ofDial _ ltac:(kinds) H3),
      (Hs ofLocal _ ltac:(kinds) H4), (Hs ofRemote _ ltac:(kinds) H5).
    reflexivity.
  - eexists (e2 ++ e3 ++ e4 ++ e5 ++ [Print newline; Print "Forwarding "])%list, _.
    rewrite <- !app_assoc. cbn [app]. reflexivity.
  - intros Heq.
    cbn [append] in Heq. discriminate Heq.
Qed.

(** *** The certificate manager and the local proxy *)

Lemma serveLocally_done config sp s lst port s' evs :
  serveLocally w config sp s = (Done (lst, port), s', evs) ->
  List.filter isLocalBuild evs
  = localBuild w config (SiteSpecification.SiteID sp) (nListen s)
  /\ List.filter isCertManager evs
     = [NewCertManager (certManagerFor w (SiteSpecification.SiteID sp))].
Proof.
  unfold serveLocally, ifDebug, startLoading, loadingSuccess, loadingFailure,
    println, debug, when, localBuild.
  destruct (debugEnabled w); cbn;
    destruct (netListen w (nListen s)); cbn; intros H;
    try discriminate H; injection H as <- <- <- <-; split; reflexivity.
Qed.

Lemma filter_silent (P K : event -> bool) (l : list event) :
  (forall e, K e = true -> P e = false) ->
  Forall (fun e => K e = true) l -> List.filter P l = [].
Proof.
  intros HK Hl. induction Hl as [|e l He _ IH]; [reflexivity|].
  cbn [List.filter]. now rewrite (HK _ He).
Qed.

Lemma HostWhitelist_two ToASCII a b host :
  ToASCII a = Some a -> ToASCII b = Some b ->
  host ∈ Autocert.HostWhitelist ToASCII [a; b] <-> host = a \/ host = b.
Proof.
  intros Ha Hb. unfold Autocert.HostWhitelist. cbn [fold_right].
  rewrite Ha, Hb.
  rewrite !elem_of_union, !elem_of_singleton, elem_of_empty. tauto.
Qed.

(** C5, amended. In a session build that returns, one certificate
    manager is made. Its host policy lets through the name of the
    site under loophole.site and the name abc.loophole.site, and no
    other; its contact address is the site identifier at
    loophole.main.dev, and its cache is the directory certs of the
    per-user storage. *)
Theorem certificate_manager_configuration
    (ToASCII : string -> option string) config sp0 s l p sp s' evs :
  generateListener w config sp0 s = (Done (l, p, sp), s', evs) ->
  let site := SiteSpecification.SiteID sp in
  let m := certManagerFor w site in
  ToASCII (site ++ ".loophole.site") = Some (site ++ ".loophole.site") ->
  ToASCII "abc.loophole.site" = Some "abc.loophole.site" ->
  List.filter isCertManager evs = [NewCertManager m]
  /\ (forall host,
         Autocert.allows ToASCII m host = true
         <-> host = site ++ ".loophole.site" \/ host = "abc.loophole.site")
  /\ Autocert.Email m = site ++ "@loophole.main.dev"
  /\ Autocert.Cache m = GetLocalStorageDir w "certs".
Proof.
  intros H. cbv zeta. intros Hsite Habc.
  apply generateListener_done in H
    as (s2 & e2 & conn & s3 & e3 & lst & port & s4 & e4 & s5 & e5 & e6
        & Hp & Hd & Hl & Hr & Ha & _ & ->).
  split; [|split; [|split; reflexivity]].
  - rewrite !List.filter_app.
    pose proof (prepare_emits config sp0 s) as H2. rewrite Hp in H2.
    pose proof (dialGateway_emits config sp s2) as H3. rewrite Hd in H3.
    pose proof (listenRemotely_emits conn s4) as H5. rewrite Hr in H5.
    pose proof (announce_emits config sp s5) as H6. rewrite Ha in H6.
    cbn [eventsOf snd] in *.
    rewrite (filter_silent isCertManager ofPrepare _ ltac:(kinds) H2),
      (filter_silent isCertManager ofDial _ ltac:(kinds) H3),
      (filter_silent isCertManager ofRemote _ ltac:(kinds) H5),
      (filter_silent isCertManager ofAnnounce _ ltac:(kinds) H6).
    destruct (serveLocally_done _ _ _ _ _ _ _ Hl) as [_ ->]. reflexivity.
  - intros host. unfold Autocert.allows. rewrite bool_decide_eq_true.
    cbn [certManagerFor Autocert.HostPolicy].
    now apply HostWhitelist_two.
Qed.

Lemma dialAttempts_keeps_nListen n : forall i addr site,
  keeps nListen (dialAttempts w n i addr site).
Proof.
  induction n as [|n IH]; intros; cbn [dialAttempts]; keeps_tac; apply IH.
Qed.

(** *** Reconnecting *)

(** With a key loaded and a site specification in use, identity and
    registration call nothing and change nothing. *)
Lemma prepare_reuse config sp s key :
  SiteSpecification.ResultCode sp <> 0 ->
  publicKey s = Some key ->
  outcomeOf (prepare w config sp s) = Done sp
  /\ stateOf (prepare w config sp s) = s
  /\ Forall (fun e => isUI e = true) (eventsOf (prepare w config sp s)).
Proof.
  intros Hc Hk.
  unfold prepare, loadIdentity, register, ifDebug, loadingSuccess,
    println, debug, info, when.
  apply Z.eqb_neq in Hc.
  destruct (debugEnabled w); cbv [negb bind emit ret get];
    rewrite Hk; cbv [bind ret]; rewrite Hc; cbn;
    repeat split; repeat constructor.
Qed.

Lemma reconnect_run config l sp s :
  reconnect w config l sp s
  = let g := generateListener w config sp s in
    (match outcomeOf g with
     | Done rebuilt => Done (fst (fst rebuilt))
     | Exit c => Exit c
     end,
     stateOf g,
     (Log InfoLevel "Connection dropped, reconnecting..."
        :: CloseListener l :: eventsOf g)%list).
Proof.
  unfold reconnect, info. cbv [bind emit ret].
  destruct (generateListener w config sp s) as [[[rebuilt|c] s1] e1];
    cbn; [now rewrite app_nil_r | reflexivity].
Qed.


(** *** A registration that is refused *)

Lemma prepare_refused config sp0 s key sp1 :
  outcomeOf (loadIdentity w config s) = Done key ->
  SiteSpecification.ResultCode sp0 = 0 ->
  registerSite w (nRegister s) key (Config.SiteID config) = (sp1, true) ->
  SiteSpecification.ResultCode sp1 <> 401 ->
  let r := prepare w config sp0 s in
  outcomeOf r = Exit 1
  /\ List.filter isRegister (eventsOf r)
     = [RegisterSite apiURL key (Config.SiteID config)]
  /\ List.filter isRefresh (eventsOf r) = []
  /\ exists pre,
      eventsOf r
      = (pre ++ [Log FatalLevel (refusal (SiteSpecification.ResultCode sp1))])%list.
Proof.
  intros Hkey H0 Hreg Hcode. cbv zeta. revert Hkey.
  unfold prepare, loadIdentity, register, refusal, ifDebug, startLoading,
    loadingFailure, loadingSuccess, println, debug, error, when.
  rewrite H0. cbn [Z.eqb negb].
  apply Z.eqb_neq in Hcode.
  destruct (debugEnabled w);
    cbv [negb bind emit ret get fatal callParsePublicKey callRegisterSite
         setPublicKey];
    (destruct (publicKey s) as [k|];
     [|destruct (parsePublicKey w (Config.IdentityFile config)) as [k|]]);
    cbn; intros Hkey; try discriminate Hkey; injection Hkey as ->;
    cbn; rewrite Hreg; cbn; rewrite Hcode;
    destruct (SiteSpecification.ResultCode sp1 =? 400); cbn;
    try (repeat split;
         first [reflexivity | apply ends_with; [discriminate | reflexivity]]);
    destruct (SiteSpecification.ResultCode sp1 =? 403); cbn;
    try (repeat split;
         first [reflexivity | apply ends_with; [discriminate | reflexivity]]);
    destruct (SiteSpecification.ResultCode sp1 =? 409); cbn;
    try (repeat split;
         first [reflexivity | apply ends_with; [discriminate | reflexivity]]);
    destruct ((SiteSpecification.ResultCode sp1 =? 600)
              || (SiteSpecification.ResultCode sp1 =? 601)); cbn;
    repeat split;
    first [reflexivity | apply ends_with; [discriminate | reflexivity]].
Qed.

(** X9. When the identity is at hand and the first registration is
    refused with a result code other than 401, the session build ends
    the process with status 1 on the fatal line of that code: it has
    called the registration once, and neither the refresh of the token
    nor the gateway. *)
Theorem refused_registration_is_fatal config sp0 s key sp1 :
  outcomeOf (loadIdentity w config s) = Done key ->
  SiteSpecification.ResultCode sp0 = 0 ->
  registerSite w (nRegister s) key (Config.SiteID config) = (sp1, true) ->
  SiteSpecification.ResultCode sp1 <> 401 ->
  let r := generateListener w config sp0 s in
  outcomeOf r = Exit 1
  /\ List.filter isRegister (eventsOf r)
     = [RegisterSite apiURL key (Config.SiteID config)]
  /\ List.filter isRefresh (eventsOf r) = []
  /\ List.filter isDial (eventsOf r) = []
  /\ exists pre,
      eventsOf r
      = (pre ++ [Log FatalLevel (refusal (SiteSpecification.ResultCode sp1))])%list.
Proof.
  intros Hkey H0 Hreg Hcode. cbv zeta.
  destruct (prepare_refused config sp0 s key sp1 Hkey H0 Hreg Hcode)
    as (Ho & Hr & Hf & Hlast).
  destruct (generateListener_exits config sp0 s 1 Ho) as [-> ->].
  split; [reflexivity|]. split; [exact Hr|]. split; [exact Hf|].
  split; [|exact Hlast].
  apply (silent isDial ofPrepare _ _ (prepare_emits config sp0)). kinds.
Qed.

(** *** What a session build that returns has done *)

Lemma dialAttempts_keeps_nSshListen n : forall i addr site,
  keeps nSshListen (dialAttempts w n i addr site).
Proof.
  induction n as [|n IH]; intros; cbn [dialAttempts]; keeps_tac; apply IH.
Qed.

Lemma dialAttempts_keeps_publicKey n : forall i addr site,
  keeps publicKey (dialAttempts w n i addr site).
Proof.
  induction n as [|n IH]; intros; cbn [dialAttempts]; keeps_tac; apply IH.
Qed.

Lemma dialGateway_keeps_listeners config sp :
  keeps nListen (dialGateway w config sp)
  /\ keeps nSshListen (dialGateway w config sp)
  /\ keeps publicKey (dialGateway w config sp).
Proof.
  unfold dialGateway. repeat split.
  - apply keeps_bind; [keeps_tac|]. intros _.
    apply keeps_bind; [apply dialAttempts_keeps_nListen|].
    intros [c|]; unfold println, debug; keeps_tac.
  - apply keeps_bind; [keeps_tac|]. intros _.
    apply keeps_bind; [apply dialAttempts_keeps_nSshListen|].
    intros [c|]; unfold println, debug; keeps_tac.
  - apply keeps_bind; [keeps_tac|]. intros _.
    apply keeps_bind; [apply dialAttempts_keeps_publicKey|].
    intros [c|]; unfold println, debug; keeps_tac.
Qed.

Lemma prepare_keeps_listeners config sp0 :
  keeps nListen (prepare w config sp0) /\ keeps nSshListen (prepare w config sp0).
Proof.
  unfold prepare, loadIdentity, register, println, debug, info, error.
  split; keeps_tac.
Qed.

(** Identity and registration leave a key loaded, and a site
    specification in use as it is. *)
Lemma prepare_done config sp0 s sp s2 e2 :
  prepare w config sp0 s = (Done sp, s2, e2) ->
  publicKey s2 <> None
  /\ (SiteSpecification.ResultCode sp0 <> 0 -> sp = sp0).
Proof.
  unfold prepare, loadIdentity, register, ifDebug, startLoading,
    loadingFailure, loadingSuccess, println, debug, info, error, when.
  destruct (SiteSpecification.ResultCode sp0 =? 0) eqn:H0.
  - apply Z.eqb_eq in H0. intros H. split; [|congruence].
    revert H. cbn [negb].
    destruct (debugEnabled w);
      cbv [negb bind emit ret get fatal callParsePublicKey callRegisterSite
           callRefreshToken setPublicKey];
      (destruct (publicKey s) as [k|] eqn:Hk;
       [|destruct (parsePublicKey w (Config.IdentityFile config)) as [k|]]);
      cbn; try discriminate;
      repeat match goal with
             | |- context [registerSite w ?n ?k ?i] =>
               destruct (registerSite w n k i) as [? []]; cbn
             | |- context [SiteSpecification.ResultCode ?x =? ?c] =>
               destruct (SiteSpecification.ResultCode x =? c); cbn
             | |- context [Token.RefreshToken ?a ?b ?c] =>
               destruct (Token.RefreshToken a b c) as [[?|] ?]; cbn
             end;
      try discriminate;
      intros [= _ <- _]; cbn; congruence.
  - intros H. cbn [negb] in H. revert H.
    destruct (debugEnabled w);
      cbv [negb bind emit ret get fatal callParsePublicKey setPublicKey];
      (destruct (publicKey s) as [k|] eqn:Hk;
       [|destruct (parsePublicKey w (Config.IdentityFile config)) as [k|]]);
      cbn; try discriminate;
      intros [= <- <- _]; cbn; split; congruence.
Qed.

Lemma serveLocally_listens config sp s lst port s' evs :
  serveLocally w config sp s = (Done (lst, port), s', evs) ->
  netListen w (nListen s) = Some port
  /\ lst = nListen s
  /\ nListen s' = S (nListen s)
  /\ nSshListen s' = nSshListen s
  /\ publicKey s' = publicKey s.
Proof.
  unfold serveLocally, ifDebug, startLoading, loadingSuccess, loadingFailure,
    println, debug, when.
  destruct (debugEnabled w); cbn;
    destruct (netListen w (nListen s)); cbn; intros H;
    try discriminate H; injection H as <- <- <- <-; repeat split; reflexivity.
Qed.

Lemma listenRemotely_listens conn s l s' evs :
  listenRemotely w conn s = (Done l, s', evs) ->
  sshListen w (nSshListen s) = true
  /\ l = nSshListen s
  /\ nSshListen s' = S (nSshListen s)
  /\ nListen s' = nListen s
  /\ publicKey s' = publicKey s.
Proof.
  unfold listenRemotely, ifDebug, loadingSuccess, loadingFailure,
    println, debug, when.
  destruct (debugEnabled w); cbn;
    destruct (sshListen w (nSshListen s)); cbn; intros H;
    try discriminate H; injection H as <- <- <-; repeat split; reflexivity.
Qed.

Lemma announce_keeps_state config sp s :
  stateOf (announce config sp s) = s.
Proof.
  unfold announce, println, info, when.
  destruct (Config.QR config); reflexivity.
Qed.

Lemma generateListener_bound config sp0 s l p sp s' evs :
  generateListener w config sp0 s = (Done (l, p, sp), s', evs) ->
  (exists port,
      netListen w (nListen s) = Some port
      /\ p = {| Endpoint.Host := "127.0.0.1"; Endpoint.Port := int32 port |})
  /\ sshListen w (nSshListen s) = true
  /\ l = nSshListen s
  /\ nListen s' = S (nListen s)
  /\ nSshListen s' = S (nSshListen s)
  /\ publicKey s' <> None
  /\ (SiteSpecification.ResultCode sp0 <> 0 -> sp = sp0).
Proof.
  intros H.
  destruct (generateListener_done _ _ _ _ _ _ _ _ H)
    as (s2 & e2 & conn & s3 & e3 & lst & port & s4 & e4 & s5 & e5 & e6
        & Hp & Hd & Hl & Hr & Ha & -> & _).
  destruct (prepare_keeps_listeners config sp0) as [Kp1 Kp2].
  specialize (Kp1 s). specialize (Kp2 s). rewrite Hp in Kp1, Kp2.
  destruct (dialGateway_keeps_listeners config sp) as (Kd1 & Kd2 & Kd3).
  specialize (Kd1 s2). specialize (Kd2 s2). specialize (Kd3 s2).
  rewrite Hd in Kd1, Kd2, Kd3. cbn [stateOf fst snd] in *.
  destruct (prepare_done _ _ _ _ _ _ Hp) as [Hkey Hsticky].
  destruct (serveLocally_listens _ _ _ _ _ _ _ Hl) as (Hport & _ & Hl1 & Hl2 & Hl3).
  destruct (listenRemotely_listens _ _ _ _ _ Hr) as (Hopen & -> & Hr1 & Hr2 & Hr3).
  pose proof (announce_keeps_state config sp s5) as Hs. rewrite Ha in Hs.
  cbn [stateOf fst snd] in Hs. subst s'.
  split; [exists port; split; [congruence | reflexivity]|].
  repeat split; first [assumption | congruence].
Qed.

(** X10. A session build that returns has bound one loopback listener
    and opened one remote listener: the endpoint it returns is
    127.0.0.1 with the port of the loopback listener, the listener it
    returns is the remote one, a key is loaded afterwards, and a site
    specification that was in use is returned as it was. *)
Theorem build_returns_what_it_bound config sp0 s l p sp s' evs :
  generateListener w config sp0 s = (Done (l, p, sp), s', evs) ->
  (exists port,
      netListen w (nListen s) = Some port
      /\ p = {| Endpoint.Host := "127.0.0.1"; Endpoint.Port := int32 port |})
  /\ sshListen w (nSshListen s) = true
  /\ l = nSshListen s
  /\ nListen s' = S (nListen s)
  /\ nSshListen s' = S (nSshListen s)
  /\ publicKey s' <> None
  /\ (SiteSpecification.ResultCode sp0 <> 0 -> sp = sp0).
Proof. apply generateListener_bound. Qed.

(** *** The order of a session build *)

Lemma before_in x y (a l1 b l2 c : list event) :
  In x l1 -> In y l2 -> before x y (a ++ l1 ++ b ++ l2 ++ c).
Proof.
  intros Hx Hy.
  apply in_split in Hx as (x1 & x2 & ->). apply in_split in Hy as (y1 & y2 & ->).
  exists (a ++ x1)%list, (x2 ++ b ++ y1)%list, (y2 ++ c)%list.
  repeat first [rewrite <- app_assoc | progress cbn [app]]. reflexivity.
Qed.

Lemma before_within x y (a l b : list event) :
  before x y l -> before x y (a ++ l ++ b).
Proof.
  intros (u & v & z & ->). exists (a ++ u)%list, v, (z ++ b)%list.
  repeat first [rewrite <- app_assoc | progress cbn [app]]. reflexivity.
Qed.

Lemma dialGateway_dials config sp s :
  In (SshDial (Endpoint.String_ (Config.GatewayEndpoint config))
        (SiteSpecification.SiteID sp))
     (eventsOf (dialGateway w config sp s)).
Proof.
  unfold dialGateway. rewrite !events_bind.
  apply in_or_app. right.
  replace (outcomeOf (ifDebug w (println;; debug "Dialing gateway to establish the tunnel..") s))
    with (@Done unit tt)
    by (unfold ifDebug, when; now destruct (debugEnabled w)).
  apply in_or_app. left.
  change (Z.to_nat sshRetries) with 5%nat. cbn [dialAttempts].
  rewrite !events_bind. apply in_or_app. right.
  replace (outcomeOf (startLoading w "Initializing secure tunnel... "
                        (stateOf (ifDebug w (println;; debug "Dialing gateway to establish the tunnel..") s))))
    with (@Done unit tt) by (unfold startLoading; now destruct (debugEnabled w)).
  apply in_or_app. left. now left.
Qed.

Lemma serveLocally_order config sp s lst port s' evs :
  serveLocally w config sp s = (Done (lst, port), s', evs) ->
  before (NewCertManager (certManagerFor w (SiteSpecification.SiteID sp)))
         (GoServeTLS (nListen s)) evs.
Proof.
  unfold serveLocally, ifDebug, startLoading, loadingSuccess, loadingFailure,
    println, debug, when.
  destruct (debugEnabled w); cbn;
    destruct (netListen w (nListen s)); cbn; intros H;
    try discriminate H; injection H as <- <- <- <-.
  - eexists [_], [_; _; _; _; _; _; _; _; _; _], [_]. reflexivity.
  - eexists [_], [_; _; _; _; _], []. reflexivity.
Qed.

Lemma listenRemotely_asks conn s l s' evs :
  listenRemotely w conn s = (Done l, s', evs) ->
  In (SshListen conn (Endpoint.String_ remoteEndpoint)) evs.
Proof.
  unfold listenRemotely, ifDebug, loadingSuccess, loadingFailure,
    println, debug, when.
  destruct (debugEnabled w); cbn;
    destruct (sshListen w (nSshListen s)); cbn; intros H;
    try discriminate H; injection H as <- <- <-; now left.
Qed.

(** *** A registration refused with 401 *)

(** C7. One session build calls the registration at most twice and
    the refresh of the token at most once. In a session build whose
    first registration fails with result code 401, the token is
    refreshed exactly once. If the refresh returns an error, the
    build ends the process with status 1 on its fatal line, after
    one registration and no dial. Otherwise the registration is
    called a second time, and no more: if that fails too, the build
    ends the process with status 1 on its fatal line, without a
    dial; else the build goes on with the site specification of the
    second answer, dials the gateway for its site and, when it
    returns, returns it. *)
Theorem registration_401 config sp0 s :
  (let r := generateListener w config sp0 s in
   (length (List.filter isRegister (eventsOf r)) <= 2)%nat
   /\ (length (List.filter isRefresh (eventsOf r)) <= 1)%nat)
  /\ forall key sp1,
      outcomeOf (loadIdentity w config s) = Done key ->
      SiteSpecification.ResultCode sp0 = 0 ->
      registerSite w (nRegister s) key (Config.SiteID config) = (sp1, true) ->
      SiteSpecification.ResultCode sp1 = 401 ->
      let r := generateListener w config sp0 s in
      let refreshed :=
        Token.RefreshToken (GetLocalStorageFile w)
          (tokenEndpoint w (nRefresh s)) (fs s) in
      let retried := registerSite w (S (nRegister s)) key (Config.SiteID config) in
      let call := RegisterSite apiURL key (Config.SiteID config) in
      List.filter isRefresh (eventsOf r) = [RefreshToken]
      /\ (fst refreshed <> None ->
          List.filter isRegister (eventsOf r) = [call]
          /\ List.filter isDial (eventsOf r) = []
          /\ outcomeOf r = Exit 1
          /\ exists pre,
              eventsOf r
              = (pre ++ [Log FatalLevel "Failed to refresh token, try logging in again"])%list)
      /\ (fst refreshed = None ->
          List.filter isRegister (eventsOf r) = [call; call]
          /\ (snd retried = true ->
              List.filter isDial (eventsOf r) = []
              /\ outcomeOf r = Exit 1
              /\ exists pre,
                  eventsOf r
                  = (pre ++ [Log FatalLevel "Failed to register site, try logging in again"])%list)
          /\ (snd retried = false ->
              In (SshDial (Endpoint.String_ (Config.GatewayEndpoint config))
                    (SiteSpecification.SiteID (fst retried)))
                 (eventsOf r)
              /\ forall l p sp s' evs,
                  r = (Done (l, p, sp), s', evs) -> sp = fst retried)).
Proof.
  split.
  { cbv zeta. split.
    - apply generateListener_at_most;
        [kinds | kinds | kinds | kinds | intros key; apply register_at_most_2].
    - apply generateListener_at_most;
        [kinds | kinds | kinds | kinds
        | intros key; apply register_at_most_1_refresh]. }
  intros key sp1 Hkey H0 Hreg H401. cbv zeta.
  destruct (prepare_401 config sp0 s key sp1 Hkey H0 Hreg H401)
    as (Hrefresh & Hfail & Hok).
  cbv zeta in Hfail, Hok.
  assert (Hrest : forall P,
             (forall e, ofDial e = true -> P e = false) ->
             (forall e, ofEstablish e = true -> P e = false) ->
             List.filter P (eventsOf (generateListener w config sp0 s))
             = List.filter P (eventsOf (prepare w config sp0 s))).
  { intros P HD HE. rewrite generateListener_parts, filter_bind.
    destruct (outcomeOf (prepare w config sp0 s)) as [sp|c];
      [|now rewrite app_nil_r].
    rewrite filter_bind.
    rewrite (silent P ofDial _ _ (dialGateway_emits config sp)) by exact HD.
    destruct (outcomeOf (dialGateway w config sp _)) as [conn|c];
      [|now rewrite app_nil_r].
    rewrite (silent P ofEstablish _ _ (establish_emits config sp conn))
      by exact HE.
    now rewrite app_nil_r. }
  assert (Hquiet : forall c,
             outcomeOf (prepare w config sp0 s) = Exit c ->
             List.filter isDial (eventsOf (generateListener w config sp0 s)) = []).
  { intros c Hc. destruct (generateListener_exits config sp0 s c Hc) as [_ ->].
    apply (silent isDial ofPrepare _ _ (prepare_emits config sp0)). kinds. }
  split; [rewrite Hrest by kinds; exact Hrefresh|]. split.
  - intros Hne. destruct (Hfail Hne) as (Hcalls & Hout & Hlast).
    destruct (generateListener_exits config sp0 s 1 Hout) as [Ho He].
    split; [rewrite Hrest by kinds; exact Hcalls|].
    split; [exact (Hquiet 1 Hout)|]. split; [exact Ho|].
    rewrite He. exact Hlast.
  - intros He. destruct (Hok He) as (Hcalls & Hagain & Hdone).
    split; [rewrite Hrest by kinds; exact Hcalls|]. split.
    + intros Hr. destruct (Hagain Hr) as (Hout & Hlast).
      destruct (generateListener_exits config sp0 s 1 Hout) as [Ho Hev].
      split; [exact (Hquiet 1 Hout)|]. split; [exact Ho|].
      rewrite Hev. exact Hlast.
    + intros Hr. specialize (Hdone Hr). split.
      * rewrite generateListener_parts, events_bind, Hdone.
        apply in_or_app. right. rewrite events_bind.
        apply in_or_app. left. apply dialGateway_dials.
      * intros l p sp s' evs Hg.
        destruct (generateListener_done _ _ _ _ _ _ _ _ Hg)
          as (s2 & e2 & _ & _ & _ & _ & _ & _ & _ & _ & _ & _ & Hp & _).
        rewrite Hp in Hdone. cbn in Hdone. congruence.
Qed.

(** X11. In a session build that returns, the gateway is dialled
    before the certificate manager is made, the certificate manager
    before the TLS server task is started on the loopback listener,
    that task before the gateway is asked for the remote listener, and
    the remote listener before the forwarding line is printed. *)
Theorem build_order config sp0 s l p sp s' evs :
  generateListener w config sp0 s = (Done (l, p, sp), s', evs) ->
  let dial :=
    SshDial (Endpoint.String_ (Config.GatewayEndpoint config))
      (SiteSpecification.SiteID sp) in
  let manager := NewCertManager (certManagerFor w (SiteSpecification.SiteID sp)) in
  let serve := GoServeTLS (nListen s) in
  exists conn,
    let listen := SshListen conn (Endpoint.String_ remoteEndpoint) in
    before dial manager evs
    /\ before manager serve evs
    /\ before serve listen evs
    /\ before listen (Print "Forwarding ") evs.
Proof.
  intros H. cbv zeta.
  destruct (generateListener_done _ _ _ _ _ _ _ _ H)
    as (s2 & e2 & conn & s3 & e3 & lst & port & s4 & e4 & s5 & e5 & e6
        & Hp & Hd & Hl & Hr & Ha & _ & ->).
  exists conn.
  pose proof (dialGateway_dials config sp s2) as Hdial. rewrite Hd in Hdial.
  cbn [eventsOf snd] in Hdial.
  pose proof (serveLocally_order _ _ _ _ _ _ _ Hl) as Horder.
  destruct (prepare_keeps_listeners config sp0) as [Kp _].
  specialize (Kp s). rewrite Hp in Kp.
  destruct (dialGateway_keeps_listeners config sp) as (Kd & _ & _).
  specialize (Kd s2). rewrite Hd in Kd. cbn [stateOf fst snd] in Kp, Kd.
  rewrite Kd, Kp in Horder.
  pose proof (listenRemotely_asks _ _ _ _ _ Hr) as Hlisten.
  assert (Hfwd : In (Print "Forwarding ") e6).
  { rewrite announce_run in Ha. injection Ha as _ <-. right. now left. }
  destruct Horder as (u & v & z & ->).
  repeat split.
  - apply (before_in _ _ e2 e3 [] _ (e5 ++ e6)); [exact Hdial|].
    apply in_or_app. right. now left.
  - exists (e2 ++ e3 ++ u)%list, v, (z ++ e5 ++ e6)%list.
    repeat first [rewrite <- app_assoc | progress cbn [app]]. reflexivity.
  - match goal with
    | |- before _ _ (e2 ++ e3 ++ ?e4 ++ e5 ++ e6) =>
      replace (e2 ++ e3 ++ e4 ++ e5 ++ e6)%list
        with ((e2 ++ e3) ++ e4 ++ [] ++ e5 ++ e6)%list
        by (now rewrite <- !app_assoc)
    end.
    apply before_in; [|exact Hlisten].
    apply in_or_app. right. right. apply in_or_app. right. now left.
  - match goal with
    | |- before _ _ (e2 ++ e3 ++ ?e4 ++ e5 ++ e6) =>
      replace (e2 ++ e3 ++ e4 ++ e5 ++ e6)%list
        with ((e2 ++ e3 ++ e4) ++ e5 ++ [] ++ e6 ++ [])%list
        by (now rewrite <- !app_assoc, app_nil_r)
    end.
    apply before_in; assumption.
Qed.

(** *** The spinner *)

Lemma spinnerRun_app b (e1 e2 : list event) :
  spinnerRun b (e1 ++ e2)
  = match spinnerRun b e1 with
    | Some b' => spinnerRun b' e2
    | None => None
    end.
Proof.
  revert b. induction e1 as [|e e1 IH]; intros b; [reflexivity|].
  destruct e; try destruct l; cbn [app spinnerRun]; try apply IH.
  all: destruct b; first [reflexivity | apply IH].
Qed.

Lemma tidyFrom_bind {A B} b (m : M A) (k : A -> M B) f g :
  tidyFrom b m f -> (forall a, tidyFrom (f a) (k a) g) ->
  tidyFrom b (bind m k) g.
Proof.
  intros Hm Hk s. rewrite events_bind, outcome_bind, spinnerRun_app, Hm.
  destruct (outcomeOf (m s)) as [a|c]; [apply Hk | reflexivity].
Qed.

Lemma tidyFrom_ret {A} b (a : A) f : f a = b -> tidyFrom b (ret a) f.
Proof. intros <- s. reflexivity. Qed.

(** Identity and registration, from a spinner that is stopped. *)
Lemma prepare_tidy config sp0 :
  tidyFrom false (prepare w config sp0) (fun _ => false).
Proof.
  intros s.
  unfold prepare, loadIdentity, register, ifDebug, startLoading,
    loadingFailure, loadingSuccess, println, debug, info, error, when.
  destruct (debugEnabled w);
    cbv [negb bind emit ret get fatal callParsePublicKey callRegisterSite
         callRefreshToken setPublicKey];
    (destruct (publicKey s) as [k|];
     [|destruct (parsePublicKey w (Config.IdentityFile config)) as [k|]]);
    cbn; try reflexivity;
    destruct (SiteSpecification.ResultCode sp0 =? 0); cbn; try reflexivity;
    repeat match goal with
           | |- context [registerSite w ?n ?k ?i] =>
             destruct (registerSite w n k i) as [? []]; cbn
           | |- context [SiteSpecification.ResultCode ?x =? ?c] =>
             destruct (SiteSpecification.ResultCode x =? c); cbn
           | |- context [Token.RefreshToken ?a ?b ?c] =>
             destruct (Token.RefreshToken a b c) as [[?|] ?]; cbn
           end;
    reflexivity.
Qed.

(** The dial loop leaves the spinner spinning on the attempt that
    succeeded, where there is a spinner. *)
Lemma dialAttempts_tidy n : forall i addr site,
  tidyFrom false (dialAttempts w n i addr site)
    (fun r => match r with
              | Some _ => negb (debugEnabled w)
              | None => false
              end).
Proof.
  induction n as [|n IH]; intros i addr site s; [reflexivity|].
  cbn [dialAttempts].
  rewrite events_bind, outcome_bind.
  assert (Hstart : outcomeOf (startLoading w "Initializing secure tunnel... " s)
                   = Done tt /\
                   stateOf (startLoading w "Initializing secure tunnel... " s) = s)
    by (unfold startLoading; now destruct (debugEnabled w)).
  destruct Hstart as [-> ->].
  rewrite events_bind, outcome_bind. cbn [callSshDial outcomeOf stateOf eventsOf fst snd].
  rewrite !spinnerRun_app.
  destruct (sshDial w (nDial s)).
  - unfold startLoading. now destruct (debugEnabled w).
  - specialize (IH (i + 1) addr site).
    unfold tidyFrom in IH.
    unfold startLoading, loadingFailure, info, when.
    destruct (debugEnabled w);
      cbv [negb bind emit ret outcomeOf stateOf eventsOf fst snd];
      match goal with
      | |- context [dialAttempts w n (i + 1) addr site ?s'] =>
        specialize (IH s'); destruct (dialAttempts w n (i + 1) addr site s')
          as [[o s2] e2]
      end;
      cbn [outcomeOf stateOf eventsOf fst snd] in *; cbn [app spinnerRun];
      exact IH.
Qed.

Lemma dialGateway_tidy config sp :
  tidyFrom false (dialGateway w config sp) (fun _ => false).
Proof.
  unfold dialGateway.
  apply (tidyFrom_bind _ _ _ (fun _ => false)).
  { intros s. unfold ifDebug, println, debug, when.
    now destruct (debugEnabled w). }
  intros _. eapply tidyFrom_bind; [apply dialAttempts_tidy|].
  intros [c|] s.
  - unfold ifDebug, loadingSuccess, println, debug, when.
    now destruct (debugEnabled w).
  - reflexivity.
Qed.

(** The local server, the remote listener and the closing lines. *)
Lemma establish_tidy config sp conn :
  tidyFrom false (establish w config sp conn) (fun _ => false).
Proof.
  intros s.
  unfold establish, serveLocally, listenRemotely, announce, ifDebug,
    startLoading, loadingFailure, loadingSuccess, println, debug, info, when.
  destruct (debugEnabled w); destruct (Config.QR config);
    cbv [negb bind emit ret fatal callNetListen callSshListen
         outcomeOf stateOf eventsOf fst snd];
    destruct (netListen w (nListen s));
    cbn [app spinnerRun nSshListen outcomeOf stateOf eventsOf fst snd];
    try reflexivity;
    destruct (sshListen w (nSshListen s));
    cbn [app spinnerRun outcomeOf stateOf eventsOf fst snd];
    reflexivity.
Qed.

Lemma generateListener_tidy config sp0 :
  tidyFrom false (generateListener w config sp0) (fun _ => false).
Proof.
  intros s. rewrite generateListener_parts. revert s.
  change (tidyFrom false
            (bind (prepare w config sp0)
               (fun sp => bind (dialGateway w config sp) (establish w config sp)))
            (fun _ => false)).
  eapply tidyFrom_bind; [apply prepare_tidy|]. intros sp.
  eapply tidyFrom_bind; [apply dialGateway_tidy|]. intros conn.
  apply establish_tidy.
Qed.

Lemma acceptLoop_tidy n config p : forall l sp,
  tidyFrom false (acceptLoop w n config l p sp) (fun _ => false).
Proof.
  induction n as [|n IH]; intros l sp; [now intros s|].
  cbn [acceptLoop].
  apply (tidyFrom_bind _ _ _ (fun _ => false)); [now intros s|].
  intros [| |c].
  - apply (tidyFrom_bind _ _ _ (fun _ => false)); [|intros l'; apply IH].
    unfold reconnect.
    apply (tidyFrom_bind _ _ _ (fun _ => false)); [now intros s|]. intros _.
    apply (tidyFrom_bind _ _ _ (fun _ => false)); [now intros s|]. intros _.
    eapply tidyFrom_bind; [apply generateListener_tidy|]. now intros a s.
  - apply (tidyFrom_bind _ _ _ (fun _ => false)); [now intros s|].
    intros _. apply IH.
  - apply (tidyFrom_bind _ _ _ (fun _ => false)); [now intros s|]. intros _.
    apply (tidyFrom_bind _ _ _ (fun _ => false)); [now intros s|]. intros _.
    apply IH.
Qed.

(** X12. Through a whole run of [Start], whatever the outside
    answers, [startLoading] and the two calls that stop the spinner
    come in turn: the spinner is never started while it spins, it has
    been stopped before every fatal line of [generateListener] and
    before every [Accept], and it is stopped when the rounds end. *)
Theorem spinner_starts_and_stops_in_turn n config s :
  spinnerRun false (eventsOf (Start w n config s)) = Some false.
Proof.
  assert (H : tidyFrom false (Start w n config) (fun _ => false)).
  { unfold Start, printWelcomeMessage, println.
    apply (tidyFrom_bind _ _ _ (fun _ => false)); [now intros s0|]. intros _.
    apply (tidyFrom_bind _ _ _ (fun _ => false)); [now intros s0|]. intros _.
    cbv zeta.
    eapply tidyFrom_bind; [apply generateListener_tidy|]. intros built.
    apply acceptLoop_tidy. }
  rewrite (H s). now destruct (outcomeOf (Start w n config s)).
Qed.

(** *** What the debug level switches *)

Lemma dialAttempts_gated P n :
  debugEnabled w = true ->
  (forall e, isLoader e = false -> P e = true) ->
  forall i addr site, emits P (dialAttempts w n i addr site).
Proof.
  intros Hd HP. induction n as [|n IH]; intros i addr site;
    cbn [dialAttempts]; [apply emits_ret|].
  unfold startLoading, loadingFailure, info, when.
  rewrite ?Hd; cbv beta iota delta [negb];
    repeat first
      [ apply emits_bind; [|intros ?]
      | apply emits_ret
      | apply IH
      | apply emits_emit; apply HP; reflexivity
      | apply emits_call; apply HP; reflexivity
      | match goal with |- emits _ (match ?x with _ => _ end) => destruct x end ].
Qed.

Lemma generateListener_gated P config sp0 :
  debugEnabled w = true ->
  (forall e, isLoader e = false -> P e = true) ->
  emits P (generateListener w config sp0).
Proof.
  intros Hd HP.
  assert (Hdial : forall sp, emits P (dialGateway w config sp)).
  { intros sp. unfold dialGateway.
    apply emits_bind.
    { unfold ifDebug, println, debug, when.
      rewrite ?Hd;
        repeat first [ apply emits_bind; [|intros ?] | apply emits_ret
                     | apply emits_emit; apply HP; reflexivity ]. }
    intros _. apply emits_bind; [now apply (dialAttempts_gated P)|].
    intros [c|]; unfold ifDebug, loadingSuccess, println, debug, fatal, when;
      rewrite ?Hd; cbv beta iota delta [negb];
      repeat first [ apply emits_bind; [|intros ?] | apply emits_ret
                   | apply emits_emit; apply HP; reflexivity
                   | apply emits_fatal; apply HP; reflexivity ]. }
  unfold generateListener.
  apply emits_bind.
  { unfold loadIdentity, ifDebug, debug, fatal, when.
    rewrite ?Hd; cbv beta iota delta [negb];
      repeat first
        [ apply emits_bind; [|intros ?] | apply emits_ret | apply emits_get
        | apply emits_emit; apply HP; reflexivity
        | apply emits_fatal; apply HP; reflexivity
        | apply emits_call; apply HP; reflexivity
        | progress (intros ?; constructor)
        | match goal with |- emits _ (match ?x with _ => _ end) => destruct x end ]. }
  intros key. apply emits_bind.
  { unfold ifDebug, println, debug, when.
    rewrite ?Hd;
      repeat first [ apply emits_bind; [|intros ?] | apply emits_ret
                   | apply emits_emit; apply HP; reflexivity ]. }
  intros _. apply emits_bind.
  { unfold register, ifDebug, startLoading, loadingFailure, println, debug,
      info, error, when.
    rewrite ?Hd; cbv beta iota delta [negb];
      repeat first
        [ apply emits_bind; [|intros ?] | apply emits_ret
        | apply emits_emit; apply HP; reflexivity
        | apply emits_fatal; apply HP; reflexivity
        | apply emits_call; apply HP; reflexivity
        | match goal with |- emits _ (if ?c then _ else _) => destruct c end
        | match goal with |- emits _ (match ?x with _ => _ end) => destruct x end
        | match goal with |- emits _ (let _ := _ in _) => cbv zeta end ]. }
  intros sp. apply emits_bind.
  { unfold loadingSuccess, when.
    rewrite ?Hd; cbv beta iota delta [negb];
      first [apply emits_ret | apply emits_emit; apply HP; reflexivity]. }
  intros _. apply emits_bind; [apply Hdial|]. intros conn.
  apply emits_bind.
  { unfold serveLocally, ifDebug, startLoading, loadingSuccess, loadingFailure,
      println, debug, when.
    rewrite ?Hd; cbv beta iota zeta delta [negb];
      repeat first
        [ apply emits_bind; [|intros ?] | apply emits_ret
        | apply emits_emit; apply HP; reflexivity
        | apply emits_fatal; apply HP; reflexivity
        | apply emits_call; apply HP; reflexivity
        | match goal with |- emits _ (match ?x with _ => _ end) => destruct x end ]. }
  intros local. apply emits_bind.
  { unfold listenRemotely, ifDebug, loadingSuccess, loadingFailure,
      println, debug, when.
    rewrite ?Hd; cbv beta iota zeta delta [negb];
      repeat first
        [ apply emits_bind; [|intros ?] | apply emits_ret
        | apply emits_emit; apply HP; reflexivity
        | apply emits_fatal; apply HP; reflexivity
        | apply emits_call; apply HP; reflexivity
        | match goal with |- emits _ (match ?x with _ => _ end) => destruct x end ]. }
  intros l. cbv zeta. apply emits_bind; [|intros _; apply emits_ret].
  unfold announce, println, info, when.
  repeat first
      [ apply emits_bind; [|intros ?] | apply emits_ret
      | apply emits_emit; apply HP; reflexivity
      | match goal with |- emits _ (if ?c then _ else _) => destruct c end ].
Qed.

Lemma acceptLoop_gated P n config p :
  debugEnabled w = true ->
  (forall e, isLoader e = false -> P e = true) ->
  forall l sp, emits P (acceptLoop w n config l p sp).
Proof.
  intros Hd HP. induction n as [|n IH]; intros l sp; cbn [acceptLoop];
    [apply emits_ret|].
  apply emits_bind; [apply emits_call; apply HP; reflexivity|].
  intros [| |c].
  - apply emits_bind; [|intros l'; apply IH].
    unfold reconnect, info.
    apply emits_bind; [apply emits_emit; apply HP; reflexivity|]. intros _.
    apply emits_bind; [apply emits_emit; apply HP; reflexivity|]. intros _.
    apply emits_bind; [now apply (generateListener_gated P)|].
    intros a. apply emits_ret.
  - apply emits_bind; [apply emits_emit; apply HP; reflexivity|].
    intros _. apply IH.
  - apply emits_bind; [intros s; constructor|]. intros _.
    apply emits_bind; [apply emits_emit; apply HP; reflexivity|].
    intros _. apply IH.
Qed.

(** X13. With the debug level on, a run of [Start] never starts or
    stops the spinner. *)
Theorem debug_level_switches_spinner n config s :
  debugEnabled w = true ->
  Forall (fun e => isLoader e = false) (eventsOf (Start w n config s)).
Proof.
  intros Hd.
  assert (HP : forall e, isLoader e = false -> negb (isLoader e) = true)
    by (now intros e ->).
  assert (H : emits (fun e => negb (isLoader e)) (Start w n config)).
  { unfold Start, printWelcomeMessage, println.
    repeat (apply emits_bind; [apply emits_emit; apply HP; reflexivity|];
            intros _).
    apply emits_bind;
      [repeat (apply emits_bind; [apply emits_emit; apply HP; reflexivity|];
               intros _);
       apply emits_emit; apply HP; reflexivity|].
    intros _. cbv zeta.
    apply emits_bind; [now apply generateListener_gated|]. intros built.
    now apply acceptLoop_gated. }
  eapply List.Forall_impl; [|exact (H s)]. intros e He.
  now apply negb_true_iff in He.
Qed.

(** *** The request for feedback *)

Lemma flag_bind {A B} (m : M A) (k : A -> M B) :
  (forall s, successfulConnectionOccured (stateOf (m s))
             = successfulConnectionOccured s || existsb isRelay (eventsOf (m s))) ->
  (forall a s, successfulConnectionOccured (stateOf (k a s))
               = successfulConnectionOccured s || existsb isRelay (eventsOf (k a s))) ->
  forall s, successfulConnectionOccured (stateOf (bind m k s))
            = successfulConnectionOccured s || existsb isRelay (eventsOf (bind m k s)).
Proof.
  intros Hm Hk s. rewrite state_bind, events_bind, existsb_app.
  destruct (outcomeOf (m s)) as [a|c].
  - now rewrite Hk, Hm, orb_assoc.
  - cbn [existsb]. now rewrite orb_false_r.
Qed.

Lemma flag_quiet {A} K (m : M A) :
  keeps successfulConnectionOccured m -> emits K m ->
  (forall e, K e = true -> isRelay e = false) ->
  forall s, successfulConnectionOccured (stateOf (m s))
            = successfulConnectionOccured s || existsb isRelay (eventsOf (m s)).
Proof.
  intros Hk Hm HK s. rewrite Hk.
  replace (existsb isRelay (eventsOf (m s))) with false;
    [now rewrite orb_false_r|].
  symmetry. specialize (Hm s).
  induction Hm as [|e l He _ IH]; [reflexivity|].
  cbn [existsb]. now rewrite (HK _ He).
Qed.

Lemma dialAttempts_keeps_flag n : forall i addr site,
  keeps successfulConnectionOccured (dialAttempts w n i addr site).
Proof.
  induction n as [|n IH]; intros; cbn [dialAttempts]; keeps_tac; apply IH.
Qed.

Lemma generateListener_keeps_flag config sp0 :
  keeps successfulConnectionOccured (generateListener w config sp0).
Proof.
  unfold generateListener, loadIdentity, register, serveLocally,
    listenRemotely, announce, println, debug, info, error.
  apply keeps_bind; [keeps_tac|]. intros key.
  apply keeps_bind; [keeps_tac|]. intros _.
  apply keeps_bind; [keeps_tac|]. intros sp.
  apply keeps_bind; [keeps_tac|]. intros _.
  apply keeps_bind.
  { unfold dialGateway.
    apply keeps_bind; [unfold println, debug; keeps_tac|]. intros _.
    apply keeps_bind; [apply dialAttempts_keeps_flag|].
    intros [c|]; unfold println, debug; keeps_tac. }
  intros conn. keeps_tac.
Qed.

Lemma acceptLoop_flag n config p : forall l sp s,
  successfulConnectionOccured (stateOf (acceptLoop w n config l p sp s))
  = successfulConnectionOccured s
    || existsb isRelay (eventsOf (acceptLoop w n config l p sp s)).
Proof.
  induction n as [|n IH]; intros l sp; cbn [acceptLoop];
    [intros s; cbn; now rewrite orb_false_r|].
  apply flag_bind; [intros s; cbn; now rewrite orb_false_r|].
  intros [| |c].
  - apply flag_bind; [|intros l'; apply IH].
    unfold reconnect, info.
    apply flag_bind; [intros s; cbn; now rewrite orb_false_r|]. intros _.
    apply flag_bind; [intros s; cbn; now rewrite orb_false_r|]. intros _.
    apply flag_bind; [|intros a s; cbn; now rewrite orb_false_r].
    apply (flag_quiet ofBuild);
      [apply generateListener_keeps_flag | apply generateListener_emits | kinds].
  - apply flag_bind; [intros s; cbn; now rewrite orb_false_r|].
    intros _. apply IH.
  - intros s. cbv [bind setSuccessfulConnectionOccured emit].
    match goal with
    | |- context [acceptLoop w n config l p sp ?s1] =>
      specialize (IH l sp s1);
        destruct (acceptLoop w n config l p sp s1) as [[o s2] e2]
    end.
    cbn [stateOf eventsOf fst snd successfulConnectionOccured app existsb
         isRelay orb] in *.
    rewrite IH. now rewrite orb_true_r.
Qed.

(** X14. In a process that starts with no connection accepted,
    [printFeedbackMessage] after any number of rounds of [Start]
    prints the request for feedback exactly when a connection was
    accepted and handed to a relay. *)
Theorem feedback_asked_after_a_connection n config s :
  successfulConnectionOccured s = false ->
  let run := Start w n config s in
  In thanks (eventsOf (printFeedbackMessage (stateOf run)))
  <-> exists c target, In (GoRelay c target) (eventsOf run).
Proof.
  intros H0. cbv zeta.
  assert (Hflag : successfulConnectionOccured (stateOf (Start w n config s))
                  = existsb isRelay (eventsOf (Start w n config s))).
  { rewrite <- (orb_false_l (existsb _ _)), <- H0. revert s H0.
    intros s _. revert s.
    unfold Start, printWelcomeMessage, println.
    apply flag_bind; [intros s; cbn; now rewrite orb_false_r|]. intros _.
    apply flag_bind; [intros s; cbn; now rewrite orb_false_r|]. intros _.
    cbv zeta. apply flag_bind; [|intros built; apply acceptLoop_flag].
    apply (flag_quiet ofBuild);
      [apply generateListener_keeps_flag | apply generateListener_emits | kinds]. }
  unfold printFeedbackMessage, println, when. cbv [bind emit get ret].
  cbn [eventsOf stateOf outcomeOf fst snd]. rewrite Hflag.
  destruct (existsb isRelay (eventsOf (Start w n config s))) eqn:E.
  - split.
    + intros _. apply existsb_exists in E as (e & He & Hr).
      destruct e; try discriminate Hr. eauto.
    + intros _. cbn. right. right. now left.
  - split.
    + cbn. intros [H|[H|[]]]; vm_compute in H; discriminate H.
    + intros (c & target & Hin). exfalso.
      assert (Ht : existsb isRelay (eventsOf (Start w n config s)) = true)
        by (apply existsb_exists; now exists (GoRelay c target)).
      congruence.
Qed.

(** *** The remote listeners *)

Lemma listenerRun_app next open (e1 e2 : list event) :
  listenerRun next open (e1 ++ e2)
  = match listenerRun next open e1 with
    | Some st => listenerRun (fst st) (snd st) e2
    | None => None
    end.
Proof.
  revert next open. induction e1 as [|e e1 IH]; intros next open;
    [reflexivity|].
  destruct e; cbn [app listenerRun]; try apply IH.
  all: destruct (open && (S _ =? next)%nat); [apply IH | reflexivity].
Qed.

Lemma listenerRun_off (evs : list event) : forall next open,
  Forall (fun e => offListener e = true) evs ->
  listenerRun next open evs = Some (next, open).
Proof.
  induction evs as [|e evs IH]; intros next open H; [reflexivity|].
  inversion H as [|? ? He Hevs]; subst.
  destruct e; try discriminate He; cbn [listenerRun]; now apply IH.
Qed.

Lemma listenerRun_build (evs : list event) : forall next open,
  Forall (fun e => ofBuild e = true) evs ->
  exists st, listenerRun next open evs = Some st.
Proof.
  induction evs as [|e evs IH]; intros next open H; [now eexists|].
  inversion H as [|? ? He Hevs]; subst.
  destruct e; try discriminate He; cbn [listenerRun]; now apply IH.
Qed.

Lemma listenRemotely_listener conn s l s' evs next open :
  listenRemotely w conn s = (Done l, s', evs) ->
  listenerRun next open evs = Some (S next, true).
Proof.
  unfold listenRemotely, ifDebug, loadingSuccess, loadingFailure,
    println, debug, when.
  destruct (debugEnabled w); cbn;
    destruct (sshListen w (nSshListen s)); cbn; intros H;
    try discriminate H; injection H as <- <- <-; reflexivity.
Qed.

Lemma off_weaken (K : event -> bool) (evs : list event) :
  (forall e, K e = true -> offListener e = true) ->
  Forall (fun e => K e = true) evs ->
  Forall (fun e => offListener e = true) evs.
Proof. intros HK H. eapply List.Forall_impl; [|exact H]. exact HK. Qed.

(** A session build asks for one remote listener at most, and closes
    or accepts on none; when it returns, it has made one. *)
Lemma generateListener_listener config sp0 s next open :
  (exists st,
      listenerRun next open (eventsOf (generateListener w config sp0 s)) = Some st)
  /\ forall l p sp,
      outcomeOf (generateListener w config sp0 s) = Done (l, p, sp) ->
      listenerRun next open (eventsOf (generateListener w config sp0 s))
      = Some (S next, true)
      /\ l = nSshListen s
      /\ nSshListen (stateOf (generateListener w config sp0 s)) = S (nSshListen s).
Proof.
  split.
  { apply listenerRun_build. apply generateListener_emits. }
  intros l p sp Ho.
  destruct (generateListener w config sp0 s) as [[o s'] evs] eqn:H.
  cbn [outcomeOf stateOf eventsOf fst snd] in *. subst o.
  destruct (generateListener_bound _ _ _ _ _ _ _ _ H)
    as (_ & _ & Hl & _ & Hn & _).
  split; [|split; assumption].
  destruct (generateListener_done _ _ _ _ _ _ _ _ H)
    as (s2 & e2 & conn & s3 & e3 & lst & port & s4 & e4 & s5 & e5 & e6
        & Hp & Hd & Hlo & Hr & Ha & _ & ->).
  pose proof (prepare_emits config sp0 s) as H2. rewrite Hp in H2.
  pose proof (dialGateway_emits config sp s2) as H3. rewrite Hd in H3.
  pose proof (serveLocally_emits config sp s3) as H4. rewrite Hlo in H4.
  pose proof (announce_emits config sp s5) as H6. rewrite Ha in H6.
  cbn [eventsOf snd] in *.
  rewrite listenerRun_app.
  rewrite (listenerRun_off e2) by (apply (off_weaken ofPrepare); [kinds | exact H2]).
  cbn [fst snd]. rewrite listenerRun_app.
  rewrite (listenerRun_off e3) by (apply (off_weaken ofDial); [kinds | exact H3]).
  cbn [fst snd]. rewrite listenerRun_app.
  rewrite (listenerRun_off e4) by (apply (off_weaken ofLocal); [kinds | exact H4]).
  cbn [fst snd]. rewrite listenerRun_app.
  rewrite (listenRemotely_listener _ _ _ _ _ next open Hr). cbn [fst snd].
  apply listenerRun_off. apply (off_weaken ofAnnounce); [kinds | exact H6].
Qed.

Lemma acceptLoop_listeners n config p : forall l sp s,
  nSshListen s = S l ->
  exists st,
    listenerRun (S l) true (eventsOf (acceptLoop w n config l p sp s)) = Some st.
Proof.
  induction n as [|n IH]; intros l sp s Hn; [now eexists|].
  cbn [acceptLoop]. rewrite events_bind.
  cbn [callAccept outcomeOf stateOf eventsOf fst snd app listenerRun].
  rewrite Nat.eqb_refl. cbn [andb].
  match goal with
  | |- context [eventsOf (_ ?st)] => set (s1 := st)
  end.
  assert (Hn1 : nSshListen s1 = S l) by exact Hn.
  clearbody s1.
  destruct (accept w (nAccept s)) as [| |c].
  - rewrite events_bind, reconnect_run. cbv zeta.
    cbn [outcomeOf stateOf eventsOf fst snd app listenerRun].
    rewrite Nat.eqb_refl. cbn [andb].
    destruct (generateListener_listener config sp s1 (S l) false)
      as [[st Hst] Hdone].
    rewrite listenerRun_app.
    destruct (outcomeOf (generateListener w config sp s1)) as [[[l' p'] sp']|c]
      eqn:Ho.
    + destruct (Hdone l' p' sp' eq_refl) as (Hrun & Hl' & Hn').
      rewrite Hrun. cbn [fst snd].
      rewrite Hl', Hn1. apply IH. now rewrite Hn', Hn1.
    + rewrite Hst. now eexists.
  - rewrite events_bind. unfold info.
    cbn [emit outcomeOf stateOf eventsOf fst snd app listenerRun].
    now apply IH.
  - rewrite events_bind.
    cbn [setSuccessfulConnectionOccured outcomeOf stateOf eventsOf fst snd app].
    rewrite events_bind.
    cbn [emit outcomeOf stateOf eventsOf fst snd app listenerRun].
    now apply IH.
Qed.

(** X15. Through a whole run of [Start], whatever the outside
    answers, every accept and every close is on the remote listener
    made last, and on none that was closed before: after a listener
    is closed, nothing is accepted until a session build has made the
    next one. *)
Theorem accepts_on_the_last_listener n config s :
  exists st,
    listenerRun (nSshListen s) false (eventsOf (Start w n config s)) = Some st.
Proof.
  unfold Start, printWelcomeMessage, println.
  rewrite events_bind. cbn [emit outcomeOf stateOf eventsOf fst snd app listenerRun].
  rewrite events_bind.
  match goal with
  | |- context [listenerRun _ _ (eventsOf ?m ++ _)] =>
    replace (eventsOf m)
      with [Print "Loophole";
            Print " - End to end TLS encrypted TCP communication between you and your clients";
            Print newline; Print newline] by reflexivity;
    replace (outcomeOf m) with (@Done unit tt) by reflexivity;
    replace (stateOf m) with s by reflexivity
  end.
  cbn [app listenerRun]. cbv zeta. rewrite events_bind, listenerRun_app.
  destruct (generateListener_listener config SiteSpecification.zero s
              (nSshListen s) false) as [[st Hst] Hdone].
  destruct (outcomeOf (generateListener w config SiteSpecification.zero s))
    as [[[l p] sp]|c] eqn:Ho.
  - destruct (Hdone l p sp eq_refl) as (Hrun & Hl & Hn).
    rewrite Hrun. cbn [fst snd]. rewrite <- Hl.
    apply acceptLoop_listeners. now rewrite Hn, Hl.
  - rewrite Hst. now eexists.
Qed.

(** *** The lines of the dial loop *)

Lemma dialAttempts_failure_line n : forall i addr site s,
  sshDial w (nDial s) = false ->
  let r := dialAttempts w n (i + 1) addr site (stateOf (callSshDial w addr site s)) in
  List.filter isInfoLine (eventsOf (dialAttempts w (S n) i addr site s))
  = retryLine (i + 1) :: List.filter isInfoLine (eventsOf r).
Proof.
  intros i addr site s Hf. cbn [dialAttempts].
  unfold startLoading, loadingFailure, info, when, retryLine.
  destruct (debugEnabled w);
    cbv [negb bind emit ret callSshDial stateOf outcomeOf eventsOf fst snd];
    rewrite Hf;
    destruct (dialAttempts w n (i + 1) addr site _) as [[o s'] e'];
    cbn [List.filter isInfoLine app fst snd]; reflexivity.
Qed.

Lemma dialAttempts_success_line n i addr site s :
  sshDial w (nDial s) = true ->
  List.filter isInfoLine (eventsOf (dialAttempts w (S n) i addr site s)) = [].
Proof.
  intros Hs. cbn [dialAttempts]. unfold startLoading.
  destruct (debugEnabled w);
    cbv [negb bind emit callSshDial ret stateOf outcomeOf eventsOf fst snd];
    rewrite Hs; reflexivity.
Qed.

Lemma dialAttempts_lines n : forall k i addr site s,
  (k <= n)%nat ->
  (forall j, (j < k)%nat -> sshDial w (nDial s + j) = false) ->
  (k < n -> sshDial w (nDial s + k) = true)%nat ->
  List.filter isInfoLine (eventsOf (dialAttempts w n i addr site s))
  = retryLines k (i + 1).
Proof.
  induction n as [|n IH]; intros k i addr site s Hk Hf Hs.
  - now replace k with 0%nat by lia.
  - destruct k as [|k].
    + apply dialAttempts_success_line.
      rewrite <- (Nat.add_0_r (nDial s)). apply Hs. lia.
    + assert (H0 : sshDial w (nDial s) = false).
      { specialize (Hf 0%nat). rewrite Nat.add_0_r in Hf. apply Hf. lia. }
      rewrite (dialAttempts_failure_line n i addr site s H0). cbv zeta.
      cbn [retryLines]. f_equal. apply IH; [lia| |].
      * intros j Hj. rewrite nDial_callSshDial.
        replace (S (nDial s) + j)%nat with (nDial s + S j)%nat by lia.
        apply Hf. lia.
      * intros Hlt. rewrite nDial_callSshDial.
        replace (S (nDial s) + k)%nat with (nDial s + S k)%nat by lia.
        apply Hs. lia.
Qed.

(** X16. The dial block logs one line "SSH Connection failed, retrying
    in 10 seconds... (Attempt i/5)" for every attempt that failed,
    numbered from 1 in order, and no other line at the info level: so
    too after the fifth failure, which no attempt follows. *)
Theorem failed_dials_are_numbered config sp s k :
  (k <= 5)%nat ->
  (forall j, (j < k)%nat -> sshDial w (nDial s + j) = false) ->
  (k < 5 -> sshDial w (nDial s + k) = true)%nat ->
  List.filter isInfoLine (eventsOf (dialGateway w config sp s)) = retryLines k 1.
Proof.
  intros Hk Hf Hs. unfold dialGateway.
  rewrite !filter_bind.
  assert (Hdbg : forall m : M unit,
             m = (println;; debug "Dialing gateway to establish the tunnel..")
             \/ m = (println;; debug "Dialing SSH Gateway for HTTPS succeeded") ->
             forall s0, List.filter isInfoLine (eventsOf (ifDebug w m s0)) = []
                        /\ outcomeOf (ifDebug w m s0) = Done tt
                        /\ stateOf (ifDebug w m s0) = s0).
  { intros m [-> | ->] s0; unfold ifDebug, println, debug, when;
      now destruct (debugEnabled w). }
  destruct (Hdbg _ (or_introl eq_refl) s) as (-> & -> & ->).
  cbn [app].
  rewrite (dialAttempts_lines 5 k 0 _ _ s Hk Hf Hs).
  change (0 + 1) with 1.
  destruct (dialAttempts w (Z.to_nat sshRetries) 0 _ _ s) as [[[[c|]|c] s1] e1];
    cbn [outcomeOf stateOf eventsOf fst snd].
  - rewrite filter_bind.
    destruct (Hdbg _ (or_intror eq_refl) s1) as (-> & -> & ->).
    rewrite filter_bind. unfold loadingSuccess, when.
    destruct (debugEnabled w); cbn; now rewrite app_nil_r.
  - cbn. now rewrite app_nil_r.
  - now rewrite app_nil_r.
Qed.

(** *** The forwarding line *)

Lemma exits_bind {A B} (m : M A) (k : A -> M B) :
  emits notForwarding m ->
  (forall a s c, outcomeOf (k a s) = Exit c ->
                 Forall (fun e => notForwarding e = true) (eventsOf (k a s))) ->
  forall s c, outcomeOf (bind m k s) = Exit c ->
              Forall (fun e => notForwarding e = true) (eventsOf (bind m k s)).
Proof.
  intros Hm Hk s c. rewrite outcome_bind, events_bind. intros Ho.
  apply Forall_app. split; [apply Hm|].
  destruct (outcomeOf (m s)) as [a|c']; [now apply (Hk a _ c) | constructor].
Qed.

Lemma dialAttempts_notForwarding n : forall i addr site,
  emits notForwarding (dialAttempts w n i addr site).
Proof.
  induction n as [|n IH]; intros; cbn [dialAttempts]; emits_tac;
    try apply IH.
Qed.

(** X17. A session build that ends the process has not printed the
    forwarding line. *)
Theorem forwarding_line_needs_a_whole_build config sp0 s c :
  outcomeOf (generateListener w config sp0 s) = Exit c ->
  ~ In (Print "Forwarding ") (eventsOf (generateListener w config sp0 s)).
Proof.
  intros Ho Hin.
  assert (H : Forall (fun e => notForwarding e = true)
                (eventsOf (generateListener w config sp0 s))).
  { revert s c Ho Hin. intros s c Ho _. revert s c Ho.
    unfold generateListener.
    apply exits_bind; [unfold loadIdentity; emits_tac|]. intros key.
    apply exits_bind; [emits_tac|]. intros _.
    apply exits_bind; [unfold register; emits_tac|]. intros sp.
    apply exits_bind; [emits_tac|]. intros _.
    apply exits_bind.
    { unfold dialGateway. emits_tac. apply dialAttempts_notForwarding. }
    intros conn.
    apply exits_bind; [unfold serveLocally; emits_tac|]. intros local.
    apply exits_bind; [unfold listenRemotely; emits_tac|]. intros l.
    cbv zeta. intros s c. rewrite outcome_bind, announce_run.
    cbn [outcomeOf fst]. discriminate. }
  rewrite List.Forall_forall in H. specialize (H _ Hin). discriminate H.
Qed.

(** *** Reconnecting, from every state the accept loop reaches *)

Lemma bind_loaded {A B} (m : M A) (k : A -> M B) :
  (forall s, publicKey s <> None -> publicKey (stateOf (m s)) <> None) ->
  (forall a s, publicKey s <> None -> publicKey (stateOf (k a s)) <> None) ->
  forall s, publicKey s <> None -> publicKey (stateOf (bind m k s)) <> None.
Proof.
  intros Hm Hk s Hs. rewrite state_bind.
  destruct (outcomeOf (m s)) as [a|c]; [apply Hk|]; now apply Hm.
Qed.

Lemma keeps_loaded {A} (m : M A) :
  keeps publicKey m ->
  forall s, publicKey s <> None -> publicKey (stateOf (m s)) <> None.
Proof. intros Hk s Hs. now rewrite Hk. Qed.

(** With a key loaded, the identity file is left alone. *)
Lemma loadIdentity_loaded config s key :
  publicKey s = Some key ->
  loadIdentity w config s
  = (Done key, s,
     if debugEnabled w then [Log DebugLevel "Checking public key availability"]
     else []).
Proof.
  intros Hk. unfold loadIdentity, ifDebug, debug, when.
  destruct (debugEnabled w); cbv [bind emit ret get]; rewrite Hk; reflexivity.
Qed.

Lemma generateListener_loaded config sp0 s :
  publicKey s <> None ->
  publicKey (stateOf (generateListener w config sp0 s)) <> None.
Proof.
  revert s. unfold generateListener.
  apply bind_loaded.
  { intros s Hs. destruct (publicKey s) as [key|] eqn:Hk; [|congruence].
    rewrite (loadIdentity_loaded config s key Hk). cbn. congruence. }
  intros key. apply keeps_loaded.
  unfold register, serveLocally, listenRemotely, announce, println, debug,
    info, error.
  apply keeps_bind; [keeps_tac|]. intros _.
  apply keeps_bind; [keeps_tac|]. intros sp.
  apply keeps_bind; [keeps_tac|]. intros _.
  apply keeps_bind; [apply dialGateway_keeps_listeners|].
  intros conn. keeps_tac.
Qed.

Lemma acceptLoop_loaded n config p : forall l sp s,
  publicKey s <> None ->
  publicKey (stateOf (acceptLoop w n config l p sp s)) <> None.
Proof.
  induction n as [|n IH]; intros l sp; cbn [acceptLoop];
    [intros s Hs; exact Hs|].
  apply bind_loaded; [intros s Hs; exact Hs|].
  intros [| |c].
  - apply bind_loaded; [|intros l'; apply IH].
    intros s Hs. rewrite reconnect_run. cbv zeta. cbn [stateOf fst snd].
    now apply generateListener_loaded.
  - apply bind_loaded; [intros s Hs; exact Hs | intros _; apply IH].
  - apply bind_loaded; [intros s Hs; exact Hs|]. intros _.
    apply bind_loaded; [intros s Hs; exact Hs | intros _; apply IH].
Qed.

(** With a key loaded, a session build does not parse the identity
    file. *)
Lemma generateListener_no_parse config sp s key :
  publicKey s = Some key ->
  List.filter isParseKey (eventsOf (generateListener w config sp s)) = [].
Proof.
  intros Hk. unfold generateListener. rewrite filter_bind.
  rewrite (loadIdentity_loaded config s key Hk).
  cbn [outcomeOf stateOf eventsOf fst snd].
  replace (List.filter isParseKey
             (if debugEnabled w
              then [Log DebugLevel "Checking public key availability"]
              else [])) with (@nil event) by now destruct (debugEnabled w).
  cbn [app].
  apply (silent isParseKey
           (fun e => ofRegister e || ofDial e || ofEstablish e)); [|kinds].
  apply emits_bind; [emits_tac|]. intros _.
  apply emits_bind;
    [eapply emits_weaken; [|apply register_emits]; kinds|]. intros sp1.
  apply emits_bind; [emits_tac|]. intros _.
  apply emits_bind;
    [eapply emits_weaken; [|apply dialGateway_emits]; kinds|]. intros conn.
  apply emits_bind;
    [eapply emits_weaken; [|apply serveLocally_emits]; kinds|]. intros lst.
  apply emits_bind;
    [eapply emits_weaken; [|apply listenRemotely_emits]; kinds|]. intros l.
  apply emits_bind;
    [eapply emits_weaken; [|apply announce_emits]; kinds|]. intros _.
  apply emits_ret.
Qed.

(** With a key loaded and a site specification not yet in use, the
    registration is called. *)
Lemma prepare_registers config sp s key sp1 failed :
  SiteSpecification.ResultCode sp = 0 ->
  publicKey s = Some key ->
  registerSite w (nRegister s) key (Config.SiteID config) = (sp1, failed) ->
  (exists rest,
      List.filter isRegister (eventsOf (prepare w config sp s))
      = RegisterSite apiURL key (Config.SiteID config) :: rest)
  /\ (failed = false -> outcomeOf (prepare w config sp s) = Done sp1).
Proof.
  intros H0 Hk Hreg.
  unfold prepare, loadIdentity, register, ifDebug, startLoading,
    loadingFailure, loadingSuccess, println, debug, info, error, when.
  rewrite H0. cbn [Z.eqb negb].
  destruct (debugEnabled w);
    cbv [negb bind emit ret get fatal callParsePublicKey callRegisterSite
         callRefreshToken setPublicKey];
    rewrite Hk; cbn -[Token.RefreshToken]; rewrite Hreg;
    destruct failed; cbn -[Token.RefreshToken];
    repeat match goal with
           | |- context [SiteSpecification.ResultCode ?x =? ?c] =>
             destruct (SiteSpecification.ResultCode x =? c);
             cbn -[Token.RefreshToken]
           | |- context [Token.RefreshToken ?a ?b ?c] =>
             destruct (Token.RefreshToken a b c) as [[?|] ?];
             cbn -[Token.RefreshToken]
           | |- context [registerSite w (S ?n) ?k ?i] =>
             destruct (registerSite w (S n) k i) as [? []];
             cbn -[Token.RefreshToken]
           end;
    (split; [eexists; reflexivity | first [reflexivity | discriminate]]).
Qed.

(** A session build whose identity and registration give the site
    [sp] dials the gateway for it, and for no other; when it returns
    it has made the certificate manager, the reverse proxy, the
    server and the loopback listener of that site, and started the
    TLS server task. *)
Lemma generateListener_for config sp0 s sp :
  outcomeOf (prepare w config sp0 s) = Done sp ->
  let r := generateListener w config sp0 s in
  let addr := Endpoint.String_ (Config.GatewayEndpoint config) in
  let site := SiteSpecification.SiteID sp in
  In (SshDial addr site) (eventsOf r)
  /\ Forall (fun e => dialsAs addr site e = true) (eventsOf r)
  /\ (forall built, outcomeOf r = Done built ->
      List.filter isLocalBuild (eventsOf r)
      = localBuild w config site (nListen s)).
Proof.
  intros Hsp. cbv zeta. split; [|split].
  - rewrite generateListener_parts, events_bind, Hsp.
    apply in_or_app. right. rewrite events_bind.
    apply in_or_app. left. apply dialGateway_dials.
  - rewrite generateListener_parts, events_bind, Hsp.
    apply Forall_app. split.
    + eapply List.Forall_impl; [|apply (prepare_emits config sp0 s)]. kinds.
    + apply emits_bind; [apply dialGateway_dialsAs|]. intros conn.
      eapply emits_weaken; [|apply establish_emits]. kinds.
  - intros [[l p] sp'] Hdone.
    destruct (generateListener w config sp0 s) as [[o s'] evs] eqn:Hg.
    cbn [outcomeOf eventsOf fst snd] in *. subst o.
    destruct (generateListener_done _ _ _ _ _ _ _ _ Hg)
      as (s2 & e2 & conn & s3 & e3 & lst & port & s4 & e4 & s5 & e5 & e6
          & Hp & Hd & Hl & Hr & Ha & _ & ->).
    rewrite Hp in Hsp. cbn in Hsp. injection Hsp as ->.
    rewrite !List.filter_app.
    pose proof (prepare_emits config sp0 s) as E2. rewrite Hp in E2.
    pose proof (dialGateway_emits config sp s2) as E3. rewrite Hd in E3.
    pose proof (listenRemotely_emits conn s4) as E5. rewrite Hr in E5.
    pose proof (announce_emits config sp s5) as E6. rewrite Ha in E6.
    cbn [eventsOf snd] in E2, E3, E5, E6.
    rewrite (filter_silent isLocalBuild ofPrepare e2 ltac:(kinds) E2).
    rewrite (filter_silent isLocalBuild ofDial e3 ltac:(kinds) E3).
    rewrite (filter_silent isLocalBuild ofRemote e5 ltac:(kinds) E5).
    rewrite (filter_silent isLocalBuild ofAnnounce e6 ltac:(kinds) E6).
    destruct (serveLocally_done _ _ _ _ _ _ _ Hl) as [-> _].
    cbn [app]. rewrite app_nil_r. f_equal.
    destruct (prepare_keeps_listeners config sp0) as [Kp _].
    specialize (Kp s). rewrite Hp in Kp.
    destruct (dialGateway_keeps_listeners config sp) as (Kd & _ & _).
    specialize (Kd s2). rewrite Hd in Kd. cbn [stateOf fst snd] in *.
    congruence.
Qed.

(** A reconnect from a state with a key loaded. *)
Lemma reconnect_from config l sp s key :
  publicKey s = Some key ->
  let r := reconnect w config l sp s in
  let addr := Endpoint.String_ (Config.GatewayEndpoint config) in
  let rebuilt (site : SiteSpecification.t) :=
    In (SshDial addr (SiteSpecification.SiteID site)) (eventsOf r)
    /\ Forall (fun e => dialsAs addr (SiteSpecification.SiteID site) e = true)
              (eventsOf r)
    /\ (forall l', outcomeOf r = Done l' ->
        List.filter isLocalBuild (eventsOf r)
        = localBuild w config (SiteSpecification.SiteID site) (nListen s)) in
  (exists rest,
      eventsOf r
      = Log InfoLevel "Connection dropped, reconnecting..."
          :: CloseListener l :: rest)
  /\ List.filter isParseKey (eventsOf r) = []
  /\ (SiteSpecification.ResultCode sp <> 0 ->
      List.filter isPrepareCall (eventsOf r) = [] /\ rebuilt sp)
  /\ (SiteSpecification.ResultCode sp = 0 ->
      (exists rest,
          List.filter isRegister (eventsOf r)
          = RegisterSite apiURL key (Config.SiteID config) :: rest)
      /\ forall sp1,
          registerSite w (nRegister s) key (Config.SiteID config) = (sp1, false) ->
          rebuilt sp1).
Proof.
  intros Hk. cbv zeta.
  rewrite reconnect_run. cbv zeta. cbn [eventsOf outcomeOf fst snd].
  assert (Hfor : forall site,
             outcomeOf (prepare w config sp s) = Done site ->
             In (SshDial (Endpoint.String_ (Config.GatewayEndpoint config))
                   (SiteSpecification.SiteID site))
                (Log InfoLevel "Connection dropped, reconnecting..."
                   :: CloseListener l
                   :: eventsOf (generateListener w config sp s))
             /\ Forall (fun e =>
                          dialsAs (Endpoint.String_ (Config.GatewayEndpoint config))
                            (SiteSpecification.SiteID site) e = true)
                  (Log InfoLevel "Connection dropped, reconnecting..."
                     :: CloseListener l
                     :: eventsOf (generateListener w config sp s))
             /\ (forall l' : nat,
                   match outcomeOf (generateListener w config sp s) with
                   | Done rebuilt => Done (fst (fst rebuilt))
                   | Exit c => Exit c
                   end = Done l' ->
                   List.filter isLocalBuild
                     (Log InfoLevel "Connection dropped, reconnecting..."
                        :: CloseListener l
                        :: eventsOf (generateListener w config sp s))
                   = localBuild w config (SiteSpecification.SiteID site)
                       (nListen s))).
  { intros site Hsite.
    destruct (generateListener_for config sp s site Hsite) as (Hin & Hall & Hret).
    split; [right; right; exact Hin|].
    split; [repeat (constructor; [reflexivity|]); exact Hall|].
    intros l' Hl'. cbn [List.filter isLocalBuild].
    destruct (outcomeOf (generateListener w config sp s)) as [built|c] eqn:Ho;
      [|discriminate]. exact (Hret built eq_refl). }
  split; [eexists; reflexivity|].
  split; [cbn [List.filter isParseKey];
          exact (generateListener_no_parse config sp s key Hk)|].
  split.
  - intros Hc. destruct (prepare_reuse config sp s key Hc Hk) as (Hpo & Hps & Hpe).
    split; [|exact (Hfor sp Hpo)].
    cbn [List.filter isPrepareCall].
    rewrite generateListener_parts, events_bind, List.filter_app, Hpo, Hps.
    rewrite (filter_silent isPrepareCall isUI _ ltac:(kinds) Hpe).
    apply (silent isPrepareCall (fun e => ofDial e || ofEstablish e)); [|kinds].
    apply emits_bind.
    + eapply emits_weaken; [|apply dialGateway_emits]. intros e ->. reflexivity.
    + intros conn. eapply emits_weaken; [|apply establish_emits].
      intros e ->. apply orb_true_r.
  - intros Hc.
    destruct (registerSite w (nRegister s) key (Config.SiteID config))
      as [sp1 failed] eqn:Hreg.
    destruct (prepare_registers config sp s key sp1 failed Hc Hk Hreg)
      as ((rest & Hcalls) & Hdone).
    split.
    + cbn [List.filter isRegister].
      rewrite generateListener_parts, filter_bind, Hcalls. cbn [app].
      eexists. reflexivity.
    + intros sp1' [= <- ->]. exact (Hfor sp1 (Hdone eq_refl)).
Qed.

(** The round of the accept loop in which [Accept] returns [io.EOF]. *)
Lemma acceptLoop_eof config l p sp s :
  accept w (nAccept s) = AcceptEOF ->
  exists s',
    publicKey s' = publicKey s
    /\ nListen s' = nListen s
    /\ nRegister s' = nRegister s
    /\ eventsOf (acceptLoop w 1 config l p sp s)
       = Accept l :: eventsOf (reconnect w config l sp s')
    /\ (outcomeOf (acceptLoop w 1 config l p sp s) = Done tt ->
        exists l', outcomeOf (reconnect w config l sp s') = Done l').
Proof.
  intros Hacc. cbn [acceptLoop].
  rewrite events_bind, outcome_bind.
  cbn [callAccept outcomeOf stateOf eventsOf fst snd app]. rewrite Hacc.
  match goal with
  | |- context [eventsOf (_ ?st)] => exists st
  end.
  repeat (split; [reflexivity|]).
  rewrite events_bind, outcome_bind.
  destruct (outcomeOf (reconnect w config l sp _)) as [l'|c].
  - split; [now rewrite app_nil_r | now exists l'].
  - split; [now rewrite app_nil_r | discriminate].
Qed.

(** C2, amended. At every reconnect of a run of [Start], that is in a
    round of its accept loop in which [Accept] returns [io.EOF], from
    every state the loop reaches after the first session build and
    with the site specification that build returned: the old remote
    listener is closed first, then a whole session build is run,
    which does not parse the identity file again. When the site
    specification has a result code other than 0, the build calls
    neither the registration nor the refresh of the token and goes on
    with the same site; when its result code is 0, the build calls
    the registration again, and goes on with the site of its answer
    when that comes without error. The build dials the gateway for
    the site it goes on with, and when it returns it has made a new
    certificate manager, a new reverse proxy, a new server and a new
    loopback listener for that site, and has started a new TLS server
    task on it. *)
Theorem reconnect_rebuilds n config s0 l0 p0 sp s1 e0 s e1 l :
  generateListener w config SiteSpecification.zero s0 = (Done (l0, p0, sp), s1, e0) ->
  acceptLoop w n config l0 p0 sp s1 = (Done tt, s, e1) ->
  accept w (nAccept s) = AcceptEOF ->
  let r := acceptLoop w 1 config l p0 sp s in
  let addr := Endpoint.String_ (Config.GatewayEndpoint config) in
  let rebuilt (site : SiteSpecification.t) :=
    In (SshDial addr (SiteSpecification.SiteID site)) (eventsOf r)
    /\ Forall (fun e => dialsAs addr (SiteSpecification.SiteID site) e = true)
              (eventsOf r)
    /\ (outcomeOf r = Done tt ->
        List.filter isLocalBuild (eventsOf r)
        = localBuild w config (SiteSpecification.SiteID site) (nListen s)) in
  (exists rest,
      eventsOf r
      = Accept l :: Log InfoLevel "Connection dropped, reconnecting..."
          :: CloseListener l :: rest)
  /\ List.filter isParseKey (eventsOf r) = []
  /\ (SiteSpecification.ResultCode sp <> 0 ->
      List.filter isPrepareCall (eventsOf r) = [] /\ rebuilt sp)
  /\ (SiteSpecification.ResultCode sp = 0 ->
      exists key,
        publicKey s = Some key
        /\ (exists rest,
              List.filter isRegister (eventsOf r)
              = RegisterSite apiURL key (Config.SiteID config) :: rest)
        /\ forall sp1,
            registerSite w (nRegister s) key (Config.SiteID config) = (sp1, false) ->
            rebuilt sp1).
Proof.
  intros Hfirst Hloop Hacc. cbv zeta.
  assert (Hkey : publicKey s <> None).
  { pose proof (acceptLoop_loaded n config p0 l0 sp s1) as H.
    rewrite Hloop in H. apply H.
    now destruct (generateListener_bound _ _ _ _ _ _ _ _ Hfirst)
      as (_ & _ & _ & _ & _ & Hk & _). }
  destruct (publicKey s) as [key|] eqn:Hk; [clear Hkey | congruence].
  destruct (acceptLoop_eof config l p0 sp s Hacc)
    as (s' & Hk' & Hl' & Hr' & -> & Hdone).
  rewrite Hk in Hk'.
  destruct (reconnect_from config l sp s' key Hk')
    as ((rest & Hev) & Hparse & Hreuse & Hagain).
  rewrite Hl', Hr' in *.
  assert (Hfor : forall site,
             (In (SshDial (Endpoint.String_ (Config.GatewayEndpoint config))
                    (SiteSpecification.SiteID site))
                 (eventsOf (reconnect w config l sp s'))
              /\ Forall (fun e =>
                           dialsAs (Endpoint.String_ (Config.GatewayEndpoint config))
                             (SiteSpecification.SiteID site) e = true)
                        (eventsOf (reconnect w config l sp s'))
              /\ (forall l', outcomeOf (reconnect w config l sp s') = Done l' ->
                  List.filter isLocalBuild (eventsOf (reconnect w config l sp s'))
                  = localBuild w config (SiteSpecification.SiteID site) (nListen s))) ->
             In (SshDial (Endpoint.String_ (Config.GatewayEndpoint config))
                   (SiteSpecification.SiteID site))
                (Accept l :: eventsOf (reconnect w config l sp s'))
             /\ Forall (fun e =>
                          dialsAs (Endpoint.String_ (Config.GatewayEndpoint config))
                            (SiteSpecification.SiteID site) e = true)
                       (Accept l :: eventsOf (reconnect w config l sp s'))
             /\ (outcomeOf (acceptLoop w 1 config l p0 sp s) = Done tt ->
                 List.filter isLocalBuild
                   (Accept l :: eventsOf (reconnect w config l sp s'))
                 = localBuild w config (SiteSpecification.SiteID site) (nListen s))).
  { intros site (Hin & Hall & Hret).
    split; [right; exact Hin|].
    split; [constructor; [reflexivity | exact Hall]|].
    intros Ho. destruct (Hdone Ho) as [l1 Hl1].
    cbn [List.filter isLocalBuild]. exact (Hret l1 Hl1). }
  split; [rewrite Hev; eexists; reflexivity|].
  split; [exact Hparse|].
  split.
  - intros Hc. destruct (Hreuse Hc) as [Hcalls Hbuilt].
    split; [exact Hcalls | exact (Hfor sp Hbuilt)].
  - intros Hc. destruct (Hagain Hc) as [Hcalls Hbuilt].
    exists key. split; [reflexivity|]. split; [exact Hcalls|].
    intros sp1 Hreg. exact (Hfor sp1 (Hbuilt sp1 Hreg)).
Qed.

End Blocks.
(** *** Runs of the sample worlds *)

Import Samples.

Lemma firstBuild :
  generateListener world config1 SiteSpecification.zero atStart
  = (Done (0%nat, firstEndpoint, site1), afterBuild,
     eventsOf (generateListener world config1 SiteSpecification.zero atStart)).
Proof. vm_compute. reflexivity. Qed.

(** After a reconnect, whose rebuild listens on port 40001, the relay
    of the next connection still dials port 40000. *)
Lemma relays_dial_first_endpoint_witness :
  In (GoRelay 2 "127.0.0.1:40000") (eventsOf (Start world 3 config1 atStart))
  /\ In (NetListen "tcp" ":0")
        (eventsOf (reconnect world config1 0 site1 afterBuild))
  /\ netListen world 1 = Some 40001
  /\ "127.0.0.1:40000" = Endpoint.String_ firstEndpoint.
Proof.
  assert (Hin : In (GoRelay 2 "127.0.0.1:40000")
                   (eventsOf (Start world 3 config1 atStart)))
    by (vm_compute; tauto).
  split; [exact Hin|]. split; [vm_compute; tauto|]. split; [reflexivity|].
  exact (relays_dial_first_endpoint world 3 config1 atStart _ _ _ _ _
           2%nat "127.0.0.1:40000" firstBuild Hin).
Defined.

(** C2. The reconnect of the sample run makes a certificate manager,
    a reverse proxy, a loopback listener and a TLS server task. *)
Lemma reconnect_builds_again :
  let r := reconnect world config1 0 site1 afterBuild in
  outcomeOf r = Done 1%nat
  /\ In (NewCertManager (certManagerFor world "abc123")) (eventsOf r)
  /\ In (NewReverseProxy "http" "127.0.0.1:3000") (eventsOf r)
  /\ In (NetListen "tcp" ":0") (eventsOf r)
  /\ In (GoServeTLS 1) (eventsOf r).
Proof. cbv zeta. repeat split; vm_compute; tauto. Qed.

Lemma firstRound :
  acceptLoop world 1 config1 0 firstEndpoint site1 afterBuild
  = (Done tt, afterRound,
     eventsOf (acceptLoop world 1 config1 0 firstEndpoint site1 afterBuild)).
Proof. vm_compute. reflexivity. Qed.

Lemma renamingBuild :
  generateListener renaming config1 SiteSpecification.zero atStart
  = (Done (0%nat, firstEndpoint, site0 "abc123"), renamingBuilt,
     eventsOf (generateListener renaming config1 SiteSpecification.zero atStart)).
Proof. vm_compute. reflexivity. Qed.

Lemma renamingFirstRound :
  acceptLoop renaming 1 config1 0 firstEndpoint (site0 "abc123") renamingBuilt
  = (Done tt, renamingRound,
     eventsOf (acceptLoop renaming 1 config1 0 firstEndpoint (site0 "abc123")
                 renamingBuilt)).
Proof. vm_compute. reflexivity. Qed.

(** The reconnect of the sample run, whose site has the result code
    200, calls no registration and builds again for abc123. Where the
    registration succeeded with the result code 0, the reconnect
    registers again, and dials and builds for the site zzz999 of the
    second answer. *)
Lemma reconnect_rebuilds_witness :
  (let r := acceptLoop world 1 config1 0 firstEndpoint site1 afterRound in
   accept world (nAccept afterRound) = AcceptEOF
   /\ outcomeOf r = Done tt
   /\ List.filter isPrepareCall (eventsOf r) = []
   /\ In (SshDial "gateway.loophole.host:8022" "abc123") (eventsOf r)
   /\ List.filter isLocalBuild (eventsOf r)
      = localBuild world config1 "abc123" 1)
  /\ (let r := acceptLoop renaming 1 config1 0 firstEndpoint (site0 "abc123")
                 renamingRound in
      accept renaming (nAccept renamingRound) = AcceptEOF
      /\ outcomeOf r = Done tt
      /\ (exists rest,
            List.filter isRegister (eventsOf r)
            = RegisterSite apiURL "ssh-rsa AAAA" "" :: rest)
      /\ In (SshDial "gateway.loophole.host:8022" "zzz999") (eventsOf r)
      /\ List.filter isLocalBuild (eventsOf r)
         = localBuild renaming config1 "zzz999" 1).
Proof.
  cbv zeta. split.
  - assert (Ha : accept world (nAccept afterRound) = AcceptEOF) by reflexivity.
    assert (Ho : outcomeOf (acceptLoop world 1 config1 0 firstEndpoint site1
                              afterRound)
                 = Done tt) by (vm_compute; reflexivity).
    destruct (reconnect_rebuilds world 1 config1 atStart _ _ _ _ _ _ _ 0%nat
                firstBuild firstRound Ha) as (_ & _ & Hreuse & _).
    destruct (Hreuse ltac:(discriminate)) as (Hp & Hin & _ & Hl).
    split; [exact Ha|]. split; [exact Ho|]. split; [exact Hp|].
    split; [exact Hin | exact (Hl Ho)].
  - assert (Ha : accept renaming (nAccept renamingRound) = AcceptEOF)
      by reflexivity.
    assert (Ho : outcomeOf (acceptLoop renaming 1 config1 0 firstEndpoint
                              (site0 "abc123") renamingRound)
                 = Done tt) by (vm_compute; reflexivity).
    destruct (reconnect_rebuilds renaming 1 config1 atStart _ _ _ _ _ _ _ 0%nat
                renamingBuild renamingFirstRound Ha) as (_ & _ & _ & Hagain).
    destruct (Hagain eq_refl) as (key & Hk & Hcalls & Hfor).
    assert (Hkey : key = "ssh-rsa AAAA").
    { assert (H : publicKey renamingRound = Some "ssh-rsa AAAA")
        by (vm_compute; reflexivity).
      rewrite H in Hk. now injection Hk. }
    subst key.
    destruct (Hfor (site0 "zzz999") ltac:(vm_compute; reflexivity))
      as (Hin & _ & Hl).
    split; [exact Ha|]. split; [exact Ho|]. split; [exact Hcalls|].
    split; [exact Hin | exact (Hl Ho)].
Defined.

(** C5. The certificate manager of the sample run lets through
    abc.loophole.site, which is not the name of the site abc123. The
    two names are lower-case ASCII, which the conversion leaves as
    they are. *)
Lemma whitelist_has_second_name :
  let m := certManagerFor world "abc123" in
  In (NewCertManager m)
     (eventsOf (generateListener world config1 SiteSpecification.zero atStart))
  /\ Autocert.allows Some m "abc.loophole.site" = true
  /\ "abc.loophole.site" <> "abc123" ++ ".loophole.site".
Proof.
  cbv zeta. split; [vm_compute; tauto|]. split; [vm_compute; reflexivity|].
  discriminate.
Qed.

Lemma certificate_manager_configuration_witness :
  let m := certManagerFor world "abc123" in
  List.filter isCertManager
    (eventsOf (generateListener world config1 SiteSpecification.zero atStart))
  = [NewCertManager m]
  /\ Autocert.allows Some m "abc123.loophole.site" = true
  /\ Autocert.allows Some m "abc.loophole.site" = true
  /\ Autocert.allows Some m "www.loophole.site" = false
  /\ Autocert.Email m = "abc123@loophole.main.dev"
  /\ Autocert.Cache m = "/home/user/.loophole/certs".
Proof.
  cbv zeta.
  destruct (certificate_manager_configuration world Some config1
              SiteSpecification.zero atStart _ _ _ _ _ firstBuild
              eq_refl eq_refl) as (Hm & Hallow & He & Hc).
  split; [exact Hm|].
  split; [apply Hallow; left; reflexivity|].
  split; [apply Hallow; right; reflexivity|].
  split; [|split; [exact He | exact Hc]].
  destruct (Autocert.allows Some (certManagerFor world "abc123")
              "www.loophole.site") eqn:E; [|reflexivity].
  apply Hallow in E. destruct E as [E|E]; discriminate E.
Defined.

(** Two failures and a success: three dials, a sleep after each
    failure. No success: five dials and the fatal exit. *)
Lemma gateway_dial_retries_witness :
  (let r := generateListener flakyGateway config1 SiteSpecification.zero atStart in
   In (SshDial "gateway.loophole.host:8022" "abc123") (eventsOf r)
   /\ List.filter isDialing (eventsOf r)
      = [SshDial "gateway.loophole.host:8022" "abc123"; Sleep 10;
         SshDial "gateway.loophole.host:8022" "abc123"; Sleep 10;
         SshDial "gateway.loophole.host:8022" "abc123"]
   /\ In (NewCertManager (certManagerFor flakyGateway "abc123")) (eventsOf r))
  /\ (let r := generateListener deadGateway config1 SiteSpecification.zero atStart in
      In (SshDial "gateway.loophole.host:8022" "abc123") (eventsOf r)
      /\ List.filter isDialing (eventsOf r)
         = failedDials 5 "gateway.loophole.host:8022" "abc123"
      /\ outcomeOf r = Exit 1
      /\ exists pre,
          eventsOf r
          = (pre ++ [Log FatalLevel "Dialing SSH Gateway for HTTPS failed."])%list).
Proof.
  cbv zeta.
  assert (Hflaky : In (SshDial "gateway.loophole.host:8022" "abc123")
                      (eventsOf (generateListener flakyGateway config1
                                   SiteSpecification.zero atStart))).
  { vm_compute. repeat first [left; reflexivity | right]. }
  assert (Hdead : In (SshDial "gateway.loophole.host:8022" "abc123")
                     (eventsOf (generateListener deadGateway config1
                                  SiteSpecification.zero atStart))).
  { vm_compute. repeat first [left; reflexivity | right]. }
  split.
  - split; [exact Hflaky|].
    assert (Hf : forall j, (j < 2)%nat ->
                   sshDial flakyGateway (nDial atStart + j) = false).
    { intros j Hj. destruct j as [|[|j]]; [reflexivity | reflexivity | lia]. }
    assert (Hk : (2 < 5)%nat) by lia.
    exact (proj2 (proj1 (proj2 (gateway_dial_retries flakyGateway config1
                                  SiteSpecification.zero atStart))
                    2%nat _ _ Hk Hf eq_refl Hflaky)).
  - split; [exact Hdead|].
    exact (proj2 (proj2 (proj2 (gateway_dial_retries deadGateway config1
                                  SiteSpecification.zero atStart))
                    _ _ (fun _ _ => eq_refl) Hdead)).
Defined.

(** The first registration is refused with 401: one refresh, a second
    registration, and the build goes on to dial for the site of the
    second answer, which it returns. *)
Lemma registration_401_witness :
  let r := generateListener staleToken config1 SiteSpecification.zero atStart in
  let call := RegisterSite apiURL "ssh-rsa AAAA" "" in
  registerSite staleToken 0 "ssh-rsa AAAA" "" = (site401, true)
  /\ List.filter isRefresh (eventsOf r) = [RefreshToken]
  /\ List.filter isRegister (eventsOf r) = [call; call]
  /\ In (SshDial "gateway.loophole.host:8022" "abc123") (eventsOf r)
  /\ outcomeOf r = Done (0%nat, firstEndpoint, site1)
  /\ forall l p sp s' evs, r = (Done (l, p, sp), s', evs) -> sp = site1.
Proof.
  cbv zeta.
  destruct (registration_401 staleToken config1 SiteSpecification.zero atStart)
    as [_ H].
  destruct (H "ssh-rsa AAAA" site401 eq_refl eq_refl eq_refl eq_refl)
    as (Hr & _ & Hok).
  cbv zeta in *.
  destruct Hok as (Hreg & _ & Hdone); [vm_compute; reflexivity|].
  destruct (Hdone eq_refl) as [Hdial Hsite].
  split; [reflexivity|]. split; [exact Hr|]. split; [exact Hreg|].
  split; [exact Hdial|]. split; [vm_compute; reflexivity | exact Hsite].
Defined.

(** With [config.QR] set, the sample run prints the https address and
    renders the http one. *)
Lemma qr_encodes_http_witness :
  Config.QR config1 = true
  /\ List.filter isQR
       (eventsOf (generateListener world config1 SiteSpecification.zero atStart))
     = [QRCode "http://abc123.loophole.site"]
  /\ In (Print "https://abc123.loophole.site")
        (eventsOf (generateListener world config1 SiteSpecification.zero atStart)).
Proof.
  destruct (qr_encodes_http world config1 SiteSpecification.zero atStart
              _ _ _ _ _ firstBuild eq_refl) as (Hq & _ & _).
  split; [reflexivity|]. split; [exact Hq|]. vm_compute. tauto.
Defined.

(** The registration of the world [forbidden] is refused with 403:
    the process exits on the line of that code, with no dial. *)
Lemma refused_registration_is_fatal_witness :
  let r := generateListener forbidden config1 SiteSpecification.zero atStart in
  outcomeOf r = Exit 1
  /\ List.filter isDial (eventsOf r) = []
  /\ exists pre,
      eventsOf r
      = (pre ++ [Log FatalLevel
                   "You don't have required permissions to establish tunnel with given parameters"])%list.
Proof.
  cbv zeta.
  assert (Hkey : outcomeOf (loadIdentity forbidden config1 atStart)
                 = Done "ssh-rsa AAAA") by reflexivity.
  assert (Hcode : SiteSpecification.ResultCode site403 <> 401) by discriminate.
  destruct (refused_registration_is_fatal forbidden config1
              SiteSpecification.zero atStart "ssh-rsa AAAA" site403
              Hkey eq_refl eq_refl Hcode) as (Ho & _ & _ & Hd & Hlast).
  split; [exact Ho|]. split; [exact Hd | exact Hlast].
Defined.

(** The first session build of the sample run: loopback port 40000,
    remote listener 0. *)
Lemma build_returns_what_it_bound_witness :
  netListen world (nListen atStart) = Some 40000
  /\ firstEndpoint = {| Endpoint.Host := "127.0.0.1"; Endpoint.Port := 40000 |}
  /\ nListen afterBuild = 1%nat
  /\ nSshListen afterBuild = 1%nat
  /\ publicKey afterBuild <> None.
Proof.
  destruct (build_returns_what_it_bound world config1 SiteSpecification.zero
              atStart _ _ _ _ _ firstBuild)
    as (_ & _ & _ & Hl & Hn & Hk & _).
  split; [reflexivity|]. split; [reflexivity|].
  split; [exact Hl|]. split; [exact Hn | exact Hk].
Defined.

Lemma build_order_witness :
  let evs :=
    eventsOf (generateListener world config1 SiteSpecification.zero atStart) in
  exists conn,
    before (SshDial "gateway.loophole.host:8022" "abc123")
           (NewCertManager (certManagerFor world "abc123")) evs
    /\ before (NewCertManager (certManagerFor world "abc123")) (GoServeTLS 0) evs
    /\ before (GoServeTLS 0) (SshListen conn "127.0.0.1:80") evs
    /\ before (SshListen conn "127.0.0.1:80") (Print "Forwarding ") evs.
Proof.
  cbv zeta.
  exact (build_order world config1 SiteSpecification.zero atStart
           _ _ _ _ _ firstBuild).
Defined.

(** With the debug level on, three rounds of the sample run start no
    spinner, and the message of the registration comes as a line. *)
Lemma debug_level_switches_spinner_witness :
  debugEnabled verbose = true
  /\ Forall (fun e => isLoader e = false)
            (eventsOf (Start verbose 3 config1 atStart))
  /\ In (Print ("Registering your domain..." ++ newline))
        (eventsOf (Start verbose 3 config1 atStart)).
Proof.
  split; [reflexivity|]. split.
  - exact (debug_level_switches_spinner verbose 3 config1 atStart eq_refl).
  - vm_compute. repeat first [left; reflexivity | right].
Defined.

(** Three rounds of the sample run accept two connections: the
    request for feedback is printed. *)
Lemma feedback_asked_after_a_connection_witness :
  successfulConnectionOccured atStart = false
  /\ In (GoRelay 0 "127.0.0.1:40000") (eventsOf (Start world 3 config1 atStart))
  /\ In thanks
        (eventsOf (printFeedbackMessage (stateOf (Start world 3 config1 atStart)))).
Proof.
  assert (H0 : successfulConnectionOccured atStart = false) by reflexivity.
  assert (Hin : In (GoRelay 0 "127.0.0.1:40000")
                   (eventsOf (Start world 3 config1 atStart))).
  { vm_compute. repeat first [left; reflexivity | right]. }
  split; [exact H0|]. split; [exact Hin|].
  apply (proj2 (feedback_asked_after_a_connection world 3 config1 atStart H0)).
  exists 0%nat, "127.0.0.1:40000". exact Hin.
Defined.

(** The gateway answers the third dial: two numbered lines. *)
Lemma failed_dials_are_numbered_witness :
  List.filter isInfoLine (eventsOf (dialGateway flakyGateway config1 site1 atStart))
  = [Log InfoLevel "SSH Connection failed, retrying in 10 seconds... (Attempt 1/5)";
     Log InfoLevel "SSH Connection failed, retrying in 10 seconds... (Attempt 2/5)"].
Proof.
  apply (failed_dials_are_numbered flakyGateway config1 site1 atStart 2).
  - lia.
  - intros j Hj. destruct j as [|[|j]]; [reflexivity | reflexivity | lia].
  - intros _. reflexivity.
Defined.

(** The gateway never answers: the build exits and no forwarding line
    was printed. *)
Lemma forwarding_line_needs_a_whole_build_witness :
  outcomeOf (generateListener deadGateway config1 SiteSpecification.zero atStart)
  = Exit 1
  /\ ~ In (Print "Forwarding ")
         (eventsOf (generateListener deadGateway config1 SiteSpecification.zero
                      atStart)).
Proof.
  assert (Ho : outcomeOf (generateListener deadGateway config1
                            SiteSpecification.zero atStart) = Exit 1)
    by (vm_compute; reflexivity).
  split; [exact Ho|].
  exact (forwarding_line_needs_a_whole_build deadGateway config1
           SiteSpecification.zero atStart 1 Ho).
Defined.

End LoopholeFacts.

(** ** The command line *)

Module CmdFacts.

Lemma ParseIntBits_Itoa n :
  - 2 ^ 31 <= n < 2 ^ 31 ->
  Strconv.ParseIntBits (Strconv.Itoa n) 32 = (n, None).
Proof.
  intros Hn. unfold Strconv.ParseIntBits.
  destruct (JsonFacts.Itoa_head n) as (c & ds & E & Hc).
  assert (Hplus : Ascii.eqb c "+" = false).
  { destruct Hc as [-> | Hc]; [reflexivity|].
    destruct (Ascii.eqb c "+") eqn:Ec; [|reflexivity].
    apply Ascii.eqb_eq in Ec. subst c. discriminate Hc. }
  rewrite E, Hplus, <- E. unfold Strconv.Itoa.
  rewrite NilZero.isi.
  - cbn [option_map]. rewrite DecimalZ.of_to. cbv zeta.
    change (2 ^ (32 - 1)) with (2 ^ 31).
    destruct (Z.leb_spec (2 ^ 31) n); [lia|].
    destruct (Z.ltb_spec n (- 2 ^ 31)); [lia | reflexivity].
  - destruct n as [|p|p]; cbn; try discriminate.
    intros [= H]. now apply (DecimalPos.Unsigned.to_uint_nonnil p).
  - destruct n as [|p|p]; cbn; try discriminate.
    intros [= H]. now apply (DecimalPos.Unsigned.to_uint_nonnil p).
Qed.

(** X18. [Args] accepts the decimal writing of every 32-bit integer
    as the port, the negative ones and those above 65535 too, and
    [Run] then passes that very number as the port of the
    configuration, with the second argument as the host, or 127.0.0.1
    when there is none. *)
Theorem port_argument_is_any_int32 config n rest :
  - 2 ^ 31 <= n < 2 ^ 31 ->
  Cmd.Args (Strconv.Itoa n :: rest) = None
  /\ exists started,
      Cmd.Run config (Strconv.Itoa n :: rest) = Some started
      /\ Config.Port started = n
      /\ Config.Host started = List.hd "127.0.0.1" rest
      /\ Config.GatewayEndpoint started = Config.GatewayEndpoint config
      /\ Config.IdentityFile started = Config.IdentityFile config.
Proof.
  intros Hn. unfold Cmd.Args, Cmd.Run.
  rewrite (ParseIntBits_Itoa n Hn). cbn [fst snd].
  split; [reflexivity|]. eexists. split; [reflexivity|].
  cbn [Config.Port Config.Host Config.GatewayEndpoint Config.IdentityFile].
  split; [|split; [now destruct rest | split; reflexivity]].
  unfold Loophole.int32. rewrite Z.mod_small by lia. lia.
Qed.

(** A port above 65535 and a host. *)
Lemma port_argument_is_any_int32_witness :
  Cmd.Args ["70000"; "localhost"] = None
  /\ exists started,
      Cmd.Run Samples.config1 ["70000"; "localhost"] = Some started
      /\ Config.Port started = 70000
      /\ Config.Host started = "localhost".
Proof.
  assert (Hn : - 2 ^ 31 <= 70000 < 2 ^ 31) by lia.
  destruct (port_argument_is_any_int32 Samples.config1 70000 ["localhost"] Hn)
    as (Ha & started & Hr & Hp & Hh & _).
  split; [exact Ha|]. exists started. split; [exact Hr|].
  split; [exact Hp | exact Hh].
Defined.

Lemma uint_of_string_digits s : forall d,
  NilEmpty.uint_of_string s = Some d -> Shapes.allDigits s = true.
Proof.
  induction s as [|c s IH]; intros d; [reflexivity|].
  cbn [NilEmpty.uint_of_string Shapes.allDigits].
  destruct (NilEmpty.uint_of_string s) as [d'|]; [|discriminate].
  rewrite (IH d' eq_refl), andb_true_r. clear.
  JsonFacts.each_byte c; cbn; intros H; try discriminate H; reflexivity.
Qed.

(** X19. An argument list that [Args] accepts has a first argument
    made of one optional sign and then one or more decimal digits and
    nothing else, and the number it writes fits 32 bits. *)
Theorem accepted_port_is_a_signed_decimal args :
  Cmd.Args args = None ->
  exists arg0 rest sign digits n,
    args = arg0 :: rest
    /\ arg0 = sign ++ digits
    /\ (sign = "" \/ sign = "+" \/ sign = "-")
    /\ digits <> ""
    /\ Shapes.allDigits digits = true
    /\ Strconv.ParseIntBits arg0 32 = (n, None)
    /\ - 2 ^ 31 <= n < 2 ^ 31.
Proof.
  destruct args as [|arg0 rest]; [discriminate|].
  unfold Cmd.Args.
  destruct (Strconv.ParseIntBits arg0 32) as [n e] eqn:E.
  cbn [snd]. destruct e; [discriminate|]. intros _.
  assert (Hsyntax : exists sign digits,
             arg0 = sign ++ digits
             /\ (sign = "" \/ sign = "+" \/ sign = "-")
             /\ digits <> "" /\ Shapes.allDigits digits = true).
  { revert E. unfold Strconv.ParseIntBits.
    destruct arg0 as [|c r]; [discriminate|].
    destruct (Ascii.eqb c "+") eqn:Ec.
    - apply Ascii.eqb_eq in Ec. subst c.
      unfold NilZero.uint_of_string.
      destruct r as [|c r]; [discriminate|].
      destruct (NilEmpty.uint_of_string (String c r)) as [d|] eqn:Ed;
        [|discriminate].
      intros _. exists "+", (String c r).
      split; [reflexivity|]. split; [auto|]. split; [discriminate|].
      exact (uint_of_string_digits _ _ Ed).
    - unfold NilZero.int_of_string.
      destruct (Ascii.eqb c "-") eqn:Em.
      + apply Ascii.eqb_eq in Em. subst c.
        unfold NilZero.uint_of_string.
        destruct r as [|c r]; [discriminate|].
        destruct (NilEmpty.uint_of_string (String c r)) as [d|] eqn:Ed;
          [|discriminate].
        intros _. exists "-", (String c r).
        split; [reflexivity|]. split; [auto|]. split; [discriminate|].
        exact (uint_of_string_digits _ _ Ed).
      + unfold NilZero.uint_of_string.
        destruct (NilEmpty.uint_of_string (String c r)) as [d|] eqn:Ed;
          [|discriminate].
        intros _. exists "", (String c r).
        split; [reflexivity|]. split; [auto|]. split; [discriminate|].
        exact (uint_of_string_digits _ _ Ed). }
  destruct Hsyntax as (sign & digits & H1 & H2 & H3 & H4).
  exists arg0, rest, sign, digits, n.
  repeat split; try assumption.
  - revert E. unfold Strconv.ParseIntBits.
    destruct (match arg0 with EmptyString => None | String c r => _ end)
      as [v|]; [|discriminate].
    cbv zeta. change (2 ^ (32 - 1)) with (2 ^ 31).
    destruct (Z.leb_spec (2 ^ 31) v); [discriminate|].
    destruct (Z.ltb_spec v (- 2 ^ 31)); [discriminate|].
    intros [= <-]. lia.
  - revert E. unfold Strconv.ParseIntBits.
    destruct (match arg0 with EmptyString => None | String c r => _ end)
      as [v|]; [|discriminate].
    cbv zeta. change (2 ^ (32 - 1)) with (2 ^ 31).
    destruct (Z.leb_spec (2 ^ 31) v); [discriminate|].
    destruct (Z.ltb_spec v (- 2 ^ 31)); [discriminate|].
    intros [= <-]. lia.
Qed.

Lemma accepted_port_is_a_signed_decimal_witness :
  Cmd.Args ["-1"] = None
  /\ exists arg0 rest sign digits n,
      ["-1"] = arg0 :: rest
      /\ arg0 = sign ++ digits
      /\ (sign = "" \/ sign = "+" \/ sign = "-")
      /\ digits <> ""
      /\ Shapes.allDigits digits = true
      /\ Strconv.ParseIntBits arg0 32 = (n, None)
      /\ - 2 ^ 31 <= n < 2 ^ 31.
Proof.
  assert (H : Cmd.Args ["-1"] = None) by reflexivity.
  split; [exact H|].
  exact (accepted_port_is_a_signed_decimal ["-1"] H).
Defined.

End CmdFacts.

(** ** The relay *)

Module RelayFacts.

Import Relay Interleaving.

Section Facts.

Variable debugEnabled : bool.

Lemma shape_step a s s' :
  shape s = true -> step debugEnabled a s = Some s' -> shape s' = true.
Proof.
  destruct s as [m tc tl cc lc lg].
  destruct m, tc, tl, cc, lc; try discriminate; intros _;
    destruct a as [|[] []|[]]; cbn; try discriminate;
    destruct debugEnabled; cbn; intros [= <-]; reflexivity.
Qed.

Lemma shape_run sched : forall s s',
  shape s = true -> run debugEnabled sched s = Some s' -> shape s' = true.
Proof.
  induction sched as [|a sched IH]; intros s s' Hs; cbn [run].
  - now intros [= <-].
  - destruct (step debugEnabled a s) as [s1|] eqn:E; [|discriminate].
    apply IH. exact (shape_step _ _ _ Hs E).
Qed.

Lemma quietLog_step a s s' :
  quietLog debugEnabled s -> step debugEnabled a s = Some s' -> quietLog debugEnabled s'.
Proof.
  unfold quietLog. intros [Hl Hd]. destruct s as [m tc tl cc lc lg].
  cbn [log] in *.
  destruct a as [|d err|d]; cbn.
  - destruct m; try discriminate; intros [= <-]; split; assumption.
  - destruct d; cbn; [destruct tc | destruct tl]; try discriminate;
      destruct err, debugEnabled; cbn; intros [= <-]; cbn [log];
      first
        [ split; assumption
        | split; [|discriminate];
          apply Forall_app; split; [assumption|];
          repeat constructor;
          first [now exists ToClient | now exists ToLocal] ].
  - destruct m, d; cbn; try discriminate;
      [destruct tc | destruct tl]; try discriminate;
      intros [= <-]; split; assumption.
Qed.

Lemma quietLog_run sched : forall s s',
  quietLog debugEnabled s -> run debugEnabled sched s = Some s' -> quietLog debugEnabled s'.
Proof.
  induction sched as [|a sched IH]; intros s s' Hs; cbn [run].
  - now intros [= <-].
  - destruct (step debugEnabled a s) as [s1|] eqn:E; [|discriminate].
    apply IH. exact (quietLog_step _ _ _ Hs E).
Qed.

(** C3, amended. In every state [handleClient] can reach: the local
    connection has not been closed; once both goroutines are started
    and it waits, neither of them has finished; when it has returned,
    the client connection is closed, the copy of exactly one
    direction has returned and handed over its value, and the
    goroutine of the other direction has not finished: its copy is
    still under way, or has returned and the goroutine waits in its
    send; as soon as the copy of one direction has returned,
    [handleClient] can go on to return without the other copy
    returning; and the log holds nothing but debug lines about copy
    errors, none with the debug level off. *)
Theorem relay_returns_on_first_copy sched s :
  run debugEnabled sched init = Some s ->
  localClosed s = false
  /\ (main s = Receiving -> running (toClient s) = true /\ running (toLocal s) = true)
  /\ (main s = Returned ->
      clientClosed s = true
      /\ ((toClient s = Finished /\ running (toLocal s) = true)
          \/ (toLocal s = Finished /\ running (toClient s) = true)))
  /\ (forall d, copierOf d s = Sending -> main s <> Returned ->
      exists sched' s',
        forallb (fun a => negb (isCopyReturns a)) sched' = true
        /\ run debugEnabled sched' s = Some s'
        /\ main s' = Returned)
  /\ quietLog debugEnabled s.
Proof.
  intros Hrun.
  assert (Hshape : shape s = true) by (eapply shape_run; [|exact Hrun]; reflexivity).
  assert (Hlog : quietLog debugEnabled s).
  { eapply quietLog_run; [|exact Hrun]. split; [constructor | reflexivity]. }
  clear Hrun. split; [|split; [|split; [|split; [|exact Hlog]]]].
  - destruct s as [m tc tl cc []]; [destruct m; discriminate | reflexivity].
  - destruct s as [m tc tl cc lc lg]. cbn. intros ->.
    destruct tc, tl, cc, lc; try discriminate; split; reflexivity.
  - destruct s as [m tc tl cc lc lg]. cbn. intros ->.
    destruct tc, tl, cc, lc; try discriminate; split; try reflexivity;
      first [left; split; reflexivity | right; split; reflexivity].
  - intros d Hd Hm. destruct s as [m tc tl cc lc lg].
    cbn [main] in Hm. clear Hlog.
    destruct d; cbn [copierOf toClient toLocal] in Hd; rewrite Hd in *; clear Hd.
    + destruct m, tl, cc, lc; try discriminate Hshape; try congruence;
        first
          [ exists [StepMain; Handoff ToClient; StepMain]; eexists;
            repeat split; reflexivity
          | exists [Handoff ToClient; StepMain]; eexists;
            repeat split; reflexivity
          | exists [StepMain]; eexists; repeat split; reflexivity ].
    + destruct m, tc, cc, lc; try discriminate Hshape; try congruence;
        first
          [ exists [Handoff ToLocal; StepMain]; eexists;
            repeat split; reflexivity
          | exists [StepMain]; eexists; repeat split; reflexivity ].
Qed.

End Facts.

(** C3. Both goroutines started, the copy from the client ends and is
    received, [handleClient] returns: the client connection is closed
    and the local one is not. *)
Lemma relay_leaves_local_open :
  exists s,
    run false
      [StepMain; StepMain; StepMain; CopyReturns ToLocal false;
       Handoff ToLocal; StepMain] init = Some s
    /\ main s = Returned
    /\ clientClosed s = true
    /\ localClosed s = false.
Proof. eexists. repeat split; reflexivity. Qed.

Lemma relay_returns_on_first_copy_witness :
  let sched := [StepMain; StepMain; StepMain; CopyReturns ToClient true] in
  exists s,
    run true sched init = Some s
    /\ copierOf ToClient s = Sending
    /\ log s = [DebugError "Error copying local -> client:"]
    /\ localClosed s = false
    /\ exists sched' s',
        forallb (fun a => negb (isCopyReturns a)) sched' = true
        /\ run true sched' s = Some s'
        /\ main s' = Returned.
Proof.
  cbv zeta. eexists. split; [reflexivity|].
  split; [reflexivity|]. split; [reflexivity|].
  match goal with
  | |- localClosed ?s = false /\ _ =>
    destruct (relay_returns_on_first_copy true
                [StepMain; StepMain; StepMain; CopyReturns ToClient true]
                s eq_refl) as (Hl & _ & _ & Hlive & _)
  end.
  split; [exact Hl|]. apply (Hlive ToClient); [reflexivity | discriminate].
Defined.

End RelayFacts.
